(** * pdf-efficient-loader: a shallow embedding of [index.js]

    The development follows the source file top to bottom:

    - the opcode table [pdfjsLib.OPS] and [countGraphicsObjects];
    - JavaScript numbers (IEEE 754 binary64) for the averages and the
      confidence score;
    - the values a PDF dictionary lookup can produce and the
      dictionary-based counting of [extractPdfSmart];
    - the collaborators (file system, parser, document, page, callbacks)
      and a state-and-exception monad that keeps a log of every
      collaborator call;
    - the five exported entry points;
    - the properties. *)

From Stdlib Require Import ZArith List Bool Lia PeanoNat String Ascii Floats.
Import ListNotations.

Set Warnings "-inexact-float,-register-all".
Set Implicit Arguments.

(* ================================================================== *)
(** * 1. The opcode table and the instruction-stream counter          *)
(* ================================================================== *)

(** [pdfjsLib.OPS] is a table of numeric opcodes that belongs to
    pdfjs-dist; [index.js] reads sixteen of its entries by name.  The
    table is a parameter of the development; the only fact about it that
    the counter relies on is that the sixteen codes are pairwise
    different ([ops_distinct] below). *)
Record OpsTable : Type := {
  paintImageXObject       : Z;
  paintInlineImageXObject : Z;
  paintImageMaskXObject   : Z;
  stroke       : Z;
  fill         : Z;
  eoFill       : Z;
  fillStroke   : Z;
  eoFillStroke : Z;
  closePath    : Z;
  rectangle    : Z;
  moveTo       : Z;
  lineTo       : Z;
  curveTo      : Z;
  curveTo2     : Z;
  curveTo3     : Z;
  constructPath : Z
}.

(** [Array.prototype.includes] on an array of integer opcodes. *)
Definition includes (arr : list Z) (op : Z) : bool :=
  existsb (Z.eqb op) arr.

(** The object returned by [countGraphicsObjects]. *)
Module Counts.
Record t : Type := mk { imageCount : nat; vectorCount : nat }.
End Counts.

Section ObjectCounter.

Variable OPS : OpsTable.

Definition IMAGE_OPS : list Z :=
  [ paintImageXObject OPS; paintInlineImageXObject OPS;
    paintImageMaskXObject OPS ].

Definition VECTOR_OPS : list Z :=
  [ stroke OPS; fill OPS; eoFill OPS; fillStroke OPS; eoFillStroke OPS;
    closePath OPS; rectangle OPS; moveTo OPS; lineTo OPS;
    curveTo OPS; curveTo2 OPS; curveTo3 OPS; constructPath OPS ].

(** The array literal tested inside the loop (the operators that
    "terminate a vector object"). *)
Definition TERMINATOR_OPS : list Z :=
  [ stroke OPS; fill OPS; eoFill OPS; fillStroke OPS; eoFillStroke OPS ].

(** The remaining members of [VECTOR_OPS] other than [constructPath];
    the source has no name for them, the properties do. *)
Definition SEGMENT_OPS : list Z :=
  [ closePath OPS; rectangle OPS; moveTo OPS; lineTo OPS;
    curveTo OPS; curveTo2 OPS; curveTo3 OPS ].

(** The three mutable locals of [countGraphicsObjects]. *)
Record ScanState : Type := mkScan {
  imageCount : nat;
  vectorCount : nat;
  inVectorSequence : bool
}.

Definition scan0 : ScanState := mkScan 0 0 false.

(** One iteration of the [for] loop over [fnArray]. *)
Definition scan_step (st : ScanState) (op : Z) : ScanState :=
  if includes IMAGE_OPS op then
    mkScan (S (imageCount st)) (vectorCount st) false
  else if includes VECTOR_OPS op then
    (* first [if]: the construct-path case *)
    let st1 :=
      if Z.eqb op (constructPath OPS)
      then mkScan (imageCount st) (S (vectorCount st)) false
      else st in
    (* second [if] / [else], entered whatever the first one did *)
    if includes TERMINATOR_OPS op then
      if inVectorSequence st1
      then mkScan (imageCount st1) (S (vectorCount st1)) false
      else st1
    else
      mkScan (imageCount st1) (vectorCount st1) true
  else st.

Definition scan_ops (fnArray : list Z) : ScanState :=
  fold_left scan_step fnArray scan0.

(** The tail of the function: the "sequence remained open" rule and
    the returned object. *)
Definition finish (st : ScanState) : Counts.t :=
  Counts.mk (imageCount st)
            (if inVectorSequence st then S (vectorCount st)
             else vectorCount st).

Definition countGraphicsObjects (fnArray : list Z) : Counts.t :=
  finish (scan_ops fnArray).

(** The sixteen opcodes are pairwise different. *)
Definition ops_distinct : Prop :=
  NoDup (IMAGE_OPS ++ TERMINATOR_OPS ++ SEGMENT_OPS ++ [constructPath OPS]).

End ObjectCounter.

(** A concrete table with sixteen different codes, used to run the
    counter on explicit streams. *)
Definition sample_OPS : OpsTable := {|
  paintImageXObject := 85; paintInlineImageXObject := 86;
  paintImageMaskXObject := 83;
  stroke := 20; fill := 22; eoFill := 23; fillStroke := 24;
  eoFillStroke := 25;
  closePath := 18; rectangle := 19; moveTo := 13; lineTo := 14;
  curveTo := 15; curveTo2 := 16; curveTo3 := 17;
  constructPath := 91
|}.

(* ================================================================== *)
(** * 2. JavaScript numbers                                            *)
(* ================================================================== *)

(** A JavaScript number is an IEEE 754 binary64 value; the kernel's
    primitive [float] is the same format with the same rounding
    (nearest, ties to even), so [+], [*], [/], [<], [<=] and [==] on
    numbers are the primitive operations.  Page numbers and counters are
    non-negative integers and are kept in [nat]; they enter floating
    point through [Number_of_nat], which is exact below 2^53. *)

Open Scope bool_scope.

Definition Number_of_Z (z : Z) : float :=
  SF2Prim (binary_normalize prec emax z 0 false).

Definition Number_of_nat (n : nat) : float := Number_of_Z (Z.of_nat n).

(** [Math.min(a, b)]: NaN if either argument is NaN, and [-0] is smaller
    than [+0]. *)
Definition Math_min (a b : float) : float :=
  if is_nan a || is_nan b then nan
  else if (a <? b)%float then a
  else if (b <? a)%float then b
  else if get_sign a then a else b.

(** [Math.round(x)]: the integer nearest to [x], a tie going towards
    +infinity; NaN, the infinities and the zeros are returned as they
    are, and a negative [x] that rounds to zero gives [-0]. *)
Definition Math_round (x : float) : float :=
  match Prim2SF x with
  | S754_finite s m e =>
      if (0 <=? e)%Z then x
      else
        let k := (- e)%Z in
        let num := if s then Z.neg m else Z.pos m in
        let n := ((2 * num + 2 ^ k) / 2 ^ (k + 1))%Z in
        if (n =? 0)%Z then (if s then (-0)%float else 0%float)
        else Number_of_Z n
  | _ => x
  end.

(** [parseFloat(x.toFixed(2))].  [toFixed(2)] prints the integer [n]
    nearest to [|x| * 100] (a tie going up) with a decimal point before
    its last two digits, and the sign of [x] in front; [parseFloat]
    reads the nearest binary64 value back.  Below 2^46 the integer [n]
    is exact in binary64 and the correctly rounded quotient [n / 100] is
    that nearest value; from 2^46 on, neighbouring binary64 values are
    more than 0.01 apart and the value read back is [x] itself. *)
Definition toFixed2 (x : float) : float :=
  match Prim2SF x with
  | S754_finite s m e =>
      if (abs x <? 0x1p46)%float then
        let n :=
          if (0 <=? e)%Z then (Z.pos m * 2 ^ e * 100)%Z
          else ((200 * Z.pos m + 2 ^ (- e)) / 2 ^ (- e + 1))%Z in
        let q := (Number_of_Z n / 100)%float in
        if s then (- q)%float else q
      else x
  | S754_zero _ => 0%float
  | _ => x
  end.

(** The three document types. *)
Inductive PdfType : Type := ty_scan | ty_vector | ty_text.

(** The classification block of [analyzePdfType]: the [if] / [else if] /
    [else] chain over the three averages. *)
Definition classify (avgTextPerPage avgImagesPerPage avgVectorsPerPage : float)
  : PdfType * float :=
  if (avgTextPerPage <? 30)%float && (0 <? avgImagesPerPage)%float
     && (avgImagesPerPage <=? 100)%float then
    (ty_scan, Math_min 0.95 (0.7 + (avgImagesPerPage / 100) * 0.25)%float)
  else if (avgTextPerPage <? 30)%float && (avgImagesPerPage =? 0)%float
          && (0 <? avgVectorsPerPage)%float then
    (ty_vector, Math_min 0.9 (0.7 + (avgVectorsPerPage / 10) * 0.2)%float)
  else
    (ty_text, Math_min 0.9 (0.6 + (avgTextPerPage / 100) * 0.3)%float).

(** The page-sampling arithmetic of [analyzePdfType].  With
    [pagesToAnalyze = 0] the JavaScript quotient is not finite; the
    loop then runs zero times and [step] is never read, so the value
    [1] that [nat] division gives there is not observable. *)
Definition pagesToAnalyze_of (samplePages numPages : nat) : nat :=
  Nat.min samplePages numPages.

Definition step_of (samplePages numPages : nat) : nat :=
  Nat.max 1 (numPages / pagesToAnalyze_of samplePages numPages).

Definition pageNum_of (samplePages numPages i : nat) : nat :=
  Nat.min (1 + i * step_of samplePages numPages) numPages.

(** The page numbers visited by the sampling loop, in order. *)
Definition sampledPageNums (samplePages numPages : nat) : list nat :=
  map (pageNum_of samplePages numPages)
      (seq 0 (pagesToAnalyze_of samplePages numPages)).

(* ================================================================== *)
(** * 3. PDF dictionaries as the code sees them                        *)
(* ================================================================== *)

(** What a lookup in a PDF dictionary can hand back, as far as
    [index.js] can tell values apart: it tests truthiness, the presence
    of [get] and [getKeys], the [name] property, and whether the value
    exceeds 1000.  [VOther] stands for every truthy value on which all
    of these tests fail (an array, a stream, [true]); numbers are the
    integers a PDF image declares as its size.  In a dictionary, an
    entry whose value is [None] is one whose lookup throws. *)
Inductive JsVal : Type :=
| VUndefined                     (* undefined or null *)
| VNum (z : Z)                   (* a number *)
| VName (name : string)          (* a Name object: has a [name] property *)
| VOther                         (* truthy; no get, getKeys, name; not > 1000 *)
| VDict (entries : list (string * option JsVal)).

Definition Dict : Type := list (string * option JsVal).

(** Code inside a [try] block: [None] is a thrown exception. *)
Definition Try (A : Type) : Type := option A.

(** [dict.get(key)]: [undefined] for an absent key. *)
Fixpoint dict_get (d : Dict) (key : string) : Try JsVal :=
  match d with
  | [] => Some VUndefined
  | (k, v) :: d' => if String.eqb k key then v else dict_get d' key
  end.

(** [dict.getKeys()]. *)
Definition getKeys (d : Dict) : list string := map fst d.

(** [v.get(key)]: a TypeError when [v] has no [get] method. *)
Definition call_get (v : JsVal) (key : string) : Try JsVal :=
  match v with
  | VDict d => dict_get d key
  | _ => None
  end.

(** [v?.get(key)]: short-circuits to [undefined] on undefined or null. *)
Definition opt_call_get (v : JsVal) (key : string) : Try JsVal :=
  match v with
  | VUndefined => Some VUndefined
  | _ => call_get v key
  end.

(** [v?.name]; [None] stands for [undefined]. *)
Definition opt_name (v : JsVal) : option string :=
  match v with
  | VName s => Some s
  | _ => None
  end.

(** [subtype === s] for [subtype = v?.name]. *)
Definition name_is (v : JsVal) (s : string) : bool :=
  match opt_name v with
  | Some n => String.eqb n s
  | None => false
  end.

Definition truthy (v : JsVal) : bool :=
  match v with
  | VUndefined => false
  | VNum z => negb (z =? 0)%Z
  | _ => true
  end.

(** [(v || 0) > 1000]. *)
Definition gt1000 (v : JsVal) : bool :=
  match v with
  | VNum z => (1000 <? z)%Z
  | _ => false
  end.

(** ** Dictionary-based counting ([extractPdfSmart], the [try] block of
       the page loop).  The running totals [(totalImages, totalVectors)]
       are updated in place, so what was added before an exception is
       kept. *)

(** Body of [for (const key of keys)]: an inner [try] / [catch] around
    one XObject entry. *)
Definition smart_xobject_entry (xobjects : Dict) (tot : nat * nat)
                               (key : string) : nat * nat :=
  match dict_get xobjects key with
  | None => tot
  | Some (VDict xobj) =>
      match dict_get xobj "Subtype" with
      | None => tot
      | Some subtype =>
          if name_is subtype "Image" then (S (fst tot), snd tot)
          else if name_is subtype "Form" then (fst tot, S (snd tot))
          else tot
      end
  | Some _ => tot
  end.

(** [if (x && x.getKeys) totalVectors += x.getKeys().length]. *)
Definition add_keys (x : JsVal) (tot : nat * nat) : nat * nat :=
  match x with
  | VDict d => (fst tot, snd tot + List.length (getKeys d))
  | _ => tot
  end.

(** The outer [try] / [catch] of the page loop. *)
Definition smart_page_counts (pageDict : JsVal) (tot : nat * nat)
  : nat * nat :=
  match opt_call_get pageDict "Resources" with
  | None => tot
  | Some resources =>
      if truthy resources then
        match call_get resources "XObject" with
        | None => tot
        | Some xobjects =>
            let tot1 :=
              match xobjects with
              | VDict xs =>
                  fold_left (smart_xobject_entry xs) (getKeys xs) tot
              | _ => tot
              end in
            match call_get resources "Pattern" with
            | None => tot1
            | Some patterns =>
                match call_get resources "Shading" with
                | None => tot1
                | Some shadings => add_keys shadings (add_keys patterns tot1)
                end
            end
        end
      else tot
  end.

(** ** Large-image detection ([analyzePdfType]) *)

(** One XObject entry: does it reach [pagesWithLargeImages++; break]?
    The inner [try] / [catch] turns every exception into "no". *)
Definition entry_is_large (xobjects : Dict) (key : string) : bool :=
  match dict_get xobjects key with
  | None => false
  | Some xobj =>
      match opt_call_get xobj "Subtype" with
      | None => false
      | Some subtype =>
          if name_is subtype "Image" then
            match call_get xobj "Width" with
            | None => false
            | Some width =>
                match call_get xobj "Height" with
                | None => false
                | Some height => gt1000 width && gt1000 height
                end
            end
          else false
      end
  end.

(** The block guarded by [counts.imageCount > 0]; [None] when an
    exception escapes to the enclosing [catch], otherwise whether
    [pagesWithLargeImages] is incremented. *)
Definition large_image_page (pageDict : JsVal) : Try bool :=
  match opt_call_get pageDict "Resources" with
  | None => None
  | Some resources =>
      match opt_call_get resources "XObject" with
      | None => None
      | Some (VDict xs) => Some (existsb (entry_is_large xs) (getKeys xs))
      | Some _ => Some true
      end
  end.

(* ================================================================== *)
(** * 4. Collaborators, options and results                            *)
(* ================================================================== *)

(** The [intent] passed to [page.getOperatorList]. *)
Inductive Intent : Type := display | print.

(** A page proxy: what each of its two promises settles to ([None]: it
    rejects), and its dictionary. *)
Record Page : Type := {
  getTextContent : option (list string);       (* the [str] of each item *)
  getOperatorList : Intent -> option (list Z); (* [fnArray] *)
  _pageDict : JsVal
}.

Record PDFDocument : Type := {
  numPages : nat;
  getPage : nat -> option Page                 (* [None]: the promise rejects *)
}.

Definition bytes : Type := list Byte.byte.

(** The three kinds of source that the type declarations admit. *)
Inductive PdfSource : Type :=
| SrcString (path : string)
| SrcBuffer (data : bytes)
| SrcUint8Array (data : bytes).      (* a Uint8Array that is not a Buffer *)

(** The argument of [onPageProcessed]. *)
Record PageProcessedInfo : Type := {
  pageNum : nat;
  totalPages : nat;
  currentImages : nat;
  currentVectors : nat
}.

(** The argument of [onProgress], one constructor per [stage]. *)
Inductive ProgressInfo : Type :=
| analyzing                                        (* progress: 0 *)
| analyzed (pdfType : PdfType) (confidence : float) (* progress: 0.1 *)
| extracting (progress : float) (currentPage totalPages : nat).

(** A callback is observed through one thing only: whether a call
    returns ([true]) or throws ([false]).  Successive calls of one run
    receive different arguments, so a function of the argument covers
    every pattern of returning and throwing. *)
Definition Callback (A : Type) : Type := A -> bool.

Module StreamingOptions.
Record t : Type := mk {
  onPageProcessed : option (Callback PageProcessedInfo);
  extractText : option bool
}.
End StreamingOptions.

Module StatsOptions.
Record t : Type := mk {
  extractText : option bool;
  onPageProcessed : option (Callback PageProcessedInfo)
}.
End StatsOptions.

Module AnalyzeOptions.
Record t : Type := mk { samplePages : option nat }.
End AnalyzeOptions.

Module DataResult.
Record t : Type := mk {
  text : string; imageCount : nat; vectorCount : nat
}.
End DataResult.

Module StatsResult.
Record t : Type := mk {
  text : string; imageCount : nat; vectorCount : nat; pages : nat
}.
End StatsResult.

Module TypeStats.
Record t : Type := mk {
  totalPages : nat;
  sampledPages : nat;
  avgImagesPerPage : float;
  avgVectorsPerPage : float;
  avgTextItemsPerPage : float;
  largeImageRatio : float;
  estimatedTotalImages : float;
  estimatedTotalVectors : float
}.
End TypeStats.

Module TypeAnalysis.
Record t : Type := mk {
  type : PdfType; confidence : float; stats : TypeStats.t
}.
End TypeAnalysis.

(** The declared options of [extractPdfSmart]; the function reads
    [onProgress] only. *)
Module SmartOptions.
Record t : Type := mk {
  onProgress : option (Callback ProgressInfo);
  analysis : option TypeAnalysis.t
}.
End SmartOptions.

Module SmartResult.
Record t : Type := mk {
  text : string; imageCount : nat; vectorCount : nat; pages : nat;
  pdfType : PdfType; confidence : float
}.
End SmartResult.

(** Everything outside [index.js] that a run depends on. *)
Record Host : Type := {
  readFileSync : string -> option bytes;       (* [None]: it throws *)
  OPS : OpsTable;                              (* [pdfjsLib.OPS] *)
  getDocument : bytes -> option PDFDocument;   (* [None]: [promise] rejects *)
  canvas_import : bool;      (* does [import('@napi-rs/canvas')] resolve *)
  global_gc : bool           (* is [global.gc] defined *)
}.

(** ** The log of collaborator calls *)

Inductive Event : Type :=
| EvImportCanvas (resolved : bool)
| EvReadFile (path : string)
| EvGetDocument (resolved : bool)
| EvGetPage (n : nat)
| EvGetTextContent (n : nat)
| EvGetOperatorList (n : nat) (intent : Intent)
| EvCleanup (n : nat)
| EvPageProcessed (info : PageProcessedInfo)
| EvProgress (info : ProgressInfo)
| EvGc
| EvDestroy.

(** What a rejected promise or a [throw] carries. *)
Inductive Error : Type :=
| InvalidSource            (* Error('Invalid source: ...') of [loadPdfData] *)
| ReadFileError
| DocumentError
| GetPageError (n : nat)
| TextContentError (n : nat)
| OperatorListError (n : nat)
| CallbackError.

(** Module state and the log, most recent event first. *)
Record State : Type := mkState {
  canvasPolyfillSetup : bool;
  log : list Event
}.

Definition state0 : State := mkState false [].

Inductive Result (A : Type) : Type :=
| Ok (a : A)
| Err (e : Error).
Arguments Err {A} e.

(** ** The monad of an [async] function body *)

Definition M (A : Type) : Type := State -> Result A * State.

Definition ret {A} (a : A) : M A := fun s => (Ok a, s).

Definition bind {A B} (m : M A) (f : A -> M B) : M B :=
  fun s => match m s with
           | (Ok a, s') => f a s'
           | (Err e, s') => (Err e, s')
           end.

Definition throw {A} (e : Error) : M A := fun s => (Err e, s).

Definition emit (ev : Event) : M unit :=
  fun s => (Ok tt, mkState (canvasPolyfillSetup s) (ev :: log s)).

(** [try { m } catch (e) { h }]. *)
Definition try_catch {A} (m : M A) (h : M A) : M A :=
  fun s => match m s with
           | (Ok a, s') => (Ok a, s')
           | (Err _, s') => h s'
           end.

(** Settling of a promise or return of a call whose outcome is [o]. *)
Definition settle {A} (o : option A) (e : Error) : M A :=
  match o with
  | Some a => ret a
  | None => throw e
  end.

Declare Scope js_scope.
Delimit Scope js_scope with js.
Notation "x <- m ;; k" := (bind m (fun x => k))
  (at level 100, m at next level, right associativity) : js_scope.
Notation "m ;; k" := (bind m (fun _ => k))
  (at level 100, right associativity) : js_scope.
Open Scope js_scope.

(** A [for] loop whose iterations are the elements of [l], threading the
    loop's mutable locals [acc]. *)
Fixpoint for_each {A S} (l : list A) (body : A -> S -> M S) (acc : S) : M S :=
  match l with
  | [] => ret acc
  | x :: l' => acc' <- body x acc ;; for_each l' body acc'
  end.

(** [if (cb) cb(info)]. *)
Definition invoke {A} (cb : option (Callback A)) (info : A)
                  (ev : A -> Event) : M unit :=
  match cb with
  | None => ret tt
  | Some f => emit (ev info) ;; if f info then ret tt else throw CallbackError
  end.

(** ** Strings *)

(** JavaScript strings are kept as strings of 8-bit characters; [trim]
    removes the white space and line terminators among them (codes 9 to
    13 and 32) from both ends. *)
Definition is_space (c : ascii) : bool :=
  let n := nat_of_ascii c in
  ((9 <=? n) && (n <=? 13)) || (n =? 32).

Fixpoint trimStart (s : string) : string :=
  match s with
  | EmptyString => EmptyString
  | String c s' => if is_space c then trimStart s' else s
  end.

Fixpoint trimEnd (s : string) : string :=
  match s with
  | EmptyString => EmptyString
  | String c s' =>
      match trimEnd s' with
      | EmptyString => if is_space c then EmptyString
                       else String c EmptyString
      | t => String c t
      end
  end.

Definition trim (s : string) : string := trimEnd (trimStart s).

Definition newline : string := String (ascii_of_nat 10) EmptyString.

(** [items.map(item => item.str).join(sep)]. *)
Definition join (sep : string) (items : list string) : string :=
  String.concat sep items.

(* ================================================================== *)
(** * 5. The functions of [index.js]                                   *)
(* ================================================================== *)

Section EntryPoints.

Variable host : Host.

Definition setupCanvasPolyfill : M unit :=
  fun s =>
    if canvasPolyfillSetup s then (Ok tt, s)
    else
      (* try { await import(...); canvasPolyfillSetup = true }
         catch { console.warn(...) } *)
      (Ok tt, mkState (canvas_import host)
                      (EvImportCanvas (canvas_import host) :: log s)).

Definition loadPdfData (source : PdfSource) : M bytes :=
  match source with
  | SrcString path =>
      emit (EvReadFile path) ;;
      settle (readFileSync host path) ReadFileError
  | SrcBuffer data => ret data
  | SrcUint8Array _ => throw InvalidSource
  end.

(** [await pdfjsLib.getDocument({data, ...}).promise]. *)
Definition loadDocument (data : bytes) : M PDFDocument :=
  match getDocument host data with
  | Some pdf => emit (EvGetDocument true) ;; ret pdf
  | None => emit (EvGetDocument false) ;; throw DocumentError
  end.

Definition await_getPage (pdf : PDFDocument) (n : nat) : M Page :=
  emit (EvGetPage n) ;; settle (getPage pdf n) (GetPageError n).

Definition await_getTextContent (page : Page) (n : nat) : M (list string) :=
  emit (EvGetTextContent n) ;;
  settle (getTextContent page) (TextContentError n).

Definition await_getOperatorList (page : Page) (n : nat) (intent : Intent)
  : M (list Z) :=
  emit (EvGetOperatorList n intent) ;;
  settle (getOperatorList page intent) (OperatorListError n).

Definition page_cleanup (n : nat) : M unit := emit (EvCleanup n).

Definition pdf_destroy : M unit := emit EvDestroy.

(** [if (cond && global.gc) global.gc()]. *)
Definition gc_hint (cond : bool) : M unit :=
  if cond && global_gc host then emit EvGc else ret tt.

(** The pages of [for (pageNum = 1; pageNum <= pdf.numPages; pageNum++)]. *)
Definition all_pages (pdf : PDFDocument) : list nat := seq 1 (numPages pdf).

(** *** extractPdfData *)

Definition extractPdfData_page (pdf : PDFDocument) (n : nat)
    (acc : string * nat * nat) : M (string * nat * nat) :=
  let '(fullText, totalImages, totalVectors) := acc in
  page <- await_getPage pdf n ;;
  items <- await_getTextContent page n ;;
  let pageText := join " " items in
  let fullText := (fullText ++ pageText ++ newline)%string in
  ops <- await_getOperatorList page n display ;;
  let c := countGraphicsObjects (OPS host) ops in
  page_cleanup n ;;
  ret (fullText, totalImages + Counts.imageCount c,
       totalVectors + Counts.vectorCount c).

Definition extractPdfData (pdfSource : PdfSource) : M DataResult.t :=
  setupCanvasPolyfill ;;
  data <- loadPdfData pdfSource ;;
  pdf <- loadDocument data ;;
  acc <- for_each (all_pages pdf) (extractPdfData_page pdf)
                  (EmptyString, 0, 0) ;;
  let '(fullText, totalImages, totalVectors) := acc in
  pdf_destroy ;;
  ret (DataResult.mk (trim fullText) totalImages totalVectors).

(** *** extractPdfDataStreaming *)

Definition option_default {A} (o : option A) (d : A) : A :=
  match o with Some a => a | None => d end.

Definition extractPdfDataStreaming_page (pdf : PDFDocument)
    (onPageProcessed : option (Callback PageProcessedInfo))
    (extractText : bool) (n : nat)
    (acc : list string * nat * nat) : M (list string * nat * nat) :=
  let '(textChunks, totalImages, totalVectors) := acc in
  page <- await_getPage pdf n ;;
  textChunks <-
    (if extractText then
       items <- await_getTextContent page n ;;
       ret (textChunks ++ [join " " items])
     else ret textChunks) ;;
  ops <- await_getOperatorList page n display ;;
  let c := countGraphicsObjects (OPS host) ops in
  page_cleanup n ;;
  invoke onPageProcessed
    {| pageNum := n; totalPages := numPages pdf;
       currentImages := Counts.imageCount c;
       currentVectors := Counts.vectorCount c |} EvPageProcessed ;;
  ret (textChunks, totalImages + Counts.imageCount c,
       totalVectors + Counts.vectorCount c).

Definition extractPdfDataStreaming (pdfSource : PdfSource)
    (options : StreamingOptions.t) : M DataResult.t :=
  setupCanvasPolyfill ;;
  let onPageProcessed := StreamingOptions.onPageProcessed options in
  let extractText :=
    option_default (StreamingOptions.extractText options) true in
  data <- loadPdfData pdfSource ;;
  pdf <- loadDocument data ;;
  acc <- for_each (all_pages pdf)
           (extractPdfDataStreaming_page pdf onPageProcessed extractText)
           ([], 0, 0) ;;
  let '(textChunks, totalImages, totalVectors) := acc in
  pdf_destroy ;;
  ret (DataResult.mk
         (if extractText then trim (join newline textChunks)
          else EmptyString)
         totalImages totalVectors).

(** *** extractPdfStats *)

Definition extractPdfStats_page (pdf : PDFDocument)
    (onPageProcessed : option (Callback PageProcessedInfo))
    (extractText : bool) (n : nat)
    (acc : string * nat * nat) : M (string * nat * nat) :=
  let '(fullText, totalImages, totalVectors) := acc in
  page <- await_getPage pdf n ;;
  fullText <-
    (if extractText then
       items <- await_getTextContent page n ;;
       ret (fullText ++ join " " items ++ newline)%string
     else ret fullText) ;;
  ops <- await_getOperatorList page n print ;;
  let counts := countGraphicsObjects (OPS host) ops in
  page_cleanup n ;;
  invoke onPageProcessed
    {| pageNum := n; totalPages := numPages pdf;
       currentImages := Counts.imageCount counts;
       currentVectors := Counts.vectorCount counts |} EvPageProcessed ;;
  gc_hint (n mod 5 =? 0) ;;
  ret (fullText, totalImages + Counts.imageCount counts,
       totalVectors + Counts.vectorCount counts).

Definition extractPdfStats (pdfSource : PdfSource)
    (options : StatsOptions.t) : M StatsResult.t :=
  setupCanvasPolyfill ;;
  let extractText :=
    option_default (StatsOptions.extractText options) true in
  let onPageProcessed := StatsOptions.onPageProcessed options in
  data <- loadPdfData pdfSource ;;
  pdf <- loadDocument data ;;
  acc <- for_each (all_pages pdf)
           (extractPdfStats_page pdf onPageProcessed extractText)
           (EmptyString, 0, 0) ;;
  let '(fullText, totalImages, totalVectors) := acc in
  pdf_destroy ;;
  ret (StatsResult.mk (trim fullText) totalImages totalVectors
                      (numPages pdf)).

(** *** analyzePdfType *)

(** The four running totals of the sampling loop. *)
Record Totals : Type := mkTotals {
  totalImages : nat;
  totalVectors : nat;
  totalText : nat;
  pagesWithLargeImages : nat
}.

(** The [try] block once [getOperatorList] has resolved: the two
    totals are updated first, so they stay updated when the
    large-image lookup throws into the enclosing [catch]. *)
Definition analyze_counts (page : Page) (ops : list Z) (t : Totals)
  : Totals :=
  let counts := countGraphicsObjects (OPS host) ops in
  let large :=
    if 0 <? Counts.imageCount counts then
      match large_image_page (_pageDict page) with
      | Some true => 1
      | _ => 0
      end
    else 0 in
  mkTotals (totalImages t + Counts.imageCount counts)
           (totalVectors t + Counts.vectorCount counts)
           (totalText t)
           (pagesWithLargeImages t + large).

Definition analyzePdfType_page (pdf : PDFDocument) (samplePages : nat)
    (i : nat) (t : Totals) : M Totals :=
  let n := pageNum_of samplePages (numPages pdf) i in
  page <- await_getPage pdf n ;;
  items <- await_getTextContent page n ;;
  let t := mkTotals (totalImages t) (totalVectors t)
                    (totalText t + List.length items)
                    (pagesWithLargeImages t) in
  t <- try_catch
         (ops <- await_getOperatorList page n display ;;
          ret (analyze_counts page ops t))
         (ret t) ;;
  page_cleanup n ;;
  gc_hint true ;;
  ret t.

(** The part of [analyzePdfType] after [pdf.destroy()]. *)
Definition analysis_of (pdf : PDFDocument) (pagesToAnalyze : nat)
    (t : Totals) : TypeAnalysis.t :=
  let avgImagesPerPage :=
    (Number_of_nat (totalImages t) / Number_of_nat pagesToAnalyze)%float in
  let avgTextPerPage :=
    (Number_of_nat (totalText t) / Number_of_nat pagesToAnalyze)%float in
  let avgVectorsPerPage :=
    (Number_of_nat (totalVectors t) / Number_of_nat pagesToAnalyze)%float in
  let largeImageRatio :=
    (Number_of_nat (pagesWithLargeImages t)
     / Number_of_nat pagesToAnalyze)%float in
  let '(type, confidence) :=
    classify avgTextPerPage avgImagesPerPage avgVectorsPerPage in
  TypeAnalysis.mk type confidence
    (TypeStats.mk
       (numPages pdf)
       pagesToAnalyze
       (toFixed2 avgImagesPerPage)
       (toFixed2 avgVectorsPerPage)
       (toFixed2 avgTextPerPage)
       (toFixed2 largeImageRatio)
       (Math_round (avgImagesPerPage * Number_of_nat (numPages pdf))%float)
       (Math_round (avgVectorsPerPage * Number_of_nat (numPages pdf))%float)).

Definition analyzePdfType (pdfSource : PdfSource)
    (options : AnalyzeOptions.t) : M TypeAnalysis.t :=
  setupCanvasPolyfill ;;
  let samplePages := option_default (AnalyzeOptions.samplePages options) 5 in
  data <- loadPdfData pdfSource ;;
  pdf <- loadDocument data ;;
  let pagesToAnalyze := pagesToAnalyze_of samplePages (numPages pdf) in
  t <- for_each (seq 0 pagesToAnalyze)
         (analyzePdfType_page pdf samplePages) (mkTotals 0 0 0 0) ;;
  pdf_destroy ;;
  ret (analysis_of pdf pagesToAnalyze t).

(** *** extractPdfSmart *)

Definition extractPdfSmart_page (pdf : PDFDocument)
    (onProgress : option (Callback ProgressInfo)) (n : nat)
    (acc : string * nat * nat) : M (string * nat * nat) :=
  let '(fullText, totalImages, totalVectors) := acc in
  page <- await_getPage pdf n ;;
  items <- await_getTextContent page n ;;
  let fullText := (fullText ++ join " " items ++ newline)%string in
  let '(totalImages, totalVectors) :=
    smart_page_counts (_pageDict page) (totalImages, totalVectors) in
  page_cleanup n ;;
  invoke onProgress
    (extracting
       (0.1 + (Number_of_nat n / Number_of_nat (numPages pdf)) * 0.9)%float
       n (numPages pdf)) EvProgress ;;
  gc_hint (n mod 5 =? 0) ;;
  ret (fullText, totalImages, totalVectors).

Definition extractPdfSmart (pdfSource : PdfSource)
    (options : SmartOptions.t) : M SmartResult.t :=
  setupCanvasPolyfill ;;
  let onProgress := SmartOptions.onProgress options in
  invoke onProgress analyzing EvProgress ;;
  analysis <- analyzePdfType pdfSource (AnalyzeOptions.mk (Some 5)) ;;
  invoke onProgress
    (analyzed (TypeAnalysis.type analysis)
              (TypeAnalysis.confidence analysis)) EvProgress ;;
  data <- loadPdfData pdfSource ;;
  pdf <- loadDocument data ;;
  acc <- for_each (all_pages pdf) (extractPdfSmart_page pdf onProgress)
                  (EmptyString, 0, 0) ;;
  let '(fullText, totalImages, totalVectors) := acc in
  pdf_destroy ;;
  ret (SmartResult.mk (trim fullText) totalImages totalVectors
                      (numPages pdf)
                      (TypeAnalysis.type analysis)
                      (TypeAnalysis.confidence analysis)).

End EntryPoints.


(* ================================================================== *)
(** * 6. Vocabulary of the properties                                  *)
(* ================================================================== *)

(** ** Document life cycle in the log *)

(** The two events of a document's life: the loading promise resolves,
    [pdf.destroy()] is called. *)
Definition is_lifecycle (ev : Event) : bool :=
  match ev with
  | EvGetDocument true => true
  | EvDestroy => true
  | _ => false
  end.

Definition lifecycle (s : State) : list Event :=
  filter is_lifecycle (log s).

Definition is_destroy (ev : Event) : bool :=
  match ev with EvDestroy => true | _ => false end.

(** How many times [pdf.destroy()] has been called. *)
Definition destroy_count (s : State) : nat :=
  List.length (filter is_destroy (log s)).

(** ** The dictionary inspector in the specification's words *)

(** Does an XObject entry declare the given [Subtype]?  An entry whose
    lookup fails, or that is no dictionary, or whose [Subtype] cannot be
    read, declares none. *)
Definition declares_subtype (s : string) (entry : string * option JsVal)
  : bool :=
  match snd entry with
  | Some (VDict d) =>
      match dict_get d "Subtype" with
      | Some st => name_is st s
      | None => false
      end
  | _ => false
  end.

(** The entries under a resource category; none when the category is
    missing, malformed, or cannot be looked up. *)
Definition entries_under (resources : Dict) (category : string) : Dict :=
  match dict_get resources category with
  | Some (VDict d) => d
  | _ => []
  end.

(** One image per XObject entry of subtype [Image]; one vector object
    per XObject entry of subtype [Form], per [Pattern] entry and per
    [Shading] entry. *)
Definition DictionaryInspector_spec (resources : Dict) : nat * nat :=
  let xobjects := entries_under resources "XObject" in
  (List.length (filter (declares_subtype "Image") xobjects),
   List.length (filter (declares_subtype "Form") xobjects)
   + List.length (entries_under resources "Pattern")
   + List.length (entries_under resources "Shading")).

(** A truth value as a count of one or zero. *)
Definition b2n (b : bool) : nat := if b then 1 else 0.

(** A page dictionary whose [Resources] entry is the given dictionary. *)
Definition pageDict_of (resources : Dict) : JsVal :=
  VDict [("Resources"%string, Some (VDict resources))].

(** A dictionary whose keys are pairwise different, as the keys of a
    PDF dictionary are. *)
Definition unique_keys (d : Dict) : Prop := NoDup (getKeys d).

(** The totals of the dictionary-based counting over all the pages of a
    document. *)
Definition dictionary_totals (pdf : PDFDocument) : nat * nat :=
  fold_left
    (fun tot n =>
       match getPage pdf n with
       | Some page => smart_page_counts (_pageDict page) tot
       | None => tot
       end)
    (all_pages pdf) (0, 0).

(** ** Replacing rejected instruction streams by empty ones *)

Definition heal_page (p : Page) : Page := {|
  getTextContent := getTextContent p;
  getOperatorList := fun i => Some (option_default (getOperatorList p i) []);
  _pageDict := _pageDict p
|}.

Definition heal_document (pdf : PDFDocument) : PDFDocument := {|
  numPages := numPages pdf;
  getPage := fun n => option_map heal_page (getPage pdf n)
|}.

Definition heal_host (h : Host) : Host := {|
  readFileSync := readFileSync h;
  OPS := OPS h;
  getDocument := fun data => option_map heal_document (getDocument h data);
  canvas_import := canvas_import h;
  global_gc := global_gc h
|}.

(** ** Ranges of JavaScript numbers *)

Definition in_unit_interval (x : float) : bool :=
  ((0 <=? x) && (x <=? 1))%float.

Definition non_negative (x : float) : bool := (0 <=? x)%float.

(** ** Sample collaborators *)

Definition sample_resources : Dict :=
  [ ("XObject"%string,
     Some (VDict
       [ ("Im1"%string,
          Some (VDict [ ("Subtype"%string, Some (VName "Image"));
                        ("Width"%string, Some (VNum 2480));
                        ("Height"%string, Some (VNum 3508)) ]));
         ("Fm1"%string,
          Some (VDict [ ("Subtype"%string, Some (VName "Form")) ]));
         ("Bad"%string, None) ]));
    ("Pattern"%string, Some (VDict [ ("P1"%string, Some VOther) ]));
    ("Shading"%string, Some VUndefined) ].

(** A page with two text items, a stream "move, line, stroke, image" and
    the resources above. *)
Definition sample_page : Page := {|
  getTextContent := Some ["Hello"%string; "world"%string];
  getOperatorList := fun _ => Some [13; 14; 20; 85]%Z;
  _pageDict := pageDict_of sample_resources
|}.

Definition sample_document : PDFDocument := {|
  numPages := 2;
  getPage := fun n => if (1 <=? n) && (n <=? 2) then Some sample_page
                      else None
|}.

Definition host_of (pdf : PDFDocument) : Host := {|
  readFileSync := fun _ => Some [];
  OPS := sample_OPS;
  getDocument := fun _ => Some pdf;
  canvas_import := true;
  global_gc := false
|}.

Definition sample_host : Host := host_of sample_document.

(** A one-page document whose only page cannot be loaded. *)
Definition document_page_fails : PDFDocument := {|
  numPages := 1;
  getPage := fun _ => None
|}.

(** A one-page document whose instruction stream cannot be
    materialized. *)
Definition page_stream_fails : Page := {|
  getTextContent := Some ["Hello"%string];
  getOperatorList := fun _ => None;
  _pageDict := VUndefined
|}.

Definition document_stream_fails : PDFDocument := {|
  numPages := 1;
  getPage := fun _ => Some page_stream_fails
|}.

(** Resources whose [XObject] lookup throws while [Pattern] holds one
    entry. *)
Definition resources_xobject_throws : Dict :=
  [ ("XObject"%string, None);
    ("Pattern"%string, Some (VDict [ ("P1"%string, Some VOther) ])) ].

Definition no_streaming_options : StreamingOptions.t :=
  StreamingOptions.mk None None.

Definition no_stats_options : StatsOptions.t := StatsOptions.mk None None.

Definition no_smart_options : SmartOptions.t := SmartOptions.mk None None.

(** An [onProgress] callback that throws on every call. *)
Definition throwing_progress : SmartOptions.t :=
  SmartOptions.mk (Some (fun _ => false)) None.

(** ** Predicates on runs *)

(** The bytes handed to the parser, when the source yields any. *)
Definition source_data (h : Host) (src : PdfSource) : option bytes :=
  match src with
  | SrcString path => readFileSync h path
  | SrcBuffer data => Some data
  | SrcUint8Array _ => None
  end.

(** The document a source stands for, when it loads. *)
Definition document_of (h : Host) (src : PdfSource) : option PDFDocument :=
  match source_data h src with
  | Some data => getDocument h data
  | None => None
  end.

(** Every page of the document loads and its instruction stream for
    the given intent is materialized. *)
Definition all_streams_materialized (pdf : PDFDocument) (intent : Intent)
  : Prop :=
  forall n, 1 <= n <= numPages pdf ->
    exists page ops,
      getPage pdf n = Some page /\ getOperatorList page intent = Some ops.

(** An action that neither loads nor destroys a document. *)
Definition quiet {A} (m : M A) : Prop :=
  forall s, lifecycle (snd (m s)) = lifecycle s.

(** An action that, when it fails on the instruction stream of a page,
    has done nothing since the rejected call. *)
Definition tips {A} (m : M A) : Prop :=
  forall s n s',
    m s = (Err (OperatorListError n), s') ->
    exists intent rest, log s' = EvGetOperatorList n intent :: rest.

(** The life cycle of a run over one document, started in state [s]:
    on success the document was loaded and destroyed once, the call of
    [destroy] being the last thing the run did; on failure [destroy]
    was not called. *)
Definition single_session {A} (s : State) (out : Result A * State) : Prop :=
  match fst out with
  | Ok _ =>
      lifecycle (snd out) = EvDestroy :: EvGetDocument true :: lifecycle s /\
      exists rest, log (snd out) = EvDestroy :: rest
  | Err _ =>
      lifecycle (snd out) = lifecycle s \/
      lifecycle (snd out) = EvGetDocument true :: lifecycle s
  end.

(** The life cycle of [extractPdfSmart], which loads the document once
    for the analysis and once more for the full pass. *)
Definition double_session {A} (s : State) (out : Result A * State) : Prop :=
  match fst out with
  | Ok _ =>
      lifecycle (snd out) =
        EvDestroy :: EvGetDocument true ::
        EvDestroy :: EvGetDocument true :: lifecycle s /\
      exists rest, log (snd out) = EvDestroy :: rest
  | Err _ =>
      lifecycle (snd out) = lifecycle s \/
      lifecycle (snd out) = EvGetDocument true :: lifecycle s \/
      lifecycle (snd out) = EvDestroy :: EvGetDocument true :: lifecycle s \/
      lifecycle (snd out) =
        EvGetDocument true :: EvDestroy :: EvGetDocument true :: lifecycle s
  end.

(** ** Counting opcodes of a class in a stream *)

(** How many opcodes of the stream belong to the array [arr]. *)
Definition count_in (arr : list Z) (fnArray : list Z) : nat :=
  List.length (filter (includes arr) fnArray).

(** The opcodes that [countGraphicsObjects] reacts to. *)
Definition recognized (T : OpsTable) (op : Z) : bool :=
  includes (IMAGE_OPS T) op || includes (VECTOR_OPS T) op.

(** Component-wise sum of two results of the counter. *)
Definition add_counts (a b : Counts.t) : Counts.t :=
  Counts.mk (Counts.imageCount a + Counts.imageCount b)
            (Counts.vectorCount a + Counts.vectorCount b).

(** ** Projections of the log *)

(** The events selected by [pi], most recent first. *)
Fixpoint pick {X : Type} (pi : Event -> option X) (l : list Event)
  : list X :=
  match l with
  | [] => []
  | ev :: l' =>
      match pi ev with
      | Some x => x :: pick pi l'
      | None => pick pi l'
      end
  end.

Definition seen {X : Type} (pi : Event -> option X) (s : State) : list X :=
  pick pi (log s).

(** The page numbers passed to [pdf.getPage]. *)
Definition page_request (ev : Event) : option nat :=
  match ev with EvGetPage n => Some n | _ => None end.

(** The pages whose instruction stream was requested. *)
Definition stream_request (ev : Event) : option nat :=
  match ev with EvGetOperatorList n _ => Some n | _ => None end.

(** The pages whose text content was requested. *)
Definition text_request (ev : Event) : option nat :=
  match ev with EvGetTextContent n => Some n | _ => None end.

(** The arguments handed to [onPageProcessed]. *)
Definition page_report (ev : Event) : option PageProcessedInfo :=
  match ev with EvPageProcessed info => Some info | _ => None end.

(** A projection that selects none of the events that precede the page
    loop: canvas import, file read, document load. *)
Definition blind_to_opening {X : Type} (pi : Event -> option X) : Prop :=
  (forall b, pi (EvImportCanvas b) = None) /\
  (forall p, pi (EvReadFile p) = None) /\
  (forall b, pi (EvGetDocument b) = None).

(** An action that logs no selected event, whether it succeeds or not. *)
Definition mute {X A : Type} (pi : Event -> option X) (m : M A) : Prop :=
  forall s, seen pi (snd (m s)) = seen pi s.

(** An action that, when it succeeds, has logged exactly the selected
    events [L], in that order. *)
Definition yields {X A : Type} (pi : Event -> option X) (m : M A)
    (L : list X) : Prop :=
  forall s a s', m s = (Ok a, s') -> seen pi s' = rev L ++ seen pi s.

(** An action that logs at most [n] selected events, whether it
    succeeds or not. *)
Definition adds_at_most {X A : Type} (pi : Event -> option X) (n : nat)
    (m : M A) : Prop :=
  forall s, List.length (seen pi (snd (m s))) <= List.length (seen pi s) + n.

(** ** Totals of the instruction-stream counter over a document *)

(** The counts of page [n], zero when the page or its stream is
    missing. *)
Definition stream_counts (T : OpsTable) (pdf : PDFDocument)
    (intent : Intent) (n : nat) : Counts.t :=
  match getPage pdf n with
  | Some page =>
      match getOperatorList page intent with
      | Some ops => countGraphicsObjects T ops
      | None => Counts.mk 0 0
      end
  | None => Counts.mk 0 0
  end.

Definition stream_totals (T : OpsTable) (pdf : PDFDocument)
    (intent : Intent) : nat * nat :=
  (list_sum (map (fun n => Counts.imageCount (stream_counts T pdf intent n))
                 (all_pages pdf)),
   list_sum (map (fun n => Counts.vectorCount (stream_counts T pdf intent n))
                 (all_pages pdf))).

(** The step that one page makes on the two counters. *)
Definition page_step (T : OpsTable) (pdf : PDFDocument) (intent : Intent)
    (tot : nat * nat) (n : nat) : nat * nat :=
  (fst tot + Counts.imageCount (stream_counts T pdf intent n),
   snd tot + Counts.vectorCount (stream_counts T pdf intent n)).

(** What [onPageProcessed] is told about page [n]. *)
Definition report_of (T : OpsTable) (pdf : PDFDocument) (intent : Intent)
    (n : nat) : PageProcessedInfo := {|
  pageNum := n;
  totalPages := numPages pdf;
  currentImages := Counts.imageCount (stream_counts T pdf intent n);
  currentVectors := Counts.vectorCount (stream_counts T pdf intent n)
|}.

(** ** Runs that end alike *)

(** Two outcomes with the same final state that are both failures with
    the same error, or both successes with results related by [R]. *)
Definition same_outcome {A1 A2 : Type} (R : A1 -> A2 -> Prop)
    (o1 : Result A1 * State) (o2 : Result A2 * State) : Prop :=
  snd o1 = snd o2 /\
  match fst o1, fst o2 with
  | Ok a1, Ok a2 => R a1 a2
  | Err e1, Err e2 => e1 = e2
  | _, _ => False
  end.

(** The text that the [fullText +=] of [extractPdfData] builds from the
    page texts [chunks]. *)
Definition lines (chunks : list string) : string :=
  fold_right (fun c acc => (c ++ newline ++ acc)%string) EmptyString chunks.

(** The loop locals of [extractPdfDataStreaming] and of [extractPdfData]
    stay in step: same counters, and the text of the second is the
    chunks of the first put on lines. *)
Definition in_step (a1 : list string * nat * nat) (a2 : string * nat * nat)
  : Prop :=
  snd (fst a1) = snd (fst a2) /\ snd a1 = snd a2 /\
  fst (fst a2) = lines (fst (fst a1)).

(** ** The call an error is raised by *)

(** [raised_by e ev]: the error [e] is what the collaborator call
    logged as [ev] fails with. *)
Definition raised_by (e : Error) (ev : Event) : Prop :=
  match e, ev with
  | ReadFileError, EvReadFile _ => True
  | DocumentError, EvGetDocument false => True
  | GetPageError n, EvGetPage m => n = m
  | TextContentError n, EvGetTextContent m => n = m
  | OperatorListError n, EvGetOperatorList m _ => n = m
  | CallbackError, EvPageProcessed _ => True
  | CallbackError, EvProgress _ => True
  | _, _ => False
  end.

(** An action that stops at the call that fails: when it ends in an
    error other than the invalid-source error, the failing call is the
    most recent entry of the log. *)
Definition stops_at_failure {A : Type} (m : M A) : Prop :=
  forall s e s',
    m s = (Err e, s') ->
    e = InvalidSource \/
    exists ev rest, log s' = ev :: rest /\ raised_by e ev.
(* ================================================================== *)
(** * 7. Properties of the instruction-stream counter                  *)
(* ================================================================== *)

Unset Implicit Arguments.

Section CounterFacts.

Variable T : OpsTable.
Hypothesis distinct : ops_distinct T.

Lemma includes_In (arr : list Z) (op : Z) :
  includes arr op = true <-> In op arr.
Proof.
  unfold includes. rewrite existsb_exists. split.
  - intros (x & Hx & E). apply Z.eqb_eq in E. now subst.
  - intro H. exists op. split; [assumption | apply Z.eqb_refl].
Qed.

Lemma includes_not_In (arr : list Z) (op : Z) :
  ~ In op arr -> includes arr op = false.
Proof.
  intro H. destruct (includes arr op) eqn:E; [|reflexivity].
  apply includes_In in E. contradiction.
Qed.

Lemma NoDup_app_disjoint {A : Type} {l1 l2 : list A} {x : A} :
  NoDup (l1 ++ l2) -> In x l1 -> ~ In x l2.
Proof.
  induction l1 as [|a l1 IH]; simpl; intros ND H1 H2; [contradiction|].
  inversion ND as [|? ? Hnot ND']; subst.
  destruct H1 as [-> | H1].
  - apply Hnot. apply in_or_app. now right.
  - exact (IH ND' H1 H2).
Qed.

Lemma vector_ops_split :
  VECTOR_OPS T = TERMINATOR_OPS T ++ SEGMENT_OPS T ++ [constructPath T].
Proof. reflexivity. Qed.

(** Class membership of a path-segment opcode. *)
Lemma segment_class (op : Z) :
  In op (SEGMENT_OPS T) ->
  includes (IMAGE_OPS T) op = false /\
  includes (VECTOR_OPS T) op = true /\
  Z.eqb op (constructPath T) = false /\
  includes (TERMINATOR_OPS T) op = false.
Proof.
  intro H. unfold ops_distinct in distinct.
  pose proof (NoDup_app_remove_l _ _ distinct) as D1.
  pose proof (NoDup_app_remove_l _ _ D1) as D2.
  repeat split.
  - apply includes_not_In. intro Hi.
    apply (NoDup_app_disjoint distinct Hi).
    apply in_or_app. right. apply in_or_app. now left.
  - apply includes_In. rewrite vector_ops_split.
    apply in_or_app. right. apply in_or_app. now left.
  - apply Z.eqb_neq. intros ->.
    apply (NoDup_app_disjoint D2 H). now left.
  - apply includes_not_In. intro Ht.
    apply (NoDup_app_disjoint D1 Ht).
    apply in_or_app. now left.
Qed.

(** Class membership of a terminator opcode. *)
Lemma terminator_class (op : Z) :
  In op (TERMINATOR_OPS T) ->
  includes (IMAGE_OPS T) op = false /\
  includes (VECTOR_OPS T) op = true /\
  Z.eqb op (constructPath T) = false /\
  includes (TERMINATOR_OPS T) op = true.
Proof.
  intro H. unfold ops_distinct in distinct.
  pose proof (NoDup_app_remove_l _ _ distinct) as D1.
  repeat split.
  - apply includes_not_In. intro Hi.
    apply (NoDup_app_disjoint distinct Hi).
    apply in_or_app. now left.
  - apply includes_In. rewrite vector_ops_split.
    apply in_or_app. now left.
  - apply Z.eqb_neq. intros ->.
    apply (NoDup_app_disjoint D1 H).
    apply in_or_app. right. now left.
  - now apply includes_In.
Qed.

(** Class membership of [constructPath]. *)
Lemma constructPath_class :
  includes (IMAGE_OPS T) (constructPath T) = false /\
  includes (VECTOR_OPS T) (constructPath T) = true /\
  includes (TERMINATOR_OPS T) (constructPath T) = false.
Proof.
  unfold ops_distinct in distinct.
  pose proof (NoDup_app_remove_l _ _ distinct) as D1.
  repeat split.
  - apply includes_not_In. intro Hi.
    apply (NoDup_app_disjoint distinct Hi).
    apply in_or_app. right. apply in_or_app. right. now left.
  - apply includes_In. rewrite vector_ops_split.
    apply in_or_app. right. apply in_or_app. right. now left.
  - apply includes_not_In. intro Ht.
    apply (NoDup_app_disjoint D1 Ht).
    apply in_or_app. right. now left.
Qed.

Lemma scan_step_segment (st : ScanState) (op : Z) :
  In op (SEGMENT_OPS T) ->
  scan_step T st op = mkScan (imageCount st) (vectorCount st) true.
Proof.
  intro H. destruct (segment_class _ H) as (E1 & E2 & E3 & E4).
  unfold scan_step. now rewrite E1, E2, E3, E4.
Qed.

Lemma scan_step_terminator (st : ScanState) (op : Z) :
  In op (TERMINATOR_OPS T) ->
  scan_step T st op =
    if inVectorSequence st
    then mkScan (imageCount st) (S (vectorCount st)) false
    else st.
Proof.
  intro H. destruct (terminator_class _ H) as (E1 & E2 & E3 & E4).
  unfold scan_step. now rewrite E1, E2, E3, E4.
Qed.

Lemma scan_step_constructPath (st : ScanState) :
  scan_step T st (constructPath T) =
    mkScan (imageCount st) (S (vectorCount st)) true.
Proof.
  destruct constructPath_class as (E1 & E2 & E3).
  unfold scan_step. now rewrite E1, E2, E3, Z.eqb_refl.
Qed.

(** A non-empty run of path-segment opcodes opens a sequence and
    touches no counter. *)
Lemma fold_segments (segs : list Z) (st : ScanState) :
  Forall (fun op => In op (SEGMENT_OPS T)) segs ->
  fold_left (scan_step T) segs st =
    match segs with
    | [] => st
    | _ => mkScan (imageCount st) (vectorCount st) true
    end.
Proof.
  intro H. revert st.
  induction H as [|op segs Hop Hsegs IH]; intro st; [reflexivity|].
  simpl. rewrite IH, (scan_step_segment _ _ Hop).
  now destruct segs.
Qed.

End CounterFacts.

Lemma sample_OPS_distinct : ops_distinct sample_OPS.
Proof.
  unfold ops_distinct. cbn.
  repeat (constructor; [cbn; intuition discriminate|]). constructor.
Qed.

(** C1 (as the code behaves): an occurrence of [constructPath] adds 1 to
    [vectorCount] and leaves [inVectorSequence] set to TRUE, because the
    [else] branch of the terminator test runs after the construct-path
    branch; a stream made of one [constructPath] is counted as 2, and so
    is a [constructPath] followed by a terminator. *)
Theorem constructPath_leaves_sequence_open (T : OpsTable) :
  ops_distinct T ->
  (forall st, scan_step T st (constructPath T) =
              mkScan (imageCount st) (S (vectorCount st)) true) /\
  countGraphicsObjects T [constructPath T] = Counts.mk 0 2 /\
  (forall t, In t (TERMINATOR_OPS T) ->
             countGraphicsObjects T [constructPath T; t] = Counts.mk 0 2).
Proof.
  intro D. split; [|split].
  - intro st. now apply scan_step_constructPath.
  - unfold countGraphicsObjects, scan_ops. simpl.
    now rewrite (scan_step_constructPath _ D).
  - intros t Ht. unfold countGraphicsObjects, scan_ops. simpl.
    now rewrite (scan_step_constructPath _ D), (scan_step_terminator _ D _ _ Ht).
Qed.

Lemma constructPath_leaves_sequence_open_witness :
  countGraphicsObjects sample_OPS [91%Z] = Counts.mk 0 2 /\
  countGraphicsObjects sample_OPS [91%Z; 20%Z] = Counts.mk 0 2.
Proof.
  destruct (constructPath_leaves_sequence_open _ sample_OPS_distinct)
    as (_ & H1 & H2).
  split; [exact H1 | apply H2; simpl; auto].
Defined.

(** C7: path-segment opcodes followed by one terminator count as one
    vector object and no image; a terminator met with no open sequence
    changes nothing; a run of path-segment opcodes left open at the end
    of the stream adds exactly one to the vector count reached before
    it. *)
Theorem segments_then_terminator_count_once (T : OpsTable) :
  ops_distinct T ->
  (forall segs t,
      segs <> [] ->
      Forall (fun op => In op (SEGMENT_OPS T)) segs ->
      In t (TERMINATOR_OPS T) ->
      countGraphicsObjects T (segs ++ [t]) = Counts.mk 0 1) /\
  (forall st t,
      In t (TERMINATOR_OPS T) ->
      inVectorSequence st = false ->
      scan_step T st t = st) /\
  (forall t, In t (TERMINATOR_OPS T) ->
             countGraphicsObjects T [t] = Counts.mk 0 0) /\
  (forall pre segs,
      segs <> [] ->
      Forall (fun op => In op (SEGMENT_OPS T)) segs ->
      countGraphicsObjects T (pre ++ segs) =
        Counts.mk (imageCount (scan_ops T pre))
                  (S (vectorCount (scan_ops T pre)))).
Proof.
  intro D. repeat split.
  - intros segs t Hne Hsegs Ht.
    unfold countGraphicsObjects, scan_ops.
    rewrite fold_left_app, (fold_segments _ D _ _ Hsegs). simpl.
    rewrite (scan_step_terminator _ D _ _ Ht).
    destruct segs; [contradiction|reflexivity].
  - intros st t Ht Hflag.
    rewrite (scan_step_terminator _ D _ _ Ht). now rewrite Hflag.
  - intros t Ht. unfold countGraphicsObjects, scan_ops. simpl.
    now rewrite (scan_step_terminator _ D _ _ Ht).
  - intros pre segs Hne Hsegs.
    unfold countGraphicsObjects, scan_ops.
    rewrite fold_left_app, (fold_segments _ D _ _ Hsegs).
    destruct segs; [contradiction|reflexivity].
Qed.

Lemma segments_then_terminator_count_once_witness :
  countGraphicsObjects sample_OPS [13%Z; 14%Z; 15%Z; 18%Z; 22%Z]
    = Counts.mk 0 1 /\
  countGraphicsObjects sample_OPS [20%Z] = Counts.mk 0 0 /\
  countGraphicsObjects sample_OPS ([85%Z] ++ [19%Z; 14%Z]) = Counts.mk 1 1.
Proof.
  destruct (segments_then_terminator_count_once _ sample_OPS_distinct)
    as (H1 & _ & H3 & H4).
  split; [|split].
  - apply (H1 [13%Z; 14%Z; 15%Z; 18%Z] 22%Z).
    + discriminate.
    + repeat (apply Forall_cons; [cbn; auto 12|]); apply Forall_nil.
    + simpl; auto 10.
  - apply H3. simpl; auto.
  - apply (H4 [85%Z] [19%Z; 14%Z]).
    + discriminate.
    + repeat (apply Forall_cons; [cbn; auto 12|]); apply Forall_nil.
Defined.

(* ================================================================== *)
(** * 8. Properties of the page sampler                                *)
(* ================================================================== *)

Section SamplerFacts.

Variables sampleSize totalPages : nat.
Hypothesis pages_pos : 1 <= totalPages.
Hypothesis sample_pos : 1 <= sampleSize.

Lemma step_of_pos : 1 <= step_of sampleSize totalPages.
Proof. unfold step_of. lia. Qed.

Lemma step_of_fits :
  Nat.min sampleSize totalPages * step_of sampleSize totalPages
  <= totalPages.
Proof.
  unfold step_of, pagesToAnalyze_of.
  set (k := Nat.min sampleSize totalPages).
  assert (Hk : 1 <= k <= totalPages) by (unfold k; lia).
  pose proof (Nat.Div0.mul_div_le totalPages k) as Hle.
  destruct (Nat.max_spec 1 (totalPages / k)) as [[_ ->] | [_ ->]]; lia.
Qed.

(** The clamp [Math.min(..., numPages)] never cuts a sampled index. *)
Lemma pageNum_of_unclamped (i : nat) :
  i < Nat.min sampleSize totalPages ->
  pageNum_of sampleSize totalPages i = 1 + i * step_of sampleSize totalPages.
Proof.
  intro Hi. unfold pageNum_of.
  pose proof step_of_pos. pose proof step_of_fits.
  apply Nat.min_l. nia.
Qed.

Lemma nth_sampledPageNums (i : nat) :
  i < Nat.min sampleSize totalPages ->
  nth i (sampledPageNums sampleSize totalPages) 0
  = pageNum_of sampleSize totalPages i.
Proof.
  intro Hi. unfold sampledPageNums, pagesToAnalyze_of.
  rewrite (nth_indep _ 0 (pageNum_of sampleSize totalPages 0))
    by (rewrite length_map, length_seq; exact Hi).
  rewrite map_nth, seq_nth by exact Hi. reflexivity.
Qed.

Lemma length_sampledPageNums :
  List.length (sampledPageNums sampleSize totalPages)
  = Nat.min sampleSize totalPages.
Proof.
  unfold sampledPageNums, pagesToAnalyze_of.
  now rewrite length_map, length_seq.
Qed.

End SamplerFacts.

(** C5: the sampler yields [min sampleSize totalPages] indices
    [min (1 + i*step) totalPages] with
    [step = max 1 (totalPages / min sampleSize totalPages)]; the first is
    page 1, none lies outside [1..totalPages], and they increase
    strictly; for 97 pages and a sample of 5 they are 1, 20, 39, 58, 77. *)
Theorem page_sampling_rule :
  (forall totalPages sampleSize,
      1 <= totalPages -> 1 <= sampleSize ->
      let pages := sampledPageNums sampleSize totalPages in
      let step := Nat.max 1 (totalPages / Nat.min sampleSize totalPages) in
      List.length pages = Nat.min sampleSize totalPages /\
      (forall i, i < Nat.min sampleSize totalPages ->
                 nth i pages 0 = Nat.min (1 + i * step) totalPages) /\
      nth 0 pages 0 = 1 /\
      Forall (fun p => 1 <= p <= totalPages) pages /\
      (forall i j, i < j -> j < List.length pages ->
                   nth i pages 0 < nth j pages 0)) /\
  sampledPageNums 5 97 = [1; 20; 39; 58; 77].
Proof.
  split; [|reflexivity].
  intros t s Ht Hs pages step.
  assert (Hlen : List.length pages = Nat.min s t)
    by apply length_sampledPageNums.
  split; [exact Hlen|]. split; [|split; [|split]].
  - intros i Hi. unfold pages. now rewrite nth_sampledPageNums.
  - unfold pages. rewrite nth_sampledPageNums by lia.
    rewrite pageNum_of_unclamped by lia. lia.
  - apply Forall_forall. intros p Hp.
    apply (In_nth _ _ 0) in Hp. destruct Hp as (i & Hi & <-).
    rewrite Hlen in Hi. unfold pages.
    rewrite nth_sampledPageNums by exact Hi.
    rewrite pageNum_of_unclamped by assumption.
    pose proof (step_of_pos s t). pose proof (step_of_fits s t Ht Hs).
    nia.
  - intros i j Hij Hj. rewrite Hlen in Hj. unfold pages.
    rewrite !nth_sampledPageNums by lia.
    rewrite !pageNum_of_unclamped by (assumption || lia).
    pose proof (step_of_pos s t). nia.
Qed.

Lemma page_sampling_rule_witness :
  List.length (sampledPageNums 5 97) = Nat.min 5 97 /\
  nth 0 (sampledPageNums 5 97) 0 = 1 /\
  Forall (fun p => 1 <= p <= 97) (sampledPageNums 5 97).
Proof.
  destruct page_sampling_rule as (H & _).
  destruct (H 97 5) as (H1 & _ & H3 & H4 & _); [lia | lia |].
  exact (conj H1 (conj H3 H4)).
Defined.

(* ================================================================== *)
(** * 9. Properties of the classifier                                  *)
(* ================================================================== *)

Section FloatOrder.

Local Open Scope float_scope.

(** Swapping the arguments of the IEEE comparison swaps its answer. *)
Lemma SFcompare_swap (x y : spec_float) :
  SFcompare y x = option_map CompOpp (SFcompare x y).
Proof.
  destruct x as [sx | sx | | sx mx ex], y as [sy | sy | | sy my ey];
    try reflexivity;
    try (destruct sx; reflexivity);
    try (destruct sy; reflexivity);
    try (destruct sx, sy; reflexivity).
  simpl. destruct sx, sy; try reflexivity; simpl;
    rewrite (Z.compare_antisym ex ey);
    destruct (ex ?= ey)%Z; simpl; try reflexivity;
    rewrite (Pos.compare_cont_antisym mx my Eq); reflexivity.
Qed.

Lemma ltb_true_leb_false (a b : float) :
  (a <? b) = true -> (b <=? a) = false.
Proof.
  rewrite ltb_spec, leb_spec. unfold SFltb, SFleb.
  rewrite (SFcompare_swap (Prim2SF a) (Prim2SF b)).
  destruct (SFcompare (Prim2SF a) (Prim2SF b)) as [[ | | ]|];
    simpl; congruence.
Qed.

Lemma eqb_true_ltb_false (a b : float) :
  (a =? b) = true -> (b <? a) = false.
Proof.
  rewrite eqb_spec, ltb_spec. unfold SFeqb, SFltb.
  rewrite (SFcompare_swap (Prim2SF a) (Prim2SF b)).
  destruct (SFcompare (Prim2SF a) (Prim2SF b)) as [[ | | ]|];
    simpl; congruence.
Qed.

(** A number above 100 is not equal to zero. *)
Lemma above_100_not_zero (a : float) :
  (100 <? a) = true -> (a =? 0) = false.
Proof.
  rewrite ltb_spec, eqb_spec. unfold SFltb, SFeqb.
  change (Prim2SF 0) with (S754_zero false).
  change (Prim2SF 100) with (S754_finite false 7036874417766400 (-46)).
  destruct (Prim2SF a) as [s | s | | s m e]; simpl;
    try congruence; destruct s; congruence.
Qed.

End FloatOrder.

(** C4: the rules are tried in order.  (1) Low text and between 0
    (excluded) and 100 images per page: scan.  (2) Low text, no image
    and some vectors: vector (rule 1 cannot apply there).  (3) Whenever
    neither test holds: text.  (4) In particular more than 100 images
    per page gives text.  Each rule comes with its confidence formula. *)
Theorem classify_first_match_wins
    (avgText avgImages avgVectors : float) :
  ((avgText <? 30)%float = true ->
   (0 <? avgImages)%float = true ->
   (avgImages <=? 100)%float = true ->
   classify avgText avgImages avgVectors =
     (ty_scan, Math_min 0.95 (0.7 + (avgImages / 100) * 0.25)%float)) /\
  ((avgText <? 30)%float = true ->
   (avgImages =? 0)%float = true ->
   (0 <? avgVectors)%float = true ->
   classify avgText avgImages avgVectors =
     (ty_vector, Math_min 0.9 (0.7 + (avgVectors / 10) * 0.2)%float)) /\
  (((avgText <? 30) && (0 <? avgImages) && (avgImages <=? 100))%float
     = false ->
   ((avgText <? 30) && (avgImages =? 0) && (0 <? avgVectors))%float
     = false ->
   classify avgText avgImages avgVectors =
     (ty_text, Math_min 0.9 (0.6 + (avgText / 100) * 0.3)%float)) /\
  ((100 <? avgImages)%float = true ->
   classify avgText avgImages avgVectors =
     (ty_text, Math_min 0.9 (0.6 + (avgText / 100) * 0.3)%float)).
Proof.
  repeat split.
  - intros H1 H2 H3. unfold classify. now rewrite H1, H2, H3.
  - intros H1 H2 H3. unfold classify.
    rewrite (eqb_true_ltb_false _ _ H2), H1, H2, H3. reflexivity.
  - intros H1 H2. unfold classify. now rewrite H1, H2.
  - intro H. unfold classify.
    rewrite (ltb_true_leb_false _ _ H), (above_100_not_zero _ H).
    now rewrite !andb_false_r.
Qed.

Lemma classify_first_match_wins_witness :
  classify 5 40 0 = (ty_scan, 0.7999999999999999%float) /\
  classify 5 0 8 = (ty_vector, 0.86%float) /\
  classify 50 0 0 = (ty_text, 0.75%float) /\
  classify 5 250 3 = (ty_text, 0.615%float).
Proof.
  split; [|split; [|split]].
  - exact (proj1 (classify_first_match_wins 5 40 0)
             eq_refl eq_refl eq_refl).
  - exact (proj1 (proj2 (classify_first_match_wins 5 0 8))
             eq_refl eq_refl eq_refl).
  - exact (proj1 (proj2 (proj2 (classify_first_match_wins 50 0 0)))
             eq_refl eq_refl).
  - exact (proj2 (proj2 (proj2 (classify_first_match_wins 5 250 3)))
             eq_refl).
Defined.

(* ================================================================== *)
(** * 10. Properties of the dictionary-based counting                  *)
(* ================================================================== *)

Section DictionaryFacts.

Local Open Scope string_scope.

(** With pairwise different keys, looking a key up gives its entry. *)
Lemma dict_get_unique (d : Dict) (k : string) (v : option JsVal) :
  unique_keys d -> In (k, v) d -> dict_get d k = v.
Proof.
  unfold unique_keys.
  induction d as [|[k' v'] d IH]; simpl; intros ND Hin; [contradiction|].
  inversion ND as [|? ? Hnot ND']; subst.
  destruct Hin as [E | Hin].
  - inversion E; subst. now rewrite String.eqb_refl.
  - destruct (String.eqb_spec k' k) as [-> | _].
    + exfalso. apply Hnot. unfold getKeys.
      change k with (fst (k, v)). now apply in_map.
    + now apply IH.
Qed.

Lemma image_is_not_form (st : JsVal) :
  name_is st "Image" = true -> name_is st "Form" = false.
Proof.
  unfold name_is. destruct (opt_name st) as [n|]; [|discriminate].
  intro H. apply String.eqb_eq in H. now subst.
Qed.

(** One iteration of the loop over the XObject keys, in terms of what
    the entry declares. *)
Lemma smart_xobject_entry_counts
    (xs : Dict) (tot : nat * nat) (k : string) (v : option JsVal) :
  dict_get xs k = v ->
  smart_xobject_entry xs tot k =
    (fst tot + b2n (declares_subtype "Image" (k, v)),
     snd tot + b2n (declares_subtype "Form" (k, v))).
Proof.
  intro E. unfold smart_xobject_entry, declares_subtype. rewrite E. simpl.
  destruct tot as [i w]. simpl.
  destruct v as [[ | | | | d]|]; simpl; try (f_equal; lia).
  destruct (dict_get d "Subtype") as [st|]; simpl; [|f_equal; lia].
  destruct (name_is st "Image") eqn:EI.
  - rewrite (image_is_not_form _ EI). simpl. f_equal; lia.
  - destruct (name_is st "Form"); simpl; f_equal; lia.
Qed.

Lemma fold_xobject_entries (xs l : Dict) (tot : nat * nat) :
  (forall k v, In (k, v) l -> dict_get xs k = v) ->
  fold_left (smart_xobject_entry xs) (getKeys l) tot =
    (fst tot + List.length (filter (declares_subtype "Image") l),
     snd tot + List.length (filter (declares_subtype "Form") l)).
Proof.
  revert tot. induction l as [|[k v] l IH]; intros tot H; simpl.
  - destruct tot; simpl; f_equal; lia.
  - rewrite (smart_xobject_entry_counts xs tot k v)
      by (apply H; now left).
    rewrite IH by (intros k' v' Hin; apply H; now right). simpl.
    destruct (declares_subtype "Image" (k, v)),
             (declares_subtype "Form" (k, v)); simpl; f_equal; lia.
Qed.

(** The loop over the XObject entries of a value, whatever the value. *)
Lemma xobjects_counts (xobjects : JsVal) (tot : nat * nat) :
  (forall xs, xobjects = VDict xs -> unique_keys xs) ->
  match xobjects with
  | VDict xs => fold_left (smart_xobject_entry xs) (getKeys xs) tot
  | _ => tot
  end =
  let es := match xobjects with VDict d => d | _ => [] end in
  (fst tot + List.length (filter (declares_subtype "Image") es),
   snd tot + List.length (filter (declares_subtype "Form") es)).
Proof.
  intro U. destruct xobjects as [ | | | | xs]; simpl;
    try (destruct tot; simpl; f_equal; lia).
  apply fold_xobject_entries. intros k v Hin.
  apply dict_get_unique; [now apply U | exact Hin].
Qed.

Lemma add_keys_length (x : JsVal) (tot : nat * nat) :
  add_keys x tot =
    (fst tot,
     snd tot + List.length (match x with VDict d => d | _ => [] end)).
Proof.
  destruct x as [ | | | | d]; simpl;
    try (destruct tot; simpl; f_equal; lia).
  unfold getKeys. now rewrite length_map.
Qed.

Lemma smart_page_counts_of_resources (resources : Dict) (tot : nat * nat) :
  smart_page_counts (pageDict_of resources) tot =
    match dict_get resources "XObject" with
    | None => tot
    | Some xobjects =>
        let tot1 :=
          match xobjects with
          | VDict xs => fold_left (smart_xobject_entry xs) (getKeys xs) tot
          | _ => tot
          end in
        match dict_get resources "Pattern" with
        | None => tot1
        | Some patterns =>
            match dict_get resources "Shading" with
            | None => tot1
            | Some shadings => add_keys shadings (add_keys patterns tot1)
            end
        end
    end.
Proof. reflexivity. Qed.

End DictionaryFacts.

(** C6 as stated fails: when the lookup of the [XObject] category throws,
    the [Pattern] entry is not counted. *)
Lemma pattern_lost_when_xobject_lookup_throws :
  smart_page_counts (pageDict_of resources_xobject_throws) (0, 0) = (0, 0) /\
  DictionaryInspector_spec resources_xobject_throws = (0, 1).
Proof. split; reflexivity. Qed.

(** C6 (amended): when the three category lookups return (a missing or
    malformed category counting as empty), the page adds one image per
    XObject entry of subtype [Image] and one vector per XObject entry of
    subtype [Form], per [Pattern] entry and per [Shading] entry; an
    XObject entry whose lookup throws, that is no dictionary, or whose
    [Subtype] cannot be read leaves the totals as they are and the loop
    goes on.  When a category lookup throws, the counting of the page
    stops there and keeps what was added before. *)
Theorem dictionary_counting_rule (resources : Dict) (tot : nat * nat) :
  (dict_get resources "XObject" <> None ->
   dict_get resources "Pattern" <> None ->
   dict_get resources "Shading" <> None ->
   unique_keys (entries_under resources "XObject") ->
   smart_page_counts (pageDict_of resources) tot =
     (fst tot + fst (DictionaryInspector_spec resources),
      snd tot + snd (DictionaryInspector_spec resources))) /\
  (forall xs k,
      (dict_get xs k = None \/
       (exists v, dict_get xs k = Some v /\
                  forall d, v = VDict d -> dict_get d "Subtype" = None) \/
       (exists d st, dict_get xs k = Some (VDict d) /\
                     dict_get d "Subtype" = Some st /\ opt_name st = None)) ->
      smart_xobject_entry xs tot k = tot) /\
  (dict_get resources "XObject" = None ->
   smart_page_counts (pageDict_of resources) tot = tot) /\
  (dict_get resources "XObject" <> None ->
   unique_keys (entries_under resources "XObject") ->
   dict_get resources "Pattern" = None \/
   dict_get resources "Shading" = None ->
   smart_page_counts (pageDict_of resources) tot =
     (fst tot + fst (DictionaryInspector_spec resources),
      snd tot + List.length
                  (filter (declares_subtype "Form")
                          (entries_under resources "XObject")))).
Proof.
  split; [|split; [|split]].
  - intros HX HP HS U.
    rewrite smart_page_counts_of_resources.
    unfold DictionaryInspector_spec, entries_under in *.
    destruct (dict_get resources "XObject") as [xo|]; [|congruence].
    destruct (dict_get resources "Pattern") as [pa|]; [|congruence].
    destruct (dict_get resources "Shading") as [sh|]; [|congruence].
    cbv zeta. rewrite !add_keys_length.
    rewrite xobjects_counts by (intros xs ->; exact U).
    cbv zeta. cbn [fst snd]. f_equal. now rewrite !Nat.add_assoc.
  - intros xs k [E | [(v & E & Hv) | (d & st & E & Est & En)]];
      unfold smart_xobject_entry; rewrite E; [reflexivity| |].
    + destruct v as [ | | | | d]; try reflexivity.
      now rewrite (Hv d eq_refl).
    + rewrite Est. unfold name_is. now rewrite En.
  - intro HX. rewrite smart_page_counts_of_resources. now rewrite HX.
  - intros HX U HPS.
    rewrite smart_page_counts_of_resources.
    unfold DictionaryInspector_spec, entries_under in *.
    destruct (dict_get resources "XObject") as [xo|]; [|congruence].
    cbv zeta.
    rewrite xobjects_counts by (intros xs ->; exact U).
    destruct (dict_get resources "Pattern") as [pa|];
      [|reflexivity].
    destruct (dict_get resources "Shading") as [sh|];
      [|reflexivity].
    destruct HPS; congruence.
Qed.

Lemma dictionary_counting_rule_witness :
  smart_page_counts (pageDict_of sample_resources) (0, 0) = (1, 2).
Proof.
  refine (proj1 (dictionary_counting_rule sample_resources (0, 0)) _ _ _ _).
  - discriminate.
  - discriminate.
  - discriminate.
  - unfold unique_keys. cbn.
    repeat (constructor; [cbn; intuition discriminate|]). constructor.
Defined.

(* ================================================================== *)
(** * 11. Reasoning about runs                                         *)
(* ================================================================== *)

Section MonadFacts.

Context {A B : Type}.

Lemma bind_Ok (m : M A) (f : A -> M B) (s s1 : State) (a : A) :
  m s = (Ok a, s1) -> bind m f s = f a s1.
Proof. intro E. unfold bind. now rewrite E. Qed.

Lemma bind_Err (m : M A) (f : A -> M B) (s s1 : State) (e : Error) :
  m s = (Err e, s1) -> bind m f s = (Err e, s1).
Proof. intro E. unfold bind. now rewrite E. Qed.

(** A successful [bind] went through a successful first action. *)
Lemma bind_Ok_inv (m : M A) (f : A -> M B) (s s' : State) (b : B) :
  bind m f s = (Ok b, s') ->
  exists a s1, m s = (Ok a, s1) /\ f a s1 = (Ok b, s').
Proof.
  unfold bind. destruct (m s) as [[a | e] s1]; intro H.
  - now exists a, s1.
  - discriminate.
Qed.

Lemma quiet_ret (a : A) : quiet (ret a).
Proof. intro s. reflexivity. Qed.

Lemma quiet_throw (e : Error) : quiet (@throw A e).
Proof. intro s. reflexivity. Qed.

Lemma quiet_settle (o : option A) (e : Error) : quiet (settle o e).
Proof. destruct o; [apply quiet_ret | apply quiet_throw]. Qed.

Lemma quiet_bind (m : M A) (f : A -> M B) :
  quiet m -> (forall a, quiet (f a)) -> quiet (bind m f).
Proof.
  intros Hm Hf s. unfold bind. specialize (Hm s).
  destruct (m s) as [[a | e] s1]; simpl in *.
  - now rewrite Hf.
  - exact Hm.
Qed.

Lemma quiet_try_catch (m h : M A) :
  quiet m -> quiet h -> quiet (try_catch m h).
Proof.
  intros Hm Hh s. unfold try_catch. specialize (Hm s).
  destruct (m s) as [[a | e] s1]; simpl in *.
  - exact Hm.
  - now rewrite Hh.
Qed.

Lemma tips_ret (a : A) : tips (ret a).
Proof. intros s n s' H. discriminate. Qed.

Lemma tips_bind (m : M A) (f : A -> M B) :
  tips m -> (forall a, tips (f a)) -> tips (bind m f).
Proof.
  intros Hm Hf s n s'. unfold bind.
  destruct (m s) as [[a | e] s1] eqn:E; intro H.
  - exact (Hf a s1 n s' H).
  - inversion H; subst. exact (Hm s n s' E).
Qed.

Lemma tips_try_catch (m h : M A) : tips h -> tips (try_catch m h).
Proof.
  intros Hh s n s'. unfold try_catch.
  destruct (m s) as [[a | e] s1]; intro H.
  - discriminate.
  - exact (Hh s1 n s' H).
Qed.

End MonadFacts.

Section LoopFacts.

Context {X S : Type}.

Lemma quiet_for_each (l : list X) (body : X -> S -> M S) (acc : S) :
  (forall x a, quiet (body x a)) -> quiet (for_each l body acc).
Proof.
  intro H. revert acc. induction l as [|x l IH]; intro acc; simpl.
  - apply quiet_ret.
  - apply quiet_bind; [apply H | exact IH].
Qed.

Lemma tips_for_each (l : list X) (body : X -> S -> M S) (acc : S) :
  (forall x a, tips (body x a)) -> tips (for_each l body acc).
Proof.
  intro H. revert acc. induction l as [|x l IH]; intro acc; simpl.
  - apply tips_ret.
  - apply tips_bind; [apply H | exact IH].
Qed.

(** Two loops whose bodies agree agree. *)
Lemma for_each_ext (l : list X) (body1 body2 : X -> S -> M S) :
  (forall x a s, body1 x a s = body2 x a s) ->
  forall acc s, for_each l body1 acc s = for_each l body2 acc s.
Proof.
  intro H. induction l as [|x l IH]; intros acc s; simpl; [reflexivity|].
  unfold bind. rewrite H.
  destruct (body2 x acc s) as [[a | e] s1]; [apply IH | reflexivity].
Qed.

(** A loop that succeeded succeeded at every iteration. *)
Lemma for_each_Ok_all (P : X -> Prop) (body : X -> S -> M S) :
  (forall x a s a' s', body x a s = (Ok a', s') -> P x) ->
  forall l acc s acc' s',
    for_each l body acc s = (Ok acc', s') -> Forall P l.
Proof.
  intro H. induction l as [|x l IH]; intros acc s acc' s' E; simpl in E.
  - constructor.
  - apply bind_Ok_inv in E. destruct E as (a1 & s1 & E1 & E2).
    constructor; [exact (H _ _ _ _ _ E1) | exact (IH _ _ _ _ E2)].
Qed.

(** A loop that succeeded folded a pure function over a projection of
    its locals, when each iteration does. *)
Lemma for_each_Ok_fold {T : Type} (proj : S -> T) (g : T -> X -> T)
    (body : X -> S -> M S) :
  (forall x a s a' s', body x a s = (Ok a', s') ->
                       proj a' = g (proj a) x) ->
  forall l acc s acc' s',
    for_each l body acc s = (Ok acc', s') ->
    proj acc' = fold_left g l (proj acc).
Proof.
  intro H. induction l as [|x l IH]; intros acc s acc' s' E; simpl in E.
  - inversion E. reflexivity.
  - apply bind_Ok_inv in E. destruct E as (a1 & s1 & E1 & E2).
    simpl. rewrite <- (H _ _ _ _ _ E1). exact (IH _ _ _ _ E2).
Qed.

End LoopFacts.

Section PrimitiveFacts.

Variable host : Host.

Lemma quiet_emit (ev : Event) : is_lifecycle ev = false -> quiet (emit ev).
Proof. intros H s. unfold lifecycle. simpl. now rewrite H. Qed.

Lemma tips_emit (ev : Event) : tips (emit ev).
Proof. intros s n s' H. discriminate. Qed.

Lemma tips_throw {A} (e : Error) :
  (forall n, e <> OperatorListError n) -> tips (@throw A e).
Proof.
  intros Hne s n s' H. inversion H; subst. now destruct (Hne n).
Qed.

Lemma tips_settle {A} (o : option A) (e : Error) :
  (forall n, e <> OperatorListError n) -> tips (settle o e).
Proof. intro H. destruct o; [apply tips_ret | now apply tips_throw]. Qed.

Lemma quiet_invoke {A} (cb : option (Callback A)) (info : A)
    (ev : A -> Event) :
  is_lifecycle (ev info) = false -> quiet (invoke cb info ev).
Proof.
  intro H. destruct cb as [f|]; simpl; [|apply quiet_ret].
  apply quiet_bind; [now apply quiet_emit|].
  intros _. destruct (f info); [apply quiet_ret | apply quiet_throw].
Qed.

Lemma tips_invoke {A} (cb : option (Callback A)) (info : A)
    (ev : A -> Event) : tips (invoke cb info ev).
Proof.
  destruct cb as [f|]; simpl; [|apply tips_ret].
  apply tips_bind; [apply tips_emit|].
  intros _. destruct (f info); [apply tips_ret|].
  apply tips_throw. discriminate.
Qed.

Lemma quiet_setupCanvasPolyfill : quiet (setupCanvasPolyfill host).
Proof.
  intro s. unfold setupCanvasPolyfill.
  destruct (canvasPolyfillSetup s); reflexivity.
Qed.

Lemma tips_setupCanvasPolyfill : tips (setupCanvasPolyfill host).
Proof.
  intros s n s'. unfold setupCanvasPolyfill.
  destruct (canvasPolyfillSetup s); discriminate.
Qed.

Lemma quiet_loadPdfData (src : PdfSource) : quiet (loadPdfData host src).
Proof.
  destruct src; simpl;
    [ apply quiet_bind; [now apply quiet_emit | intros _; apply quiet_settle]
    | apply quiet_ret | apply quiet_throw ].
Qed.

Lemma tips_loadPdfData (src : PdfSource) : tips (loadPdfData host src).
Proof.
  destruct src; simpl.
  - apply tips_bind; [apply tips_emit|].
    intros _. apply tips_settle. discriminate.
  - apply tips_ret.
  - apply tips_throw. discriminate.
Qed.

Lemma tips_loadDocument (data : bytes) : tips (loadDocument host data).
Proof.
  unfold loadDocument. destruct (getDocument host data).
  - apply tips_bind; [apply tips_emit | intros _; apply tips_ret].
  - apply tips_bind; [apply tips_emit|].
    intros _. apply tips_throw. discriminate.
Qed.

Lemma quiet_await_getPage (pdf : PDFDocument) (n : nat) :
  quiet (await_getPage pdf n).
Proof.
  apply quiet_bind; [now apply quiet_emit | intros _; apply quiet_settle].
Qed.

Lemma tips_await_getPage (pdf : PDFDocument) (n : nat) :
  tips (await_getPage pdf n).
Proof.
  apply tips_bind; [apply tips_emit|].
  intros _. apply tips_settle. discriminate.
Qed.

Lemma quiet_await_getTextContent (page : Page) (n : nat) :
  quiet (await_getTextContent page n).
Proof.
  apply quiet_bind; [now apply quiet_emit | intros _; apply quiet_settle].
Qed.

Lemma tips_await_getTextContent (page : Page) (n : nat) :
  tips (await_getTextContent page n).
Proof.
  apply tips_bind; [apply tips_emit|].
  intros _. apply tips_settle. discriminate.
Qed.

Lemma quiet_await_getOperatorList (page : Page) (n : nat) (i : Intent) :
  quiet (await_getOperatorList page n i).
Proof.
  apply quiet_bind; [now apply quiet_emit | intros _; apply quiet_settle].
Qed.

(** The one place where an instruction-stream error is raised: right
    after the call was logged. *)
Lemma tips_await_getOperatorList (page : Page) (n : nat) (i : Intent) :
  tips (await_getOperatorList page n i).
Proof.
  intros s m s'. unfold await_getOperatorList, bind, emit, settle.
  destruct (getOperatorList page i); simpl; intro H; [discriminate|].
  inversion H; subst. now exists i, (log s).
Qed.

Lemma quiet_page_cleanup (n : nat) : quiet (page_cleanup n).
Proof. now apply quiet_emit. Qed.

Lemma tips_page_cleanup (n : nat) : tips (page_cleanup n).
Proof. apply tips_emit. Qed.

Lemma quiet_gc_hint (c : bool) : quiet (gc_hint host c).
Proof.
  unfold gc_hint. destruct (c && global_gc host);
    [now apply quiet_emit | apply quiet_ret].
Qed.

Lemma tips_gc_hint (c : bool) : tips (gc_hint host c).
Proof.
  unfold gc_hint. destruct (c && global_gc host);
    [apply tips_emit | apply tips_ret].
Qed.

Lemma tips_pdf_destroy : tips pdf_destroy.
Proof. apply tips_emit. Qed.

End PrimitiveFacts.

(** Decomposition of a page body into the primitives above. *)
Ltac open_locals :=
  match goal with
  | |- context [let '(_, _) := ?p in _] => is_var p; destruct p
  | |- context [let '(_, _) := ?p in _] => destruct p
  | |- context [if ?b then _ else _] => destruct b
  end.

Ltac quiet_step :=
  first
    [ apply quiet_ret | apply quiet_throw | apply quiet_settle
    | apply quiet_await_getPage | apply quiet_await_getTextContent
    | apply quiet_await_getOperatorList | apply quiet_page_cleanup
    | apply quiet_gc_hint | apply quiet_invoke; reflexivity
    | apply quiet_try_catch | apply quiet_bind ].

Ltac tips_step :=
  first
    [ apply tips_ret
    | apply tips_await_getPage | apply tips_await_getTextContent
    | apply tips_await_getOperatorList | apply tips_page_cleanup
    | apply tips_gc_hint | apply tips_invoke | apply tips_pdf_destroy
    | apply tips_try_catch | apply tips_bind ].

Ltac quiet_auto := repeat (intros; cbv beta; first [quiet_step | open_locals]).
Ltac tips_auto := repeat (intros; cbv beta; first [tips_step | open_locals]).

Section PageBodies.

Variable host : Host.
Variable pdf : PDFDocument.

Lemma quiet_extractPdfData_page n acc :
  quiet (extractPdfData_page host pdf n acc).
Proof. unfold extractPdfData_page. quiet_auto. Qed.

Lemma tips_extractPdfData_page n acc :
  tips (extractPdfData_page host pdf n acc).
Proof. unfold extractPdfData_page. tips_auto. Qed.

Lemma quiet_extractPdfDataStreaming_page cb tx n acc :
  quiet (extractPdfDataStreaming_page host pdf cb tx n acc).
Proof. unfold extractPdfDataStreaming_page. quiet_auto. Qed.

Lemma tips_extractPdfDataStreaming_page cb tx n acc :
  tips (extractPdfDataStreaming_page host pdf cb tx n acc).
Proof. unfold extractPdfDataStreaming_page. tips_auto. Qed.

Lemma quiet_extractPdfStats_page cb tx n acc :
  quiet (extractPdfStats_page host pdf cb tx n acc).
Proof. unfold extractPdfStats_page. quiet_auto. Qed.

Lemma tips_extractPdfStats_page cb tx n acc :
  tips (extractPdfStats_page host pdf cb tx n acc).
Proof. unfold extractPdfStats_page. tips_auto. Qed.

Lemma quiet_analyzePdfType_page sp i t :
  quiet (analyzePdfType_page host pdf sp i t).
Proof. unfold analyzePdfType_page. quiet_auto. Qed.

Lemma tips_analyzePdfType_page sp i t :
  tips (analyzePdfType_page host pdf sp i t).
Proof. unfold analyzePdfType_page. tips_auto. Qed.

Lemma quiet_extractPdfSmart_page cb n acc :
  quiet (extractPdfSmart_page host pdf cb n acc).
Proof. unfold extractPdfSmart_page. quiet_auto. Qed.

Lemma tips_extractPdfSmart_page cb n acc :
  tips (extractPdfSmart_page host pdf cb n acc).
Proof. unfold extractPdfSmart_page. tips_auto. Qed.

End PageBodies.

(* ================================================================== *)
(** * 12. Document disposal                                            *)
(* ================================================================== *)

Section Sessions.

Variable host : Host.

Lemma lifecycle_cons (ev : Event) (flag : bool) (l : list Event) :
  lifecycle (mkState flag (ev :: l)) =
    if is_lifecycle ev then ev :: lifecycle (mkState flag l)
    else lifecycle (mkState flag l).
Proof. reflexivity. Qed.

(** The shape shared by the five functions: load the bytes, load the
    document, loop over pages, then a tail that calls [destroy] and
    returns. *)
Lemma session_core {S B : Type} (ld : M bytes)
    (loop : PDFDocument -> M S) (k : PDFDocument -> S -> M B) :
  quiet ld ->
  (forall pdf, quiet (loop pdf)) ->
  (forall pdf acc s, exists b,
      k pdf acc s =
        (Ok b, mkState (canvasPolyfillSetup s) (EvDestroy :: log s))) ->
  forall s,
    single_session s
      ((data <- ld ;; pdf <- loadDocument host data ;;
        acc <- loop pdf ;; k pdf acc) s).
Proof.
  intros Hld Hloop Hk s. unfold single_session, bind.
  pose proof (Hld s) as Q1.
  destruct (ld s) as [[data | e] s1]; simpl in *; [|now left].
  unfold loadDocument.
  destruct (getDocument host data) as [pdf|];
    unfold bind, emit, ret, throw; simpl.
  - match goal with
    | |- context [loop pdf ?st] => set (s2 := st)
    end.
    assert (Q2 : lifecycle s2 = EvGetDocument true :: lifecycle s)
      by (unfold s2; rewrite lifecycle_cons; simpl; f_equal; exact Q1).
    pose proof (Hloop pdf s2) as Q3.
    destruct (loop pdf s2) as [[acc | e] s3]; simpl in *.
    + destruct (Hk pdf acc s3) as [b ->]. simpl. split.
      * rewrite lifecycle_cons. simpl. f_equal.
        change (lifecycle s3 = EvGetDocument true :: lifecycle s).
        now rewrite Q3.
      * now exists (log s3).
    + right. now rewrite Q3.
  - left. rewrite lifecycle_cons. simpl. exact Q1.
Qed.

Lemma session_prefix {A B : Type} (pre : M A) (m : M B) :
  quiet pre ->
  (forall s, single_session s (m s)) ->
  forall s, single_session s ((pre ;; m) s).
Proof.
  intros Hpre Hm s. unfold bind. pose proof (Hpre s) as Q.
  destruct (pre s) as [[a | e] s1]; simpl in *.
  - specialize (Hm s1). unfold single_session in *.
    now rewrite Q in Hm.
  - unfold single_session. simpl. now left.
Qed.

Lemma double_prefix {A B : Type} (pre : M A) (m : M B) :
  quiet pre ->
  (forall s, double_session s (m s)) ->
  forall s, double_session s ((pre ;; m) s).
Proof.
  intros Hpre Hm s. unfold bind. pose proof (Hpre s) as Q.
  destruct (pre s) as [[a | e] s1]; simpl in *.
  - specialize (Hm s1). unfold double_session in *.
    now rewrite Q in Hm.
  - unfold double_session. simpl. now left.
Qed.

(** Two sessions in sequence. *)
Lemma session_then {A B : Type} (m : M A) (f : A -> M B) :
  (forall s, single_session s (m s)) ->
  (forall a s, single_session s (f a s)) ->
  forall s, double_session s (bind m f s).
Proof.
  intros Hm Hf s. unfold bind. specialize (Hm s).
  unfold single_session in Hm.
  destruct (m s) as [[a | e] s1]; simpl in *.
  - destruct Hm as [Q1 _]. specialize (Hf a s1).
    unfold single_session in Hf. unfold double_session.
    destruct (f a s1) as [[b | e] s2]; simpl in *.
    + destruct Hf as [Q2 L]. split; [|exact L]. now rewrite Q2, Q1.
    + destruct Hf as [Q2 | Q2]; rewrite Q2, Q1; auto.
  - unfold double_session. simpl. destruct Hm; auto.
Qed.

Lemma destroy_tail {B : Type} (b : B) (s : State) :
  (pdf_destroy ;; ret b) s =
    (Ok b, mkState (canvasPolyfillSetup s) (EvDestroy :: log s)).
Proof. reflexivity. Qed.

Lemma extractPdfData_session src s :
  single_session s (extractPdfData host src s).
Proof.
  revert s. unfold extractPdfData.
  apply session_prefix; [apply quiet_setupCanvasPolyfill|].
  apply session_core.
  - apply quiet_loadPdfData.
  - intro pdf. apply quiet_for_each. apply quiet_extractPdfData_page.
  - intros pdf [[t i] v] s. eexists. apply destroy_tail.
Qed.

Lemma extractPdfDataStreaming_session src o s :
  single_session s (extractPdfDataStreaming host src o s).
Proof.
  revert s. unfold extractPdfDataStreaming. cbv zeta.
  apply session_prefix; [apply quiet_setupCanvasPolyfill|].
  apply session_core.
  - apply quiet_loadPdfData.
  - intro pdf. apply quiet_for_each.
    apply quiet_extractPdfDataStreaming_page.
  - intros pdf [[t i] v] s. eexists. apply destroy_tail.
Qed.

Lemma extractPdfStats_session src o s :
  single_session s (extractPdfStats host src o s).
Proof.
  revert s. unfold extractPdfStats. cbv zeta.
  apply session_prefix; [apply quiet_setupCanvasPolyfill|].
  apply session_core.
  - apply quiet_loadPdfData.
  - intro pdf. apply quiet_for_each. apply quiet_extractPdfStats_page.
  - intros pdf [[t i] v] s. eexists. apply destroy_tail.
Qed.

Lemma analyzePdfType_session src o s :
  single_session s (analyzePdfType host src o s).
Proof.
  revert s. unfold analyzePdfType. cbv zeta.
  apply session_prefix; [apply quiet_setupCanvasPolyfill|].
  apply session_core.
  - apply quiet_loadPdfData.
  - intro pdf. apply quiet_for_each. apply quiet_analyzePdfType_page.
  - intros pdf t s. eexists. apply destroy_tail.
Qed.

Lemma extractPdfSmart_session src o s :
  double_session s (extractPdfSmart host src o s).
Proof.
  revert s. unfold extractPdfSmart. cbv zeta.
  apply double_prefix; [apply quiet_setupCanvasPolyfill|].
  apply double_prefix; [now apply quiet_invoke|].
  apply session_then.
  - intro s. apply analyzePdfType_session.
  - intro analysis.
    apply session_prefix; [now apply quiet_invoke|].
    apply session_core.
    + apply quiet_loadPdfData.
    + intro pdf. apply quiet_for_each. apply quiet_extractPdfSmart_page.
    + intros pdf [[t i] v] s. eexists. apply destroy_tail.
Qed.

End Sessions.

(** C2 as stated fails: a run of [extractPdfData] over a loaded document
    whose first page cannot be loaded ends in an error without any call
    of [destroy]. *)
Lemma no_destroy_after_page_failure :
  let out := extractPdfData (host_of document_page_fails)
                            (SrcBuffer []) state0 in
  fst out = Err (GetPageError 1) /\
  In (EvGetDocument true) (log (snd out)) /\
  destroy_count (snd out) = 0.
Proof. cbv zeta. split; [reflexivity | split; [cbn; auto | reflexivity]]. Qed.

(** C2 (amended): in each of the five functions a run that succeeds has
    loaded its document and called [destroy] on it exactly once, as the
    last thing it did ([extractPdfSmart] does so twice, once for the
    sampling run and once for the full pass); a run that fails has not
    called [destroy] on the document it was processing. *)
Theorem destroy_once_on_success_only (host : Host) :
  (forall src s, single_session s (extractPdfData host src s)) /\
  (forall src o s,
      single_session s (extractPdfDataStreaming host src o s)) /\
  (forall src o s, single_session s (extractPdfStats host src o s)) /\
  (forall src o s, single_session s (analyzePdfType host src o s)) /\
  (forall src o s, double_session s (extractPdfSmart host src o s)).
Proof.
  split; [|split; [|split; [|split]]].
  - apply extractPdfData_session.
  - apply extractPdfDataStreaming_session.
  - apply extractPdfStats_session.
  - apply analyzePdfType_session.
  - apply extractPdfSmart_session.
Qed.

(* ================================================================== *)
(** * 13. Failure of instruction-stream materialization                *)
(* ================================================================== *)

Section StreamFailure.

Variable host : Host.

(** A run that got past the loading of the document had a document to
    load. *)
Lemma loaded_Ok_inv {B : Type} (src : PdfSource)
    (rest : PDFDocument -> M B) (s s' : State) (b : B) :
  (data <- loadPdfData host src ;;
   pdf <- loadDocument host data ;; rest pdf) s = (Ok b, s') ->
  exists pdf s2,
    document_of host src = Some pdf /\ rest pdf s2 = (Ok b, s').
Proof.
  intro E.
  apply bind_Ok_inv in E. destruct E as (data & s2 & E1 & E).
  apply bind_Ok_inv in E. destruct E as (pdf & s3 & E2 & E).
  exists pdf, s3. split; [|exact E].
  unfold document_of.
  assert (D : source_data host src = Some data).
  { destruct src as [path | d | d]; simpl in *.
    - unfold bind, emit, settle in E1. simpl in E1.
      destruct (readFileSync host path); inversion E1; reflexivity.
    - inversion E1; reflexivity.
    - discriminate. }
  rewrite D. unfold loadDocument in E2.
  destruct (getDocument host data) as [pdf'|].
  - inversion E2; reflexivity.
  - discriminate.
Qed.

Lemma opened_Ok_inv {B : Type} (src : PdfSource)
    (rest : PDFDocument -> M B) (s s' : State) (b : B) :
  (setupCanvasPolyfill host ;;
   data <- loadPdfData host src ;;
   pdf <- loadDocument host data ;; rest pdf) s = (Ok b, s') ->
  exists pdf s2,
    document_of host src = Some pdf /\ rest pdf s2 = (Ok b, s').
Proof.
  intro E.
  apply bind_Ok_inv in E. destruct E as (u & s1 & _ & E).
  exact (loaded_Ok_inv _ _ _ _ _ E).
Qed.

(** Conversely, a source that stands for a document gets the run past
    the loading. *)
Lemma opened_run {B : Type} (src : PdfSource) (pdf : PDFDocument)
    (rest : PDFDocument -> M B) (s : State) :
  document_of host src = Some pdf ->
  exists s2,
    (setupCanvasPolyfill host ;;
     data <- loadPdfData host src ;;
     pdf <- loadDocument host data ;; rest pdf) s = rest pdf s2.
Proof.
  unfold document_of. intro D.
  destruct (source_data host src) as [data|] eqn:SD; [|discriminate].
  destruct (setupCanvasPolyfill host s) as [[u | e] s1] eqn:E0;
    [|unfold setupCanvasPolyfill in E0;
      destruct (canvasPolyfillSetup s); discriminate].
  rewrite (bind_Ok _ _ _ _ _ E0).
  assert (E1 : exists s2, loadPdfData host src s1 = (Ok data, s2)).
  { destruct src as [path | d | d]; simpl in *.
    - unfold bind, emit, settle. simpl. rewrite SD. eexists. reflexivity.
    - inversion SD; subst. eexists. reflexivity.
    - discriminate. }
  destruct E1 as (s2 & E1). rewrite (bind_Ok _ _ _ _ _ E1).
  unfold loadDocument. rewrite D.
  eexists. unfold bind at 1. unfold bind at 1. simpl. reflexivity.
Qed.

Lemma pages_materialized (pdf : PDFDocument) (intent : Intent) :
  Forall (fun n => exists page ops,
              getPage pdf n = Some page /\
              getOperatorList page intent = Some ops) (all_pages pdf) ->
  all_streams_materialized pdf intent.
Proof.
  intros H n Hn. rewrite Forall_forall in H. apply H.
  unfold all_pages. apply in_seq. lia.
Qed.

Ltac crunch_body pdf n :=
  unfold await_getPage, await_getTextContent, await_getOperatorList,
         bind, emit, settle, ret, throw;
  destruct (getPage pdf n) as [page|]; simpl; [|discriminate];
  repeat match goal with
    | |- context [if ?b then _ else _] => destruct b; simpl
    end;
  try (destruct (getTextContent page); simpl; [|discriminate]);
  match goal with
  | |- context [getOperatorList page ?i] =>
      destruct (getOperatorList page i) as [ops|] eqn:Eops; simpl;
      [intros _; now exists page, ops | discriminate]
  end.

Lemma extractPdfData_page_Ok pdf n acc s acc' s' :
  extractPdfData_page host pdf n acc s = (Ok acc', s') ->
  exists page ops,
    getPage pdf n = Some page /\ getOperatorList page display = Some ops.
Proof.
  destruct acc as [[t i] v]. unfold extractPdfData_page.
  crunch_body pdf n.
Qed.

Lemma extractPdfDataStreaming_page_Ok pdf cb tx n acc s acc' s' :
  extractPdfDataStreaming_page host pdf cb tx n acc s = (Ok acc', s') ->
  exists page ops,
    getPage pdf n = Some page /\ getOperatorList page display = Some ops.
Proof.
  destruct acc as [[t i] v]. unfold extractPdfDataStreaming_page.
  crunch_body pdf n.
Qed.

Lemma extractPdfStats_page_Ok pdf cb tx n acc s acc' s' :
  extractPdfStats_page host pdf cb tx n acc s = (Ok acc', s') ->
  exists page ops,
    getPage pdf n = Some page /\ getOperatorList page print = Some ops.
Proof.
  destruct acc as [[t i] v]. unfold extractPdfStats_page.
  crunch_body pdf n.
Qed.

End StreamFailure.

Section StreamFailureRuns.

Variable host : Host.

Lemma extractPdfData_Ok src s r s' :
  extractPdfData host src s = (Ok r, s') ->
  exists pdf, document_of host src = Some pdf /\
              all_streams_materialized pdf display.
Proof.
  unfold extractPdfData. intro E.
  apply opened_Ok_inv in E. destruct E as (pdf & s2 & D & E).
  exists pdf. split; [exact D|].
  apply bind_Ok_inv in E. destruct E as (acc & s3 & E & _).
  apply pages_materialized.
  exact (for_each_Ok_all _ _ (extractPdfData_page_Ok host pdf)
           _ _ _ _ _ E).
Qed.

Lemma extractPdfDataStreaming_Ok src o s r s' :
  extractPdfDataStreaming host src o s = (Ok r, s') ->
  exists pdf, document_of host src = Some pdf /\
              all_streams_materialized pdf display.
Proof.
  unfold extractPdfDataStreaming. cbv zeta. intro E.
  apply opened_Ok_inv in E. destruct E as (pdf & s2 & D & E).
  exists pdf. split; [exact D|].
  apply bind_Ok_inv in E. destruct E as (acc & s3 & E & _).
  apply pages_materialized.
  exact (for_each_Ok_all _ _
           (extractPdfDataStreaming_page_Ok host pdf _ _) _ _ _ _ _ E).
Qed.

Lemma extractPdfStats_Ok src o s r s' :
  extractPdfStats host src o s = (Ok r, s') ->
  exists pdf, document_of host src = Some pdf /\
              all_streams_materialized pdf print.
Proof.
  unfold extractPdfStats. cbv zeta. intro E.
  apply opened_Ok_inv in E. destruct E as (pdf & s2 & D & E).
  exists pdf. split; [exact D|].
  apply bind_Ok_inv in E. destruct E as (acc & s3 & E & _).
  apply pages_materialized.
  exact (for_each_Ok_all _ _
           (extractPdfStats_page_Ok host pdf _ _) _ _ _ _ _ E).
Qed.

Lemma tips_extractPdfData src : tips (extractPdfData host src).
Proof.
  unfold extractPdfData.
  apply tips_bind; [apply tips_setupCanvasPolyfill | intros _].
  apply tips_bind; [apply tips_loadPdfData | intro data].
  apply tips_bind; [apply tips_loadDocument | intro pdf].
  apply tips_bind.
  - apply tips_for_each. apply tips_extractPdfData_page.
  - intros [[t i] v]. tips_auto.
Qed.

Lemma tips_extractPdfDataStreaming src o :
  tips (extractPdfDataStreaming host src o).
Proof.
  unfold extractPdfDataStreaming. cbv zeta.
  apply tips_bind; [apply tips_setupCanvasPolyfill | intros _].
  apply tips_bind; [apply tips_loadPdfData | intro data].
  apply tips_bind; [apply tips_loadDocument | intro pdf].
  apply tips_bind.
  - apply tips_for_each. apply tips_extractPdfDataStreaming_page.
  - intros [[t i] v]. tips_auto.
Qed.

Lemma tips_extractPdfStats src o : tips (extractPdfStats host src o).
Proof.
  unfold extractPdfStats. cbv zeta.
  apply tips_bind; [apply tips_setupCanvasPolyfill | intros _].
  apply tips_bind; [apply tips_loadPdfData | intro data].
  apply tips_bind; [apply tips_loadDocument | intro pdf].
  apply tips_bind.
  - apply tips_for_each. apply tips_extractPdfStats_page.
  - intros [[t i] v]. tips_auto.
Qed.

(** *** In the analysis a rejected stream is an empty stream *)

Lemma analyze_counts_empty (h : Host) (page : Page) (t : Totals) :
  analyze_counts h page [] t = t.
Proof.
  destruct t as [ti tv tt tl]. unfold analyze_counts. simpl.
  now rewrite !Nat.add_0_r.
Qed.

Lemma analyzePdfType_page_heal pdf sp i t s :
  analyzePdfType_page (heal_host host) (heal_document pdf) sp i t s =
  analyzePdfType_page host pdf sp i t s.
Proof.
  unfold analyzePdfType_page. cbv zeta.
  set (n := pageNum_of sp (numPages (heal_document pdf)) i).
  change (pageNum_of sp (numPages pdf) i) with n.
  unfold await_getPage, await_getTextContent, await_getOperatorList,
         try_catch, bind, emit, settle, ret, throw. simpl.
  destruct (getPage pdf n) as [page|]; simpl; [|reflexivity].
  destruct (getTextContent page) as [items|]; simpl; [|reflexivity].
  destruct (getOperatorList page display) as [ops|]; simpl.
  - reflexivity.
  - now rewrite analyze_counts_empty.
Qed.

Lemma extractPdfSmart_page_heal pdf cb n acc s :
  extractPdfSmart_page (heal_host host) (heal_document pdf) cb n acc s =
  extractPdfSmart_page host pdf cb n acc s.
Proof.
  destruct acc as [[t i] v]. unfold extractPdfSmart_page.
  unfold await_getPage, await_getTextContent, bind, emit, settle,
         ret, throw. simpl.
  destruct (getPage pdf n) as [page|]; simpl; reflexivity.
Qed.

Lemma loadDocument_heal {B : Type} (data : bytes)
    (k1 k2 : PDFDocument -> M B) (s : State) :
  (forall pdf s', k1 (heal_document pdf) s' = k2 pdf s') ->
  bind (loadDocument (heal_host host) data) k1 s =
  bind (loadDocument host data) k2 s.
Proof.
  intro H. unfold bind, loadDocument. simpl.
  destruct (getDocument host data) as [pdf|]; simpl; [apply H | reflexivity].
Qed.

Lemma bind_cong {A B : Type} (m1 m2 : M A) (f1 f2 : A -> M B) (s : State) :
  m1 s = m2 s ->
  (forall a s', f1 a s' = f2 a s') ->
  bind m1 f1 s = bind m2 f2 s.
Proof.
  intros Hm Hf. unfold bind. rewrite Hm.
  destruct (m2 s) as [[a | e] s1]; [apply Hf | reflexivity].
Qed.

Lemma opening_heal {B : Type} (src : PdfSource)
    (k1 k2 : PDFDocument -> M B) (s : State) :
  (forall pdf s', k1 (heal_document pdf) s' = k2 pdf s') ->
  (data <- loadPdfData (heal_host host) src ;;
   pdf <- loadDocument (heal_host host) data ;; k1 pdf) s =
  (data <- loadPdfData host src ;;
   pdf <- loadDocument host data ;; k2 pdf) s.
Proof.
  intro H. apply bind_cong; [reflexivity|].
  intros data s1. now apply loadDocument_heal.
Qed.

Lemma analyzePdfType_heal src o s :
  analyzePdfType (heal_host host) src o s = analyzePdfType host src o s.
Proof.
  unfold analyzePdfType. cbv zeta.
  apply bind_cong; [reflexivity | intros _ s1].
  apply opening_heal.
  intros pdf s'. apply bind_cong; [|reflexivity].
  apply (for_each_ext _ _ _ (analyzePdfType_page_heal pdf _)).
Qed.

Lemma extractPdfSmart_heal src o s :
  extractPdfSmart (heal_host host) src o s = extractPdfSmart host src o s.
Proof.
  unfold extractPdfSmart. cbv zeta.
  apply bind_cong; [reflexivity | intros _ s1].
  apply bind_cong; [reflexivity | intros _ s2].
  apply bind_cong; [apply analyzePdfType_heal | intros a s3].
  apply bind_cong; [reflexivity | intros _ s4].
  apply opening_heal.
  intros pdf s'. apply bind_cong; [|reflexivity].
  apply (for_each_ext _ _ _ (extractPdfSmart_page_heal pdf _)).
Qed.

End StreamFailureRuns.

(** C3 as stated fails: the only page of the document has an
    instruction stream that cannot be materialized, and [analyzePdfType]
    still returns a result. *)
Lemma analysis_survives_stream_failure :
  getPage document_stream_fails 1 = Some page_stream_fails /\
  getOperatorList page_stream_fails display = None /\
  exists a s',
    analyzePdfType (host_of document_stream_fails) (SrcBuffer [])
                   (AnalyzeOptions.mk None) state0 = (Ok a, s') /\
    TypeAnalysis.type a = ty_text /\
    TypeStats.sampledPages (TypeAnalysis.stats a) = 1.
Proof.
  split; [reflexivity | split; [reflexivity|]].
  eexists. eexists. split; [vm_compute; reflexivity|].
  split; reflexivity.
Qed.

(** C3 (amended): in [extractPdfData], [extractPdfDataStreaming] and
    [extractPdfStats] a run succeeds only if the instruction stream of
    every page was materialized, and a run that fails on a stream stops
    at the rejected call.  In [analyzePdfType], and so in the analysis
    phase of [extractPdfSmart], a rejected stream is caught: the run is
    the one obtained with an empty stream in its place. *)
Theorem stream_failure_surfaces_outside_analysis (host : Host) :
  (forall src s r s',
      extractPdfData host src s = (Ok r, s') ->
      exists pdf, document_of host src = Some pdf /\
                  all_streams_materialized pdf display) /\
  (forall src o s r s',
      extractPdfDataStreaming host src o s = (Ok r, s') ->
      exists pdf, document_of host src = Some pdf /\
                  all_streams_materialized pdf display) /\
  (forall src o s r s',
      extractPdfStats host src o s = (Ok r, s') ->
      exists pdf, document_of host src = Some pdf /\
                  all_streams_materialized pdf print) /\
  (forall src, tips (extractPdfData host src)) /\
  (forall src o, tips (extractPdfDataStreaming host src o)) /\
  (forall src o, tips (extractPdfStats host src o)) /\
  (forall src o s,
      analyzePdfType (heal_host host) src o s =
      analyzePdfType host src o s) /\
  (forall src o s,
      extractPdfSmart (heal_host host) src o s =
      extractPdfSmart host src o s).
Proof.
  repeat split.
  - apply extractPdfData_Ok.
  - apply extractPdfDataStreaming_Ok.
  - apply extractPdfStats_Ok.
  - apply tips_extractPdfData.
  - apply tips_extractPdfDataStreaming.
  - apply tips_extractPdfStats.
  - apply analyzePdfType_heal.
  - apply extractPdfSmart_heal.
Qed.

Lemma stream_failure_surfaces_outside_analysis_witness :
  (exists pdf, document_of sample_host (SrcBuffer []) = Some pdf /\
               all_streams_materialized pdf display) /\
  (exists intent rest,
      log (snd (extractPdfData (host_of document_stream_fails)
                               (SrcBuffer []) state0))
      = EvGetOperatorList 1 intent :: rest).
Proof.
  split.
  - refine (proj1 (stream_failure_surfaces_outside_analysis sample_host)
              (SrcBuffer []) state0 _ _ _).
    vm_compute. reflexivity.
  - refine (proj1 (proj2 (proj2 (proj2
              (stream_failure_surfaces_outside_analysis
                 (host_of document_stream_fails)))))
              (SrcBuffer []) state0 1 _ _).
    vm_compute. reflexivity.
Defined.

(* ================================================================== *)
(** * 14. The analysis result                                          *)
(* ================================================================== *)

Section NaN.

Local Open Scope float_scope.

Lemma Prim2SF_nan_mul (x : float) : Prim2SF (nan * x) = S754_nan.
Proof.
  rewrite mul_spec. change (Prim2SF nan) with S754_nan. reflexivity.
Qed.

Lemma Math_round_nan_mul (x : float) :
  Prim2SF (Math_round (nan * x)) = S754_nan.
Proof.
  unfold Math_round. rewrite Prim2SF_nan_mul. apply Prim2SF_nan_mul.
Qed.

(** Every comparison with NaN is false. *)
Lemma non_negative_NaN (x : float) :
  Prim2SF x = S754_nan -> non_negative x = false.
Proof.
  intro H. unfold non_negative. rewrite leb_spec, H.
  change (Prim2SF 0) with (S754_zero false). reflexivity.
Qed.

(** What [analyzePdfType] returns after a loop of zero iterations. *)
Lemma analysis_of_nothing (pdf : PDFDocument) :
  let a := analysis_of pdf 0 (mkTotals 0 0 0 0) in
  TypeAnalysis.type a = ty_text /\
  TypeAnalysis.confidence a = nan /\
  TypeStats.totalPages (TypeAnalysis.stats a) = numPages pdf /\
  TypeStats.sampledPages (TypeAnalysis.stats a) = 0%nat /\
  non_negative (TypeStats.estimatedTotalImages (TypeAnalysis.stats a))
    = false /\
  non_negative (TypeStats.estimatedTotalVectors (TypeAnalysis.stats a))
    = false.
Proof.
  cbv zeta. unfold analysis_of.
  cbn [totalImages totalVectors totalText pagesWithLargeImages].
  change (Number_of_nat 0 / Number_of_nat 0) with nan.
  change (classify nan nan nan) with (ty_text, nan).
  cbn [TypeAnalysis.type TypeAnalysis.confidence TypeAnalysis.stats
       TypeStats.totalPages TypeStats.sampledPages
       TypeStats.estimatedTotalImages TypeStats.estimatedTotalVectors].
  repeat split; apply non_negative_NaN, Math_round_nan_mul.
Qed.

End NaN.

(** C8 (as the code behaves): with [samplePages = 0] the sampling loop
    runs zero times, the averages are 0/0, and the analysis of any
    document that loads is returned with a confidence that is NaN, hence
    outside [0,1], and with estimated totals that are NaN, hence not
    non-negative; [sampledPages = 0 <= totalPages] holds. *)
Theorem zero_sample_confidence_is_NaN
    (host : Host) (src : PdfSource) (pdf : PDFDocument) (s : State) :
  document_of host src = Some pdf ->
  exists a s',
    analyzePdfType host src (AnalyzeOptions.mk (Some 0)) s = (Ok a, s') /\
    TypeStats.sampledPages (TypeAnalysis.stats a)
      <= TypeStats.totalPages (TypeAnalysis.stats a) /\
    is_nan (TypeAnalysis.confidence a) = true /\
    in_unit_interval (TypeAnalysis.confidence a) = false /\
    non_negative (TypeStats.estimatedTotalImages (TypeAnalysis.stats a))
      = false /\
    non_negative (TypeStats.estimatedTotalVectors (TypeAnalysis.stats a))
      = false.
Proof.
  intro D. unfold analyzePdfType. cbv zeta.
  destruct (opened_run host src pdf
              (fun pdf =>
                 t <- for_each
                        (seq 0 (pagesToAnalyze_of
                                  (option_default
                                     (AnalyzeOptions.samplePages
                                        (AnalyzeOptions.mk (Some 0))) 5)
                                  (numPages pdf)))
                        (analyzePdfType_page host pdf
                           (option_default
                              (AnalyzeOptions.samplePages
                                 (AnalyzeOptions.mk (Some 0))) 5))
                        (mkTotals 0 0 0 0) ;;
                 pdf_destroy ;;
                 ret (analysis_of pdf
                        (pagesToAnalyze_of
                           (option_default
                              (AnalyzeOptions.samplePages
                                 (AnalyzeOptions.mk (Some 0))) 5)
                           (numPages pdf)) t)) s D) as (s2 & E).
  rewrite E. clear E.
  destruct (analysis_of_nothing pdf) as (_ & C & TP & SP & EI & EV).
  eexists. eexists. split; [reflexivity|].
  change (pagesToAnalyze_of
            (option_default
               (AnalyzeOptions.samplePages (AnalyzeOptions.mk (Some 0))) 5)
            (numPages pdf)) with 0.
  rewrite SP, C. repeat split; auto. lia.
Qed.

Lemma zero_sample_confidence_is_NaN_witness :
  exists a s',
    analyzePdfType sample_host (SrcBuffer []) (AnalyzeOptions.mk (Some 0))
                   state0 = (Ok a, s') /\
    in_unit_interval (TypeAnalysis.confidence a) = false.
Proof.
  destruct (zero_sample_confidence_is_NaN sample_host (SrcBuffer [])
              sample_document state0 eq_refl)
    as (a & s' & E & _ & _ & H & _).
  exists a, s'. exact (conj E H).
Defined.

(* ================================================================== *)
(** * 15. Smart extraction                                             *)
(* ================================================================== *)

Section Smart.

Variable host : Host.

(** The two counters after one page of the full pass. *)
Lemma extractPdfSmart_page_counts pdf cb n acc s acc' s' :
  extractPdfSmart_page host pdf cb n acc s = (Ok acc', s') ->
  (snd (fst acc'), snd acc') =
    match getPage pdf n with
    | Some page =>
        smart_page_counts (_pageDict page) (snd (fst acc), snd acc)
    | None => (snd (fst acc), snd acc)
    end.
Proof.
  destruct acc as [[t i] v]. unfold extractPdfSmart_page.
  unfold await_getPage, await_getTextContent, bind, emit, settle,
         ret, throw. simpl.
  destruct (getPage pdf n) as [page|]; simpl; [|discriminate].
  destruct (getTextContent page) as [items|]; simpl; [|discriminate].
  destruct (smart_page_counts (_pageDict page) (i, v)) as [i' v'].
  unfold page_cleanup, emit. simpl.
  match goal with
  | |- context [invoke ?c ?x ?e ?st] => destruct (invoke c x e st)
                                          as [[u | e1] s1]
  end; [|discriminate].
  match goal with
  | |- context [gc_hint ?h ?c ?st] => destruct (gc_hint h c st)
                                        as [[u' | e2] s2]
  end; [|discriminate].
  intro H. inversion H; subst. reflexivity.
Qed.

End Smart.

(** C9: a successful [extractPdfSmart] ran [analyzePdfType] with
    [samplePages = 5] right after the first progress notification and
    reports that analysis' type and confidence; its two counts are the
    dictionary-based totals over all pages of the document, whatever the
    type found and whatever the instruction streams hold. *)
Theorem smart_reports_analysis_counts_dictionaries
    (host : Host) (src : PdfSource) (o : SmartOptions.t)
    (s s' : State) (r : SmartResult.t) :
  extractPdfSmart host src o s = (Ok r, s') ->
  exists a sa pdf,
    analyzePdfType host src (AnalyzeOptions.mk (Some 5))
      (snd ((setupCanvasPolyfill host ;;
             invoke (SmartOptions.onProgress o) analyzing EvProgress) s))
      = (Ok a, sa) /\
    SmartResult.pdfType r = TypeAnalysis.type a /\
    SmartResult.confidence r = TypeAnalysis.confidence a /\
    document_of host src = Some pdf /\
    (SmartResult.imageCount r, SmartResult.vectorCount r)
      = dictionary_totals pdf /\
    SmartResult.pages r = numPages pdf.
Proof.
  unfold extractPdfSmart. cbv zeta. intro E.
  apply bind_Ok_inv in E. destruct E as (u1 & s1 & E1 & E).
  apply bind_Ok_inv in E. destruct E as (u2 & s2 & E2 & E).
  apply bind_Ok_inv in E. destruct E as (a & s3 & E3 & E).
  apply bind_Ok_inv in E. destruct E as (u4 & s4 & _ & E).
  apply loaded_Ok_inv in E. destruct E as (pdf & s5 & D & E).
  apply bind_Ok_inv in E. destruct E as (acc & s6 & E6 & E).
  exists a, s3, pdf.
  rewrite (bind_Ok _ _ _ _ _ E1), E2. simpl.
  split; [exact E3|].
  pose proof (for_each_Ok_fold
                (fun acc : string * nat * nat => (snd (fst acc), snd acc))
                (fun tot n =>
                   match getPage pdf n with
                   | Some page => smart_page_counts (_pageDict page) tot
                   | None => tot
                   end)
                _ (extractPdfSmart_page_counts host pdf _)
                _ _ _ _ _ E6) as F.
  destruct acc as [[t i] v]. simpl in F.
  unfold pdf_destroy, bind, emit, ret in E. simpl in E.
  inversion E; subst. simpl.
  repeat split; try assumption.
Qed.

Lemma smart_reports_analysis_counts_dictionaries_witness :
  exists r s',
    extractPdfSmart sample_host (SrcBuffer []) no_smart_options state0
      = (Ok r, s') /\
    (SmartResult.imageCount r, SmartResult.vectorCount r)
      = dictionary_totals sample_document.
Proof.
  eexists. eexists.
  assert (E : extractPdfSmart sample_host (SrcBuffer []) no_smart_options
                state0
              = (Ok (SmartResult.mk
                       (trim ("Hello world" ++ newline ++
                              "Hello world" ++ newline))
                       2 4 2 ty_scan 0.7024999999999999%float),
                 snd (extractPdfSmart sample_host (SrcBuffer [])
                        no_smart_options state0)))
    by (vm_compute; reflexivity).
  split; [exact E|].
  destruct (smart_reports_analysis_counts_dictionaries _ _ _ _ _ _ E)
    as (a & sa & pdf & _ & _ & _ & D & C & _).
  inversion D; subst. exact C.
Defined.

(* ================================================================== *)
(** * 16. Sources that are not accepted                                *)
(* ================================================================== *)

(** C10 as stated fails for [extractPdfSmart]: its first progress
    notification precedes the loading of the source, and when that
    callback throws the caller gets the callback's error. *)
Lemma smart_callback_error_precedes_source_check :
  fst (extractPdfSmart sample_host (SrcUint8Array []) throwing_progress
         state0) = Err CallbackError.
Proof. reflexivity. Qed.

(** C10 (amended): given a Uint8Array that is no Buffer, the four
    functions [extractPdfData], [extractPdfDataStreaming],
    [extractPdfStats] and [analyzePdfType] fail with the invalid-source
    error having done nothing but the canvas set-up; so does
    [extractPdfSmart] after its first progress notification and the
    canvas set-up of the analysis, provided there is no [onProgress]
    callback or its first call returns. *)
Theorem plain_Uint8Array_is_rejected
    (host : Host) (data : bytes) (s : State) :
  let s1 := snd (setupCanvasPolyfill host s) in
  extractPdfData host (SrcUint8Array data) s = (Err InvalidSource, s1) /\
  (forall o, extractPdfDataStreaming host (SrcUint8Array data) o s
             = (Err InvalidSource, s1)) /\
  (forall o, extractPdfStats host (SrcUint8Array data) o s
             = (Err InvalidSource, s1)) /\
  (forall o, analyzePdfType host (SrcUint8Array data) o s
             = (Err InvalidSource, s1)) /\
  (forall o,
      (forall f, SmartOptions.onProgress o = Some f -> f analyzing = true) ->
      extractPdfSmart host (SrcUint8Array data) o s
      = (Err InvalidSource,
         snd (setupCanvasPolyfill host
                (snd (invoke (SmartOptions.onProgress o) analyzing
                        EvProgress s1))))).
Proof.
  cbv zeta.
  assert (E0 : setupCanvasPolyfill host s
               = (Ok tt, snd (setupCanvasPolyfill host s)))
    by (unfold setupCanvasPolyfill;
        destruct (canvasPolyfillSetup s); reflexivity).
  assert (Q : forall st, canvasPolyfillSetup st = true ->
                         setupCanvasPolyfill host st = (Ok tt, st))
    by (intros st H; unfold setupCanvasPolyfill; now rewrite H).
  repeat split.
  - unfold extractPdfData. now rewrite (bind_Ok _ _ _ _ _ E0).
  - intro o. unfold extractPdfDataStreaming. cbv zeta.
    now rewrite (bind_Ok _ _ _ _ _ E0).
  - intro o. unfold extractPdfStats. cbv zeta.
    now rewrite (bind_Ok _ _ _ _ _ E0).
  - intro o. unfold analyzePdfType. cbv zeta.
    now rewrite (bind_Ok _ _ _ _ _ E0).
  - intros o H. unfold extractPdfSmart. cbv zeta.
    rewrite (bind_Ok _ _ _ _ _ E0).
    set (s1 := snd (setupCanvasPolyfill host s)).
    assert (E1 : invoke (SmartOptions.onProgress o) analyzing EvProgress s1
                 = (Ok tt, snd (invoke (SmartOptions.onProgress o)
                                  analyzing EvProgress s1))).
    { destruct (SmartOptions.onProgress o) as [f|]; simpl; [|reflexivity].
      unfold bind, emit. simpl. now rewrite (H f eq_refl). }
    rewrite (bind_Ok _ _ _ _ _ E1).
    unfold analyzePdfType. cbv zeta. unfold bind, setupCanvasPolyfill.
    destruct (canvasPolyfillSetup _); reflexivity.
Qed.

Lemma plain_Uint8Array_is_rejected_witness :
  extractPdfSmart sample_host (SrcUint8Array []) no_smart_options state0
  = (Err InvalidSource, mkState true [EvImportCanvas true]).
Proof.
  refine (proj2 (proj2 (proj2 (proj2
            (plain_Uint8Array_is_rejected sample_host [] state0))))
            no_smart_options _).
  intros f H. discriminate H.
Defined.

(* ================================================================== *)
(** * 17. Further properties of the instruction-stream counter         *)
(* ================================================================== *)

Section CounterInvariants.

Variable T : OpsTable.

(** An opcode outside both arrays leaves the three locals as they are. *)
Lemma scan_step_unrecognized (st : ScanState) (op : Z) :
  recognized T op = false -> scan_step T st op = st.
Proof.
  unfold recognized, scan_step. intro H.
  apply orb_false_elim in H. destruct H as [-> ->]. reflexivity.
Qed.

Lemma fold_scan_filter_recognized (ops : list Z) (st : ScanState) :
  fold_left (scan_step T) (filter (recognized T) ops) st
  = fold_left (scan_step T) ops st.
Proof.
  revert st. induction ops as [|op ops IH]; intro st; simpl; [reflexivity|].
  destruct (recognized T op) eqn:E; simpl.
  - apply IH.
  - now rewrite (scan_step_unrecognized st op E).
Qed.

Lemma fold_scan_imageCount (ops : list Z) (st : ScanState) :
  imageCount (fold_left (scan_step T) ops st)
  = imageCount st + count_in (IMAGE_OPS T) ops.
Proof.
  unfold count_in. revert st.
  induction ops as [|op ops IH]; intro st; cbn [fold_left filter];
    [simpl; lia|].
  rewrite IH. unfold scan_step.
  destruct (includes (IMAGE_OPS T) op); cbn [imageCount List.length];
    [lia|].
  destruct (includes (VECTOR_OPS T) op); [|lia].
  destruct (Z.eqb op (constructPath T)),
           (includes (TERMINATOR_OPS T) op),
           (inVectorSequence st);
    cbn [imageCount vectorCount inVectorSequence]; lia.
Qed.

Lemma includes_app (l1 l2 : list Z) (op : Z) :
  includes (l1 ++ l2) op = includes l1 op || includes l2 op.
Proof. unfold includes. apply existsb_app. Qed.

(** The loop invariant behind the bound on [vectorCount]. *)
Lemma fold_scan_vector_bound (ops : list Z) (st : ScanState) :
  vectorCount (fold_left (scan_step T) ops st)
  + b2n (inVectorSequence (fold_left (scan_step T) ops st))
  <= vectorCount st + b2n (inVectorSequence st)
     + count_in (SEGMENT_OPS T) ops
     + 2 * count_in [constructPath T] ops.
Proof.
  unfold count_in. revert st.
  induction ops as [|op ops IH]; intro st; cbn [fold_left filter];
    [simpl; lia|].
  etransitivity; [apply IH|].
  destruct st as [i v b]. unfold scan_step.
  assert (V : includes (VECTOR_OPS T) op
              = includes (TERMINATOR_OPS T) op
                || (includes (SEGMENT_OPS T) op
                    || includes [constructPath T] op))
    by (rewrite <- !includes_app; reflexivity).
  assert (C : includes [constructPath T] op = Z.eqb op (constructPath T))
    by (unfold includes; simpl; apply orb_false_r).
  rewrite V, C.
  destruct (includes (IMAGE_OPS T) op),
           (includes (TERMINATOR_OPS T) op),
           (includes (SEGMENT_OPS T) op),
           (Z.eqb op (constructPath T)), b;
    cbn [vectorCount inVectorSequence b2n List.length orb]; lia.
Qed.

(** Starting the scan from other counter values shifts the outcome. *)
Lemma fold_scan_shift (ops : list Z) (i v a c : nat) (b : bool) :
  fold_left (scan_step T) ops (mkScan (i + a) (v + c) b)
  = let r := fold_left (scan_step T) ops (mkScan a c b) in
    mkScan (i + imageCount r) (v + vectorCount r) (inVectorSequence r).
Proof.
  revert a c b. induction ops as [|op ops IH]; intros a c b; simpl;
    [reflexivity|].
  assert (E : scan_step T (mkScan (i + a) (v + c) b) op
              = let r := scan_step T (mkScan a c b) op in
                mkScan (i + imageCount r) (v + vectorCount r)
                       (inVectorSequence r)).
  { unfold scan_step.
    destruct (includes (IMAGE_OPS T) op);
      [cbn [imageCount vectorCount inVectorSequence]; f_equal; lia|].
    destruct (includes (VECTOR_OPS T) op); [|reflexivity].
    destruct (Z.eqb op (constructPath T)),
             (includes (TERMINATOR_OPS T) op), b;
      cbv zeta; cbn [imageCount vectorCount inVectorSequence];
      f_equal; lia. }
  rewrite E. cbv zeta.
  destruct (scan_step T (mkScan a c b) op) as [a' c' b'].
  apply IH.
Qed.

End CounterInvariants.

(** X1: whatever the opcode table, the image count of a stream is the
    number of its opcodes that belong to [IMAGE_OPS]. *)
Theorem imageCount_counts_image_ops (T : OpsTable) (fnArray : list Z) :
  Counts.imageCount (countGraphicsObjects T fnArray)
  = count_in (IMAGE_OPS T) fnArray.
Proof.
  unfold countGraphicsObjects, finish, scan_ops. simpl.
  now rewrite fold_scan_imageCount.
Qed.

(** X2: opcodes that are in neither [IMAGE_OPS] nor [VECTOR_OPS] are
    ignored: dropping them from the stream does not change the result. *)
Theorem unrecognized_ops_are_ignored (T : OpsTable) (fnArray : list Z) :
  countGraphicsObjects T (filter (recognized T) fnArray)
  = countGraphicsObjects T fnArray.
Proof.
  unfold countGraphicsObjects, scan_ops.
  now rewrite fold_scan_filter_recognized.
Qed.

(** X3: the vector count never exceeds the number of path-segment
    opcodes plus twice the number of [constructPath] opcodes; a stream
    with neither has no vector object, whatever else it holds. *)
Theorem vectorCount_bounded_by_path_ops (T : OpsTable) (fnArray : list Z) :
  Counts.vectorCount (countGraphicsObjects T fnArray)
  <= count_in (SEGMENT_OPS T) fnArray
     + 2 * count_in [constructPath T] fnArray.
Proof.
  unfold countGraphicsObjects, finish, scan_ops. simpl.
  pose proof (fold_scan_vector_bound T fnArray scan0) as H. simpl in H.
  destruct (inVectorSequence (fold_left (scan_step T) fnArray scan0));
    simpl in H; lia.
Qed.

(** X4: when the scan of a prefix ends with no open sequence, the
    result for the whole stream is the sum of the results for the
    prefix and for the rest. *)
Theorem counts_add_after_closed_prefix (T : OpsTable) (pre post : list Z) :
  inVectorSequence (scan_ops T pre) = false ->
  countGraphicsObjects T (pre ++ post)
  = add_counts (countGraphicsObjects T pre) (countGraphicsObjects T post).
Proof.
  intro H. unfold countGraphicsObjects, scan_ops in *.
  rewrite fold_left_app.
  destruct (fold_left (scan_step T) pre scan0) as [i v b] eqn:E.
  simpl in H. subst b.
  pose proof (fold_scan_shift T post i v 0 0 false) as S.
  rewrite !Nat.add_0_r in S. unfold scan0. rewrite S. cbv zeta.
  unfold finish, add_counts. simpl.
  destruct (inVectorSequence (fold_left (scan_step T) post
                                (mkScan 0 0 false)));
    cbn [imageCount vectorCount inVectorSequence
         Counts.imageCount Counts.vectorCount]; f_equal; lia.
Qed.

Lemma counts_add_after_closed_prefix_witness :
  countGraphicsObjects sample_OPS ([13; 14; 20; 85] ++ [19; 22; 91])%Z
  = add_counts (countGraphicsObjects sample_OPS [13; 14; 20; 85]%Z)
               (countGraphicsObjects sample_OPS [19; 22; 91]%Z).
Proof.
  apply (counts_add_after_closed_prefix sample_OPS). reflexivity.
Defined.

(* ================================================================== *)
(** * 18. Further properties of sampling and classification            *)
(* ================================================================== *)

(** X5: when the sample budget covers the document, the sampling loop
    visits every page once, in order. *)
Theorem small_document_is_fully_sampled (samplePages numPages : nat) :
  numPages <= samplePages ->
  sampledPageNums samplePages numPages = seq 1 numPages.
Proof.
  intro H. unfold sampledPageNums, pagesToAnalyze_of.
  rewrite (Nat.min_r _ _ H). rewrite <- seq_shift.
  apply map_ext_in. intros i Hi. apply in_seq in Hi.
  unfold pageNum_of, step_of, pagesToAnalyze_of.
  rewrite (Nat.min_r _ _ H).
  rewrite Nat.div_same by lia. simpl Nat.max. lia.
Qed.

Lemma small_document_is_fully_sampled_witness :
  sampledPageNums 5 3 = [1; 2; 3].
Proof. apply (small_document_is_fully_sampled 5 3). lia. Defined.

Section NoGraphics.

Local Open Scope float_scope.

(** Zero divided by anything is a zero or NaN, never a positive
    number. *)
Lemma zero_div_not_positive (x : float) : (0 <? 0 / x) = false.
Proof.
  rewrite ltb_spec, div_spec. change (Prim2SF 0) with (S754_zero false).
  destruct (Prim2SF x) as [s | s | | s m e]; reflexivity.
Qed.

Lemma analysis_type (pdf : PDFDocument) (k : nat) (t : Totals) :
  TypeAnalysis.type (analysis_of pdf k t)
  = fst (classify (Number_of_nat (totalText t) / Number_of_nat k)
                  (Number_of_nat (totalImages t) / Number_of_nat k)
                  (Number_of_nat (totalVectors t) / Number_of_nat k)).
Proof.
  unfold analysis_of. cbv zeta.
  destruct (classify _ _ _) as [ty c]. reflexivity.
Qed.

End NoGraphics.

(** X6: in the classification step of [analyzePdfType], totals with no
    image are never classified as a scan, and totals with neither image
    nor vector object are classified as text, whatever the amount of
    text and the number of sampled pages (zero included). *)
Theorem no_graphics_is_text (pdf : PDFDocument) (k : nat) (t : Totals) :
  totalImages t = 0 ->
  TypeAnalysis.type (analysis_of pdf k t) <> ty_scan /\
  (totalVectors t = 0 ->
   TypeAnalysis.type (analysis_of pdf k t) = ty_text).
Proof.
  intro HI. rewrite analysis_type, HI.
  change (Number_of_nat 0) with 0%float.
  unfold classify. rewrite zero_div_not_positive, andb_false_r. simpl.
  split.
  - destruct (_ && _ && _); simpl; discriminate.
  - intro HV. rewrite HV. change (Number_of_nat 0) with 0%float.
    now rewrite zero_div_not_positive, andb_false_r.
Qed.

Lemma no_graphics_is_text_witness :
  TypeAnalysis.type
    (analysis_of sample_document 2 (mkTotals 0 0 120 0)) = ty_text.
Proof.
  exact (proj2 (no_graphics_is_text sample_document 2 (mkTotals 0 0 120 0)
                  eq_refl) eq_refl).
Defined.

(* ================================================================== *)
(** * 19. Further properties of the dictionary-based counting          *)
(* ================================================================== *)

Section DictionaryShift.

Lemma smart_xobject_entry_shift (xs : Dict) (i v a c : nat) (k : string) :
  smart_xobject_entry xs (i + a, v + c) k
  = (i + fst (smart_xobject_entry xs (a, c) k),
     v + snd (smart_xobject_entry xs (a, c) k)).
Proof.
  unfold smart_xobject_entry.
  destruct (dict_get xs k) as [[ | | | | d]|]; try reflexivity.
  destruct (dict_get d "Subtype") as [st|]; [|reflexivity].
  destruct (name_is st "Image"); [simpl; f_equal; lia|].
  destruct (name_is st "Form"); simpl; f_equal; lia.
Qed.

Lemma fold_xobject_shift (xs : Dict) (keys : list string) (i v a c : nat) :
  fold_left (smart_xobject_entry xs) keys (i + a, v + c)
  = (i + fst (fold_left (smart_xobject_entry xs) keys (a, c)),
     v + snd (fold_left (smart_xobject_entry xs) keys (a, c))).
Proof.
  revert a c. induction keys as [|k keys IH]; intros a c; simpl;
    [reflexivity|].
  rewrite smart_xobject_entry_shift.
  destruct (smart_xobject_entry xs (a, c) k) as [a' c']. apply IH.
Qed.

Lemma add_keys_shift (x : JsVal) (i v a c : nat) :
  add_keys x (i + a, v + c)
  = (i + fst (add_keys x (a, c)), v + snd (add_keys x (a, c))).
Proof. destruct x; simpl; f_equal; lia. Qed.

End DictionaryShift.

(** X7: the dictionary-based counting of a page does not depend on the
    running totals: whatever the page dictionary holds (throwing lookups
    included), it adds to the totals what it yields from zero; so the
    totals never decrease. *)
Theorem smart_page_counts_adds (pageDict : JsVal) (i v : nat) :
  smart_page_counts pageDict (i, v)
  = (i + fst (smart_page_counts pageDict (0, 0)),
     v + snd (smart_page_counts pageDict (0, 0))).
Proof.
  unfold smart_page_counts.
  destruct (opt_call_get pageDict "Resources") as [resources|];
    [|simpl; f_equal; lia].
  destruct (truthy resources); [|simpl; f_equal; lia].
  destruct (call_get resources "XObject") as [xobjects|];
    [|simpl; f_equal; lia].
  cbv zeta.
  assert (E : match xobjects with
              | VDict xs =>
                  fold_left (smart_xobject_entry xs) (getKeys xs) (i, v)
              | _ => (i, v)
              end
              = (i + fst match xobjects with
                         | VDict xs =>
                             fold_left (smart_xobject_entry xs) (getKeys xs)
                                       (0, 0)
                         | _ => (0, 0)
                         end,
                 v + snd match xobjects with
                         | VDict xs =>
                             fold_left (smart_xobject_entry xs) (getKeys xs)
                                       (0, 0)
                         | _ => (0, 0)
                         end)).
  { destruct xobjects as [ | | | | xs]; try (simpl; f_equal; lia).
    pose proof (fold_xobject_shift xs (getKeys xs) i v 0 0) as F.
    now rewrite !Nat.add_0_r in F. }
  rewrite E.
  destruct (match xobjects with
            | VDict xs =>
                fold_left (smart_xobject_entry xs) (getKeys xs) (0, 0)
            | _ => (0, 0)
            end) as [a c].
  cbn [fst snd].
  destruct (call_get resources "Pattern") as [patterns|]; [|reflexivity].
  destruct (call_get resources "Shading") as [shadings|]; [|reflexivity].
  rewrite add_keys_shift.
  destruct (add_keys patterns (a, c)) as [a' c']. cbn [fst snd].
  now rewrite add_keys_shift.
Qed.

(* ================================================================== *)
(** * 20. Reasoning about what a run logs                              *)
(* ================================================================== *)

Section LogFacts.

Context {X : Type} (pi : Event -> option X).

Lemma seen_cons (ev : Event) (flag : bool) (l : list Event) :
  seen pi (mkState flag (ev :: l)) =
    match pi ev with
    | Some x => x :: seen pi (mkState flag l)
    | None => seen pi (mkState flag l)
    end.
Proof. reflexivity. Qed.

Lemma mute_ret {A} (a : A) : mute pi (ret a).
Proof. intro s. reflexivity. Qed.

Lemma mute_throw {A} (e : Error) : mute pi (@throw A e).
Proof. intro s. reflexivity. Qed.

Lemma mute_settle {A} (o : option A) (e : Error) : mute pi (settle o e).
Proof. destruct o; [apply mute_ret | apply mute_throw]. Qed.

Lemma mute_emit (ev : Event) : pi ev = None -> mute pi (emit ev).
Proof. intros H s. unfold seen. simpl. now rewrite H. Qed.

Lemma mute_bind {A B} (m : M A) (f : A -> M B) :
  mute pi m -> (forall a, mute pi (f a)) -> mute pi (bind m f).
Proof.
  intros Hm Hf s. unfold bind. specialize (Hm s).
  destruct (m s) as [[a | e] s1]; simpl in *.
  - now rewrite Hf.
  - exact Hm.
Qed.

Lemma mute_try_catch {A} (m h : M A) :
  mute pi m -> mute pi h -> mute pi (try_catch m h).
Proof.
  intros Hm Hh s. unfold try_catch. specialize (Hm s).
  destruct (m s) as [[a | e] s1]; simpl in *.
  - exact Hm.
  - now rewrite Hh.
Qed.

Lemma mute_for_each {Y S} (l : list Y) (body : Y -> S -> M S) (acc : S) :
  (forall x a, mute pi (body x a)) -> mute pi (for_each l body acc).
Proof.
  intro H. revert acc. induction l as [|x l IH]; intro acc; simpl.
  - apply mute_ret.
  - apply mute_bind; [apply H | exact IH].
Qed.

Lemma mute_invoke {A} (cb : option (Callback A)) (info : A)
    (ev : A -> Event) :
  pi (ev info) = None -> mute pi (invoke cb info ev).
Proof.
  intro H. destruct cb as [f|]; simpl; [|apply mute_ret].
  apply mute_bind; [now apply mute_emit|].
  intros _. destruct (f info); [apply mute_ret | apply mute_throw].
Qed.

Lemma yields_of_mute {A} (m : M A) : mute pi m -> yields pi m [].
Proof.
  intros H s a s' E. specialize (H s). rewrite E in H. exact H.
Qed.

Lemma yields_emit (ev : Event) (x : X) :
  pi ev = Some x -> yields pi (emit ev) [x].
Proof.
  intros H s a s' E. inversion E; subst. unfold seen. simpl. now rewrite H.
Qed.

Lemma yields_bind {A B} (L1 L2 : list X) (m : M A) (f : A -> M B) :
  yields pi m L1 -> (forall a, yields pi (f a) L2) ->
  yields pi (bind m f) (L1 ++ L2).
Proof.
  intros Hm Hf s b s' E.
  apply bind_Ok_inv in E. destruct E as (a & s1 & E1 & E2).
  rewrite (Hf a s1 b s' E2), (Hm s a s1 E1), rev_app_distr.
  now rewrite app_assoc.
Qed.

Lemma yields_for_each {Y S} (g : Y -> list X) (l : list Y)
    (body : Y -> S -> M S) (acc : S) :
  (forall x a, yields pi (body x a) (g x)) ->
  yields pi (for_each l body acc) (flat_map g l).
Proof.
  intro H. revert acc. induction l as [|x l IH]; intro acc; simpl.
  - apply yields_of_mute, mute_ret.
  - apply yields_bind; [apply H | exact IH].
Qed.

Lemma at_most_of_mute {A} (n : nat) (m : M A) :
  mute pi m -> adds_at_most pi n m.
Proof. intros H s. rewrite (H s). lia. Qed.

Lemma at_most_weaken {A} (n n' : nat) (m : M A) :
  n <= n' -> adds_at_most pi n m -> adds_at_most pi n' m.
Proof. intros Hn H s. specialize (H s). lia. Qed.

Lemma at_most_emit (ev : Event) : adds_at_most pi 1 (emit ev).
Proof.
  intro s. unfold seen. simpl. destruct (pi ev); simpl; lia.
Qed.

Lemma at_most_bind {A B} (n1 n2 : nat) (m : M A) (f : A -> M B) :
  adds_at_most pi n1 m -> (forall a, adds_at_most pi n2 (f a)) ->
  adds_at_most pi (n1 + n2) (bind m f).
Proof.
  intros Hm Hf s. unfold bind. specialize (Hm s).
  destruct (m s) as [[a | e] s1]; simpl in *.
  - specialize (Hf a s1). lia.
  - lia.
Qed.

Lemma at_most_try_catch {A} (n1 n2 : nat) (m h : M A) :
  adds_at_most pi n1 m -> adds_at_most pi n2 h ->
  adds_at_most pi (n1 + n2) (try_catch m h).
Proof.
  intros Hm Hh s. unfold try_catch. specialize (Hm s).
  destruct (m s) as [[a | e] s1]; simpl in *.
  - lia.
  - specialize (Hh s1). lia.
Qed.

Lemma at_most_for_each {Y S} (n : nat) (l : list Y)
    (body : Y -> S -> M S) (acc : S) :
  (forall x a, adds_at_most pi n (body x a)) ->
  adds_at_most pi (List.length l * n) (for_each l body acc).
Proof.
  intro H. revert acc. induction l as [|x l IH]; intro acc; simpl.
  - apply at_most_of_mute, mute_ret.
  - apply at_most_bind; [apply H | exact IH].
Qed.

End LogFacts.

Section LogPrimitives.

Context {X : Type} (pi : Event -> option X).
Variable host : Host.

Lemma mute_setupCanvasPolyfill :
  blind_to_opening pi -> mute pi (setupCanvasPolyfill host).
Proof.
  intros (HI & _ & _) s. unfold setupCanvasPolyfill.
  destruct (canvasPolyfillSetup s); [reflexivity|].
  unfold seen. simpl. now rewrite HI.
Qed.

Lemma mute_loadPdfData (src : PdfSource) :
  blind_to_opening pi -> mute pi (loadPdfData host src).
Proof.
  intros (_ & HR & _). destruct src; simpl.
  - apply mute_bind; [apply mute_emit, HR | intros _; apply mute_settle].
  - apply mute_ret.
  - apply mute_throw.
Qed.

Lemma mute_loadDocument (data : bytes) :
  blind_to_opening pi -> mute pi (loadDocument host data).
Proof.
  intros (_ & _ & HD). unfold loadDocument.
  destruct (getDocument host data).
  - apply mute_bind; [apply mute_emit, HD | intros _; apply mute_ret].
  - apply mute_bind; [apply mute_emit, HD | intros _; apply mute_throw].
Qed.

Lemma mute_await_getPage (pdf : PDFDocument) (n : nat) :
  pi (EvGetPage n) = None -> mute pi (await_getPage pdf n).
Proof.
  intro H. apply mute_bind; [now apply mute_emit|].
  intros _. apply mute_settle.
Qed.

Lemma mute_await_getTextContent (page : Page) (n : nat) :
  pi (EvGetTextContent n) = None -> mute pi (await_getTextContent page n).
Proof.
  intro H. apply mute_bind; [now apply mute_emit|].
  intros _. apply mute_settle.
Qed.

Lemma mute_await_getOperatorList (page : Page) (n : nat) (i : Intent) :
  pi (EvGetOperatorList n i) = None ->
  mute pi (await_getOperatorList page n i).
Proof.
  intro H. apply mute_bind; [now apply mute_emit|].
  intros _. apply mute_settle.
Qed.

Lemma mute_page_cleanup (n : nat) :
  pi (EvCleanup n) = None -> mute pi (page_cleanup n).
Proof. apply mute_emit. Qed.

Lemma mute_pdf_destroy : pi EvDestroy = None -> mute pi pdf_destroy.
Proof. apply mute_emit. Qed.

Lemma mute_gc_hint (c : bool) : pi EvGc = None -> mute pi (gc_hint host c).
Proof.
  intro H. unfold gc_hint.
  destruct (c && global_gc host); [now apply mute_emit | apply mute_ret].
Qed.

(** A run that got past the loading of the document had a document to
    load, and had logged none of the selected events by then. *)
Lemma loaded_Ok_seen {B : Type} (src : PdfSource)
    (rest : PDFDocument -> M B) (s s' : State) (b : B) :
  blind_to_opening pi ->
  (data <- loadPdfData host src ;;
   pdf <- loadDocument host data ;; rest pdf) s = (Ok b, s') ->
  exists pdf s2,
    document_of host src = Some pdf /\
    seen pi s2 = seen pi s /\ rest pdf s2 = (Ok b, s').
Proof.
  intros Hb E.
  destruct (loadPdfData host src s) as [[data | e] s1] eqn:E1;
    [|rewrite (bind_Err _ _ _ _ _ E1) in E; discriminate].
  rewrite (bind_Ok _ _ _ _ _ E1) in E.
  destruct (loadDocument host data s1) as [[pdf | e] s2] eqn:E2;
    [|rewrite (bind_Err _ _ _ _ _ E2) in E; discriminate].
  rewrite (bind_Ok _ _ _ _ _ E2) in E.
  exists pdf, s2.
  pose proof (mute_loadPdfData src Hb s) as M1. rewrite E1 in M1.
  pose proof (mute_loadDocument data Hb s1) as M2. rewrite E2 in M2.
  simpl in M1, M2.
  split; [|split; [congruence | exact E]].
  destruct (loaded_Ok_inv host src (fun p => ret p) s s2 pdf)
    as (pdf' & s3 & D & R).
  - rewrite (bind_Ok _ _ _ _ _ E1), (bind_Ok _ _ _ _ _ E2). reflexivity.
  - inversion R; subst. exact D.
Qed.

Lemma opened_Ok_seen {B : Type} (src : PdfSource)
    (rest : PDFDocument -> M B) (s s' : State) (b : B) :
  blind_to_opening pi ->
  (setupCanvasPolyfill host ;;
   data <- loadPdfData host src ;;
   pdf <- loadDocument host data ;; rest pdf) s = (Ok b, s') ->
  exists pdf s2,
    document_of host src = Some pdf /\
    seen pi s2 = seen pi s /\ rest pdf s2 = (Ok b, s').
Proof.
  intros Hb E.
  destruct (setupCanvasPolyfill host s) as [[u | e] s1] eqn:E0;
    [|rewrite (bind_Err _ _ _ _ _ E0) in E; discriminate].
  rewrite (bind_Ok _ _ _ _ _ E0) in E.
  pose proof (mute_setupCanvasPolyfill Hb s) as M0. rewrite E0 in M0.
  simpl in M0.
  destruct (loaded_Ok_seen src rest s1 s' b Hb E)
    as (pdf & s2 & D & Q & R).
  exists pdf, s2. split; [exact D | split; [congruence | exact R]].
Qed.

End LogPrimitives.

Ltac mute_step :=
  first
    [ apply mute_ret | apply mute_throw | apply mute_settle
    | apply mute_await_getPage; reflexivity
    | apply mute_await_getTextContent; reflexivity
    | apply mute_await_getOperatorList; reflexivity
    | apply mute_page_cleanup; reflexivity
    | apply mute_pdf_destroy; reflexivity
    | apply mute_gc_hint; reflexivity
    | apply mute_invoke; reflexivity
    | apply mute_try_catch | apply mute_bind ].

Ltac mute_auto := repeat (intros; cbv beta; first [mute_step | open_locals]).

(* ================================================================== *)
(** * 21. What the extractors return                                   *)
(* ================================================================== *)

Section ExtractorTotals.

Variable host : Host.

Lemma fold_pair_sum {Y : Type} (a b : Y -> nat) (l : list Y) (i v : nat) :
  fold_left (fun tot n => (fst tot + a n, snd tot + b n)) l (i, v)
  = (i + list_sum (map a l), v + list_sum (map b l)).
Proof.
  revert i v. induction l as [|x l IH]; intros i v; simpl.
  - f_equal; lia.
  - rewrite IH. f_equal; lia.
Qed.

Ltac page_inversion pdf n :=
  unfold await_getPage, await_getTextContent, await_getOperatorList,
         page_cleanup, invoke, gc_hint, bind, emit, settle, ret, throw;
  unfold page_step, stream_counts;
  destruct (getPage pdf n) as [page|]; simpl; [|discriminate];
  repeat match goal with
    | |- context [if ?b then _ else _] => destruct b; simpl
    | |- context [match getTextContent page with _ => _ end] =>
        destruct (getTextContent page); simpl; [|discriminate]
    | |- context [match getOperatorList page ?i with _ => _ end] =>
        destruct (getOperatorList page i); simpl; [|discriminate]
    | |- context [match ?cb with Some _ => _ | None => _ end] =>
        is_var cb; destruct cb; simpl
    end;
  try discriminate;
  intro H; inversion H; subst; reflexivity.

Lemma extractPdfData_page_step pdf n acc s acc' s' :
  extractPdfData_page host pdf n acc s = (Ok acc', s') ->
  (snd (fst acc'), snd acc')
  = page_step (OPS host) pdf display (snd (fst acc), snd acc) n.
Proof.
  destruct acc as [[t i] v]. unfold extractPdfData_page.
  page_inversion pdf n.
Qed.

Lemma extractPdfDataStreaming_page_step pdf cb tx n acc s acc' s' :
  extractPdfDataStreaming_page host pdf cb tx n acc s = (Ok acc', s') ->
  (snd (fst acc'), snd acc')
  = page_step (OPS host) pdf display (snd (fst acc), snd acc) n.
Proof.
  destruct acc as [[t i] v]. unfold extractPdfDataStreaming_page.
  page_inversion pdf n.
Qed.

Lemma extractPdfStats_page_step pdf cb tx n acc s acc' s' :
  extractPdfStats_page host pdf cb tx n acc s = (Ok acc', s') ->
  (snd (fst acc'), snd acc')
  = page_step (OPS host) pdf print (snd (fst acc), snd acc) n.
Proof.
  destruct acc as [[t i] v]. unfold extractPdfStats_page.
  page_inversion pdf n.
Qed.

Lemma loop_totals {S : Type} (pdf : PDFDocument) (intent : Intent)
    (proj : S -> nat * nat) (body : nat -> S -> M S)
    (acc acc' : S) (s s' : State) :
  (forall n a st a' st', body n a st = (Ok a', st') ->
                         proj a' = page_step (OPS host) pdf intent (proj a) n) ->
  proj acc = (0, 0) ->
  for_each (all_pages pdf) body acc s = (Ok acc', s') ->
  proj acc' = stream_totals (OPS host) pdf intent.
Proof.
  intros Hb H0 E.
  rewrite (for_each_Ok_fold proj (page_step (OPS host) pdf intent) body Hb
             _ _ _ _ _ E), H0.
  unfold page_step. rewrite fold_pair_sum. reflexivity.
Qed.

End ExtractorTotals.

(** X8: a successful run of an extractor returns, as [imageCount] and
    [vectorCount], the sums over all pages 1..numPages of what
    [countGraphicsObjects] finds in each page's instruction stream
    (intent [display] for [extractPdfData] and
    [extractPdfDataStreaming], [print] for [extractPdfStats], which also
    returns the page count). *)
Theorem extractors_return_stream_totals (host : Host) :
  (forall src s r s',
      extractPdfData host src s = (Ok r, s') ->
      exists pdf,
        document_of host src = Some pdf /\
        (DataResult.imageCount r, DataResult.vectorCount r)
        = stream_totals (OPS host) pdf display) /\
  (forall src o s r s',
      extractPdfDataStreaming host src o s = (Ok r, s') ->
      exists pdf,
        document_of host src = Some pdf /\
        (DataResult.imageCount r, DataResult.vectorCount r)
        = stream_totals (OPS host) pdf display) /\
  (forall src o s r s',
      extractPdfStats host src o s = (Ok r, s') ->
      exists pdf,
        document_of host src = Some pdf /\
        (StatsResult.imageCount r, StatsResult.vectorCount r)
        = stream_totals (OPS host) pdf print /\
        StatsResult.pages r = numPages pdf).
Proof.
  split; [|split].
  - intros src s r s' E. unfold extractPdfData in E.
    apply opened_Ok_inv in E. destruct E as (pdf & s2 & D & E).
    exists pdf. split; [exact D|].
    apply bind_Ok_inv in E. destruct E as (acc & s3 & E & T).
    pose proof (loop_totals host pdf display
                  (fun a : string * nat * nat => (snd (fst a), snd a))
                  _ (EmptyString, 0, 0) _ _ _
                  (extractPdfData_page_step host pdf)
                  eq_refl E) as L.
    destruct acc as [[t i] v]. simpl in L.
    unfold pdf_destroy, bind, emit, ret in T. simpl in T.
    inversion T; subst. exact L.
  - intros src o s r s' E. unfold extractPdfDataStreaming in E.
    cbv zeta in E.
    apply opened_Ok_inv in E. destruct E as (pdf & s2 & D & E).
    exists pdf. split; [exact D|].
    apply bind_Ok_inv in E. destruct E as (acc & s3 & E & T).
    pose proof (loop_totals host pdf display
                  (fun a : list string * nat * nat => (snd (fst a), snd a))
                  _ ([], 0, 0) _ _ _
                  (extractPdfDataStreaming_page_step host pdf _ _)
                  eq_refl E) as L.
    destruct acc as [[t i] v]. simpl in L.
    unfold pdf_destroy, bind, emit, ret in T. simpl in T.
    inversion T; subst. exact L.
  - intros src o s r s' E. unfold extractPdfStats in E. cbv zeta in E.
    apply opened_Ok_inv in E. destruct E as (pdf & s2 & D & E).
    exists pdf. split; [exact D|].
    apply bind_Ok_inv in E. destruct E as (acc & s3 & E & T).
    pose proof (loop_totals host pdf print
                  (fun a : string * nat * nat => (snd (fst a), snd a))
                  _ (EmptyString, 0, 0) _ _ _
                  (extractPdfStats_page_step host pdf _ _)
                  eq_refl E) as L.
    destruct acc as [[t i] v]. simpl in L.
    unfold pdf_destroy, bind, emit, ret in T. simpl in T.
    inversion T; subst. split; [exact L | reflexivity].
Qed.

Lemma extractors_return_stream_totals_witness :
  exists pdf,
    document_of sample_host (SrcBuffer []) = Some pdf /\
    (2, 2) = stream_totals (OPS sample_host) pdf display.
Proof.
  exact (proj1 (extractors_return_stream_totals sample_host)
           (SrcBuffer []) state0
           (DataResult.mk
              (trim ("Hello world" ++ newline ++ "Hello world" ++ newline))
              2 2)
           (snd (extractPdfData sample_host (SrcBuffer []) state0))
           eq_refl).
Defined.

(* ================================================================== *)
(** * 22. Streaming extraction and basic extraction                    *)
(* ================================================================== *)

Section Strings.

Local Open Scope string_scope.

Lemma string_app_assoc (a b c : string) : (a ++ b) ++ c = a ++ (b ++ c).
Proof. induction a as [|ch a IH]; simpl; [reflexivity | now rewrite IH]. Qed.

Lemma trimEnd_app_newline (s : string) :
  trimEnd (s ++ newline) = trimEnd s.
Proof.
  induction s as [|c s IH]; simpl; [reflexivity|]. now rewrite IH.
Qed.

(** A trailing line feed does not survive [trim]. *)
Lemma trim_app_newline (s : string) : trim (s ++ newline) = trim s.
Proof.
  unfold trim. induction s as [|c s IH]; [reflexivity|].
  cbn [append trimStart]. destruct (is_space c); [exact IH|].
  exact (trimEnd_app_newline (String c s)).
Qed.

(** The text that [extractPdfData] accumulates for the pages whose
    texts are [chunks]. *)
Lemma lines_of_join (chunks : list string) :
  fold_right (fun c acc => c ++ newline ++ acc) "" chunks
  = match chunks with
    | [] => ""
    | _ => join newline chunks ++ newline
    end.
Proof.
  induction chunks as [|c chunks IH]; [reflexivity|].
  cbn [fold_right]. rewrite IH. unfold join.
  destruct chunks as [|c' chunks]; simpl.
  - reflexivity.
  - now rewrite !string_app_assoc.
Qed.

Lemma lines_snoc (chunks : list string) (c : string) :
  fold_right (fun c acc => c ++ newline ++ acc) "" (chunks ++ [c])
  = fold_right (fun c acc => c ++ newline ++ acc) "" chunks
    ++ c ++ newline.
Proof.
  induction chunks as [|c' chunks IH]; cbn [fold_right List.app].
  - reflexivity.
  - rewrite IH. now rewrite !string_app_assoc.
Qed.

Lemma trim_lines (chunks : list string) :
  trim (fold_right (fun c acc => c ++ newline ++ acc) "" chunks)
  = trim (join newline chunks).
Proof.
  rewrite lines_of_join. destruct chunks; [reflexivity|].
  apply trim_app_newline.
Qed.

End Strings.

Section StreamingVersusBasic.

Variable host : Host.

Lemma for_each_sim {Y S1 S2 : Type} (R : S1 -> S2 -> Prop)
    (body1 : Y -> S1 -> M S1) (body2 : Y -> S2 -> M S2) :
  (forall x a1 a2 s, R a1 a2 ->
      same_outcome R (body1 x a1 s) (body2 x a2 s)) ->
  forall l a1 a2 s, R a1 a2 ->
    same_outcome R (for_each l body1 a1 s) (for_each l body2 a2 s).
Proof.
  intro H. induction l as [|x l IH]; intros a1 a2 s HR; simpl.
  - split; [reflexivity | exact HR].
  - unfold bind. specialize (H x a1 a2 s HR). unfold same_outcome in H.
    destruct (body1 x a1 s) as [[b1 | e1] s1],
             (body2 x a2 s) as [[b2 | e2] s2]; simpl in H;
      destruct H as [Hs H]; try contradiction; subst.
    + now apply IH.
    + split; reflexivity.
Qed.

Lemma pages_in_step pdf n a1 a2 s :
  in_step a1 a2 ->
  same_outcome in_step
    (extractPdfDataStreaming_page host pdf None true n a1 s)
    (extractPdfData_page host pdf n a2 s).
Proof.
  destruct a1 as [[chunks i1] v1], a2 as [[fullText i2] v2].
  intros (Hi & Hv & Ht). simpl in Hi, Hv, Ht. subst.
  unfold extractPdfDataStreaming_page, extractPdfData_page,
         await_getPage, await_getTextContent, await_getOperatorList,
         page_cleanup, invoke, bind, emit, settle, ret, throw,
         same_outcome.
  destruct (getPage pdf n) as [page|]; simpl; [|split; reflexivity].
  destruct (getTextContent page) as [items|]; simpl; [|split; reflexivity].
  destruct (getOperatorList page display) as [ops|]; simpl;
    [|split; reflexivity].
  split; [reflexivity|].
  unfold in_step. simpl. repeat split.
  unfold lines. now rewrite lines_snoc.
Qed.

Lemma streaming_agrees (src : PdfSource) (tx : option bool) (s : State) :
  option_default tx true = true ->
  extractPdfDataStreaming host src (StreamingOptions.mk None tx) s
  = extractPdfData host src s.
Proof.
  intro Htx. unfold extractPdfDataStreaming, extractPdfData. cbv zeta.
  cbn [StreamingOptions.onPageProcessed StreamingOptions.extractText].
  rewrite Htx.
  apply bind_cong; [reflexivity | intros _ s1].
  apply bind_cong; [reflexivity | intros data s2].
  apply bind_cong; [reflexivity | intros pdf s3].
  pose proof (for_each_sim in_step _ _
                (fun n a1 a2 st => pages_in_step pdf n a1 a2 st)
                (all_pages pdf) ([], 0, 0) (EmptyString, 0, 0) s3
                (conj eq_refl (conj eq_refl eq_refl))) as H.
  unfold same_outcome in H. unfold bind at 1 3.
  destruct (for_each (all_pages pdf)
              (extractPdfDataStreaming_page host pdf None true)
              ([], 0, 0) s3) as [[[[chunks i1] v1] | e1] s4],
           (for_each (all_pages pdf) (extractPdfData_page host pdf)
              (EmptyString, 0, 0) s3) as [[[[fullText i2] v2] | e2] s5];
    simpl in H; destruct H as [Hs H]; try contradiction; subst.
  - destruct H as (Hi & Hv & Ht). simpl in Hi, Hv, Ht. subst.
    unfold pdf_destroy, bind, emit, ret. simpl.
    unfold lines. now rewrite trim_lines.
  - reflexivity.
Qed.

End StreamingVersusBasic.

(** X9: [extractPdfDataStreaming] called without [onPageProcessed] and
    with [extractText] left out or [true] behaves as [extractPdfData]:
    same collaborator calls in the same order, same error or same
    result, text included. *)
Theorem streaming_defaults_agree_with_basic
    (host : Host) (src : PdfSource) (s : State) :
  extractPdfDataStreaming host src (StreamingOptions.mk None None) s
  = extractPdfData host src s /\
  extractPdfDataStreaming host src (StreamingOptions.mk None (Some true)) s
  = extractPdfData host src s.
Proof. split; now apply streaming_agrees. Qed.

(* ================================================================== *)
(** * 23. Which pages a run visits                                     *)
(* ================================================================== *)

Section PageOrder.

Variable host : Host.

Lemma page_request_blind : blind_to_opening page_request.
Proof. repeat split. Qed.

Lemma flat_map_singleton {Y Z : Type} (f : Y -> Z) (l : list Y) :
  flat_map (fun y => [f y]) l = map f l.
Proof. induction l as [|y l IH]; simpl; [reflexivity | now rewrite IH]. Qed.

Lemma yields_await_getPage (pdf : PDFDocument) (n : nat) :
  yields page_request (await_getPage pdf n) [n].
Proof.
  apply (yields_bind page_request [n] []).
  - now apply yields_emit.
  - intros _. apply yields_of_mute, mute_settle.
Qed.

(** A page body that starts by requesting page [n] and requests no
    other page. *)
Lemma yields_page_body {A B : Type} (pdf : PDFDocument) (n : nat)
    (rest : Page -> M B) :
  (forall page, mute page_request (rest page)) ->
  yields page_request (page <- await_getPage pdf n ;; rest page) [n].
Proof.
  intro H. apply (yields_bind page_request [n] []).
  - apply yields_await_getPage.
  - intro page. apply yields_of_mute, H.
Qed.

Lemma yields_extractPdfData_page pdf n acc :
  yields page_request (extractPdfData_page host pdf n acc) [n].
Proof.
  destruct acc as [[t i] v]. unfold extractPdfData_page.
  apply (yields_page_body (A := unit)). mute_auto.
Qed.

Lemma yields_extractPdfDataStreaming_page pdf cb tx n acc :
  yields page_request
         (extractPdfDataStreaming_page host pdf cb tx n acc) [n].
Proof.
  destruct acc as [[t i] v]. unfold extractPdfDataStreaming_page.
  apply (yields_page_body (A := unit)). mute_auto.
Qed.

Lemma yields_extractPdfStats_page pdf cb tx n acc :
  yields page_request (extractPdfStats_page host pdf cb tx n acc) [n].
Proof.
  destruct acc as [[t i] v]. unfold extractPdfStats_page.
  apply (yields_page_body (A := unit)). mute_auto.
Qed.

Lemma yields_analyzePdfType_page pdf sp i t :
  yields page_request (analyzePdfType_page host pdf sp i t)
         [pageNum_of sp (numPages pdf) i].
Proof.
  unfold analyzePdfType_page. cbv zeta.
  apply (yields_page_body (A := unit)). mute_auto.
Qed.

Lemma yields_extractPdfSmart_page pdf cb n acc :
  yields page_request (extractPdfSmart_page host pdf cb n acc) [n].
Proof.
  destruct acc as [[t i] v]. unfold extractPdfSmart_page.
  apply (yields_page_body (A := unit)). mute_auto.
Qed.

(** The page loop followed by a tail that requests no page. *)
Lemma loop_then_tail {Y S B : Type} (g : Y -> nat) (l : list Y)
    (body : Y -> S -> M S) (acc : S) (k : S -> M B)
    (s s' : State) (b : B) :
  (forall x a, yields page_request (body x a) [g x]) ->
  (forall a, mute page_request (k a)) ->
  (a <- for_each l body acc ;; k a) s = (Ok b, s') ->
  seen page_request s' = rev (map g l) ++ seen page_request s.
Proof.
  intros Hb Hk E.
  apply bind_Ok_inv in E. destruct E as (a & s1 & E1 & E2).
  pose proof (yields_for_each page_request (fun x => [g x]) l body acc Hb
                s a s1 E1) as HY.
  rewrite flat_map_singleton in HY.
  pose proof (Hk a s1) as Q. rewrite E2 in Q. simpl in Q.
  now rewrite Q.
Qed.

Lemma analysis_stats (pdf : PDFDocument) (k : nat) (t : Totals) :
  TypeStats.totalPages (TypeAnalysis.stats (analysis_of pdf k t))
  = numPages pdf /\
  TypeStats.sampledPages (TypeAnalysis.stats (analysis_of pdf k t)) = k.
Proof.
  unfold analysis_of. cbv zeta.
  destruct (classify _ _ _) as [ty c]. split; reflexivity.
Qed.

Lemma extractPdfData_pages src s r s' :
  extractPdfData host src s = (Ok r, s') ->
  exists pdf,
    document_of host src = Some pdf /\
    seen page_request s' = rev (all_pages pdf) ++ seen page_request s.
Proof.
  unfold extractPdfData. intro E.
  apply (opened_Ok_seen page_request host) in E;
    [|exact page_request_blind].
  destruct E as (pdf & s2 & D & Q & E). exists pdf. split; [exact D|].
  rewrite <- Q, <- (map_id (all_pages pdf)).
  refine (loop_then_tail (fun n => n) _ _ _ _ _ _ _
            (yields_extractPdfData_page pdf) _ E).
  intros [[t i] v]. mute_auto.
Qed.

Lemma extractPdfDataStreaming_pages src o s r s' :
  extractPdfDataStreaming host src o s = (Ok r, s') ->
  exists pdf,
    document_of host src = Some pdf /\
    seen page_request s' = rev (all_pages pdf) ++ seen page_request s.
Proof.
  unfold extractPdfDataStreaming. cbv zeta. intro E.
  apply (opened_Ok_seen page_request host) in E;
    [|exact page_request_blind].
  destruct E as (pdf & s2 & D & Q & E). exists pdf. split; [exact D|].
  rewrite <- Q, <- (map_id (all_pages pdf)).
  refine (loop_then_tail (fun n => n) _ _ _ _ _ _ _
            (yields_extractPdfDataStreaming_page pdf _ _) _ E).
  intros [[t i] v]. mute_auto.
Qed.

Lemma extractPdfStats_pages src o s r s' :
  extractPdfStats host src o s = (Ok r, s') ->
  exists pdf,
    document_of host src = Some pdf /\
    seen page_request s' = rev (all_pages pdf) ++ seen page_request s.
Proof.
  unfold extractPdfStats. cbv zeta. intro E.
  apply (opened_Ok_seen page_request host) in E;
    [|exact page_request_blind].
  destruct E as (pdf & s2 & D & Q & E). exists pdf. split; [exact D|].
  rewrite <- Q, <- (map_id (all_pages pdf)).
  refine (loop_then_tail (fun n => n) _ _ _ _ _ _ _
            (yields_extractPdfStats_page pdf _ _) _ E).
  intros [[t i] v]. mute_auto.
Qed.

Lemma analyzePdfType_pages src o s a s' :
  analyzePdfType host src o s = (Ok a, s') ->
  exists pdf,
    document_of host src = Some pdf /\
    seen page_request s'
    = rev (sampledPageNums
             (option_default (AnalyzeOptions.samplePages o) 5)
             (numPages pdf))
      ++ seen page_request s /\
    TypeStats.totalPages (TypeAnalysis.stats a) = numPages pdf /\
    TypeStats.sampledPages (TypeAnalysis.stats a)
    = Nat.min (option_default (AnalyzeOptions.samplePages o) 5)
              (numPages pdf).
Proof.
  unfold analyzePdfType. cbv zeta. intro E.
  apply (opened_Ok_seen page_request host) in E;
    [|exact page_request_blind].
  destruct E as (pdf & s2 & D & Q & E). exists pdf. split; [exact D|].
  split.
  - rewrite <- Q. unfold sampledPageNums.
    refine (loop_then_tail _ _ _ _ _ _ _ _
              (yields_analyzePdfType_page pdf _) _ E).
    intros t. mute_auto.
  - apply bind_Ok_inv in E. destruct E as (t & s3 & _ & E).
    unfold pdf_destroy, bind, emit, ret in E. simpl in E.
    inversion E; subst. apply analysis_stats.
Qed.

Lemma extractPdfSmart_pages src o s r s' :
  extractPdfSmart host src o s = (Ok r, s') ->
  exists pdf,
    document_of host src = Some pdf /\
    seen page_request s'
    = rev (all_pages pdf) ++ rev (sampledPageNums 5 (numPages pdf))
      ++ seen page_request s.
Proof.
  unfold extractPdfSmart. cbv zeta. intro E.
  destruct (setupCanvasPolyfill host s) as [[u | e] s1] eqn:E0;
    [|rewrite (bind_Err _ _ _ _ _ E0) in E; discriminate].
  rewrite (bind_Ok _ _ _ _ _ E0) in E.
  pose proof (mute_setupCanvasPolyfill page_request host
                page_request_blind s) as Q0.
  rewrite E0 in Q0. simpl in Q0.
  destruct (invoke (SmartOptions.onProgress o) analyzing EvProgress s1)
    as [[u1 | e] s2] eqn:E1;
    [|rewrite (bind_Err _ _ _ _ _ E1) in E; discriminate].
  rewrite (bind_Ok _ _ _ _ _ E1) in E.
  pose proof (mute_invoke page_request (SmartOptions.onProgress o)
                analyzing EvProgress eq_refl s1) as Q1.
  rewrite E1 in Q1. simpl in Q1.
  destruct (analyzePdfType host src (AnalyzeOptions.mk (Some 5)) s2)
    as [[a | e] s3] eqn:E2;
    [|rewrite (bind_Err _ _ _ _ _ E2) in E; discriminate].
  rewrite (bind_Ok _ _ _ _ _ E2) in E.
  destruct (analyzePdfType_pages _ _ _ _ _ E2) as (pdf & D & Q2 & _).
  simpl in Q2.
  match type of E with
  | bind (invoke ?c ?i ?ev) _ _ = _ =>
      destruct (invoke c i ev s3) as [[u3 | e] s4] eqn:E3;
      [|rewrite (bind_Err _ _ _ _ _ E3) in E; discriminate];
      rewrite (bind_Ok _ _ _ _ _ E3) in E;
      pose proof (mute_invoke page_request c i ev eq_refl s3) as Q3;
      rewrite E3 in Q3; simpl in Q3
  end.
  apply (loaded_Ok_seen page_request host) in E;
    [|exact page_request_blind].
  destruct E as (pdf' & s5 & D' & Q4 & E).
  assert (pdf' = pdf) by congruence. subst pdf'.
  exists pdf. split; [exact D|].
  rewrite <- Q0, <- Q1, <- Q2, <- Q3, <- Q4, <- (map_id (all_pages pdf)).
  refine (loop_then_tail (fun n => n) _ _ _ _ _ _ _
            (yields_extractPdfSmart_page pdf _) _ E).
  intros [[t i] v]. mute_auto.
Qed.

End PageOrder.

(** X10: a successful run requests the pages of the document from the
    parser in increasing order, each once: pages 1..numPages in the
    three extractors; the sampled pages in [analyzePdfType], whose
    [stats] report [totalPages = numPages] and
    [sampledPages = min samplePages numPages]; in [extractPdfSmart] the
    pages sampled with a budget of 5 and then pages 1..numPages. *)
Theorem pages_are_requested_in_order (host : Host) :
  (forall src s r s',
      extractPdfData host src s = (Ok r, s') ->
      exists pdf,
        document_of host src = Some pdf /\
        seen page_request s' = rev (all_pages pdf) ++ seen page_request s) /\
  (forall src o s r s',
      extractPdfDataStreaming host src o s = (Ok r, s') ->
      exists pdf,
        document_of host src = Some pdf /\
        seen page_request s' = rev (all_pages pdf) ++ seen page_request s) /\
  (forall src o s r s',
      extractPdfStats host src o s = (Ok r, s') ->
      exists pdf,
        document_of host src = Some pdf /\
        seen page_request s' = rev (all_pages pdf) ++ seen page_request s) /\
  (forall src o s a s',
      analyzePdfType host src o s = (Ok a, s') ->
      exists pdf,
        document_of host src = Some pdf /\
        seen page_request s'
        = rev (sampledPageNums
                 (option_default (AnalyzeOptions.samplePages o) 5)
                 (numPages pdf))
          ++ seen page_request s /\
        TypeStats.totalPages (TypeAnalysis.stats a) = numPages pdf /\
        TypeStats.sampledPages (TypeAnalysis.stats a)
        = Nat.min (option_default (AnalyzeOptions.samplePages o) 5)
                  (numPages pdf)) /\
  (forall src o s r s',
      extractPdfSmart host src o s = (Ok r, s') ->
      exists pdf,
        document_of host src = Some pdf /\
        seen page_request s'
        = rev (all_pages pdf) ++ rev (sampledPageNums 5 (numPages pdf))
          ++ seen page_request s).
Proof.
  split; [|split; [|split; [|split]]].
  - apply extractPdfData_pages.
  - apply extractPdfDataStreaming_pages.
  - apply extractPdfStats_pages.
  - apply analyzePdfType_pages.
  - apply extractPdfSmart_pages.
Qed.

Lemma pages_are_requested_in_order_witness :
  exists pdf,
    document_of sample_host (SrcBuffer []) = Some pdf /\
    seen page_request
         (snd (extractPdfData sample_host (SrcBuffer []) state0))
    = rev (all_pages pdf) ++ seen page_request state0.
Proof.
  exact (proj1 (pages_are_requested_in_order sample_host)
           (SrcBuffer []) state0
           (DataResult.mk
              (trim ("Hello world" ++ newline ++ "Hello world" ++ newline))
              2 2)
           (snd (extractPdfData sample_host (SrcBuffer []) state0))
           eq_refl).
Defined.

(* ================================================================== *)
(** * 24. How many instruction streams a run materializes              *)
(* ================================================================== *)

Section StreamBudget.

Variable host : Host.

Lemma stream_request_blind : blind_to_opening stream_request.
Proof. repeat split. Qed.

Lemma at_most_bind_le {X A B : Type} (pi : Event -> option X)
    (n1 n2 n : nat) (m : M A) (f : A -> M B) :
  adds_at_most pi n1 m -> (forall a, adds_at_most pi n2 (f a)) ->
  n1 + n2 <= n -> adds_at_most pi n (bind m f).
Proof.
  intros Hm Hf Hn. apply (at_most_weaken pi (n1 + n2)); [exact Hn|].
  now apply at_most_bind.
Qed.

Lemma at_most_await_getOperatorList page n i :
  adds_at_most stream_request 1 (await_getOperatorList page n i).
Proof.
  apply (at_most_bind_le stream_request 1 0); [apply at_most_emit| |lia].
  intros _. apply at_most_of_mute, mute_settle.
Qed.

(** One page of the sampling loop requests at most one stream. *)
Lemma at_most_analyzePdfType_page pdf sp i t :
  adds_at_most stream_request 1 (analyzePdfType_page host pdf sp i t).
Proof.
  unfold analyzePdfType_page. cbv zeta.
  apply (at_most_bind_le stream_request 0 1);
    [apply at_most_of_mute; mute_auto | intro page | lia].
  apply (at_most_bind_le stream_request 0 1);
    [apply at_most_of_mute; mute_auto | intro items | lia].
  apply (at_most_bind_le stream_request 1 0); [| |lia].
  - apply (at_most_weaken stream_request (1 + 0)); [lia|].
    apply at_most_try_catch.
    + apply (at_most_bind_le stream_request 1 0);
        [apply at_most_await_getOperatorList | | lia].
      intro ops. apply at_most_of_mute, mute_ret.
    + apply at_most_of_mute, mute_ret.
  - intro t'. apply at_most_of_mute. mute_auto.
Qed.

Lemma mute_stream_extractPdfSmart_page pdf cb n acc :
  mute stream_request (extractPdfSmart_page host pdf cb n acc).
Proof. unfold extractPdfSmart_page. mute_auto. Qed.

Lemma at_most_analyzePdfType src o :
  adds_at_most stream_request
    (option_default (AnalyzeOptions.samplePages o) 5)
    (analyzePdfType host src o).
Proof.
  unfold analyzePdfType. cbv zeta.
  set (sp := option_default (AnalyzeOptions.samplePages o) 5).
  apply (at_most_bind_le stream_request 0 sp);
    [apply at_most_of_mute, mute_setupCanvasPolyfill,
       stream_request_blind | intros _ | lia].
  apply (at_most_bind_le stream_request 0 sp);
    [apply at_most_of_mute, mute_loadPdfData,
       stream_request_blind | intro data | lia].
  apply (at_most_bind_le stream_request 0 sp);
    [apply at_most_of_mute, mute_loadDocument,
       stream_request_blind | intro pdf | lia].
  apply (at_most_bind_le stream_request sp 0); [| |lia].
  - apply (at_most_weaken stream_request
             (List.length (seq 0 (pagesToAnalyze_of sp (numPages pdf))) * 1)).
    + rewrite length_seq. unfold pagesToAnalyze_of. lia.
    + apply at_most_for_each. apply at_most_analyzePdfType_page.
  - intro t. apply at_most_of_mute. mute_auto.
Qed.

Lemma at_most_extractPdfSmart src o :
  adds_at_most stream_request 5 (extractPdfSmart host src o).
Proof.
  unfold extractPdfSmart. cbv zeta.
  apply (at_most_bind_le stream_request 0 5);
    [apply at_most_of_mute, mute_setupCanvasPolyfill,
       stream_request_blind | intros _ | lia].
  apply (at_most_bind_le stream_request 0 5);
    [apply at_most_of_mute; now apply mute_invoke | intros _ | lia].
  apply (at_most_bind_le stream_request 5 0);
    [apply (at_most_analyzePdfType src (AnalyzeOptions.mk (Some 5)))
    | intro analysis | lia].
  apply at_most_of_mute.
  apply mute_bind; [now apply mute_invoke | intros _].
  apply mute_bind; [apply mute_loadPdfData, stream_request_blind
                   | intro data].
  apply mute_bind; [apply mute_loadDocument, stream_request_blind
                   | intro pdf].
  apply mute_bind.
  - apply mute_for_each. intros n acc.
    apply mute_stream_extractPdfSmart_page.
  - intros [[t i] v]. mute_auto.
Qed.

End StreamBudget.

(** X11: whatever the size of the document and whether the run succeeds
    or fails, [analyzePdfType] calls [getOperatorList] at most
    [samplePages] times (5 by default) and [extractPdfSmart] at most 5
    times. *)
Theorem instruction_streams_are_budgeted (host : Host) :
  (forall src o,
      adds_at_most stream_request
        (option_default (AnalyzeOptions.samplePages o) 5)
        (analyzePdfType host src o)) /\
  (forall src o,
      adds_at_most stream_request 5 (extractPdfSmart host src o)).
Proof.
  split; [apply at_most_analyzePdfType | apply at_most_extractPdfSmart].
Qed.

(* ================================================================== *)
(** * 25. Extraction without text                                      *)
(* ================================================================== *)

Section WithoutText.

Variable host : Host.

Lemma text_request_blind : blind_to_opening text_request.
Proof. repeat split. Qed.

Lemma mute_text_streaming_page pdf cb n acc :
  mute text_request (extractPdfDataStreaming_page host pdf cb false n acc).
Proof.
  destruct acc as [[t i] v]. unfold extractPdfDataStreaming_page.
  cbv iota. mute_auto.
Qed.

Lemma mute_text_stats_page pdf cb n acc :
  mute text_request (extractPdfStats_page host pdf cb false n acc).
Proof.
  destruct acc as [[t i] v]. unfold extractPdfStats_page.
  cbv iota. mute_auto.
Qed.

Lemma stats_text_unchanged pdf cb n acc s acc' s' :
  extractPdfStats_page host pdf cb false n acc s = (Ok acc', s') ->
  fst (fst acc') = fst (fst acc).
Proof.
  destruct acc as [[t i] v]. unfold extractPdfStats_page.
  unfold await_getPage, await_getOperatorList,
         page_cleanup, invoke, gc_hint, bind, emit, settle, ret, throw.
  destruct (getPage pdf n) as [page|]; simpl; [|discriminate].
  destruct (getOperatorList page print); simpl; [|discriminate].
  destruct cb as [f|]; simpl.
  - match goal with |- context [if f ?x then _ else _] => destruct (f x) end;
      simpl; [|discriminate].
    match goal with |- context [if ?b then _ else _] => destruct b end;
      simpl; intro H; inversion H; reflexivity.
  - match goal with |- context [if ?b then _ else _] => destruct b end;
      simpl; intro H; inversion H; reflexivity.
Qed.

Lemma streaming_without_text src cb :
  mute text_request
    (extractPdfDataStreaming host src (StreamingOptions.mk cb (Some false)))
  /\
  forall s r s',
    extractPdfDataStreaming host src (StreamingOptions.mk cb (Some false)) s
    = (Ok r, s') ->
    DataResult.text r = EmptyString.
Proof.
  unfold extractPdfDataStreaming. cbv zeta.
  cbn [StreamingOptions.onPageProcessed StreamingOptions.extractText
       option_default].
  split.
  - apply mute_bind; [apply mute_setupCanvasPolyfill, text_request_blind
                     | intros _].
    apply mute_bind; [apply mute_loadPdfData, text_request_blind
                     | intro data].
    apply mute_bind; [apply mute_loadDocument, text_request_blind
                     | intro pdf].
    apply mute_bind.
    + apply mute_for_each. intros n acc. apply mute_text_streaming_page.
    + intros [[t i] v]. mute_auto.
  - intros s r s' E.
    apply opened_Ok_inv in E. destruct E as (pdf & s2 & _ & E).
    apply bind_Ok_inv in E. destruct E as ([[t i] v] & s3 & _ & E).
    unfold pdf_destroy, bind, emit, ret in E. simpl in E.
    inversion E; reflexivity.
Qed.

Lemma stats_without_text src cb :
  mute text_request
    (extractPdfStats host src (StatsOptions.mk (Some false) cb))
  /\
  forall s r s',
    extractPdfStats host src (StatsOptions.mk (Some false) cb) s
    = (Ok r, s') ->
    StatsResult.text r = EmptyString.
Proof.
  unfold extractPdfStats. cbv zeta.
  cbn [StatsOptions.onPageProcessed StatsOptions.extractText
       option_default].
  split.
  - apply mute_bind; [apply mute_setupCanvasPolyfill, text_request_blind
                     | intros _].
    apply mute_bind; [apply mute_loadPdfData, text_request_blind
                     | intro data].
    apply mute_bind; [apply mute_loadDocument, text_request_blind
                     | intro pdf].
    apply mute_bind.
    + apply mute_for_each. intros n acc. apply mute_text_stats_page.
    + intros [[t i] v]. mute_auto.
  - intros s r s' E.
    apply opened_Ok_inv in E. destruct E as (pdf & s2 & _ & E).
    apply bind_Ok_inv in E. destruct E as (acc & s3 & E1 & E).
    pose proof (for_each_Ok_fold
                  (fun a : string * nat * nat => fst (fst a))
                  (fun t (_ : nat) => t) _
                  (stats_text_unchanged pdf cb)
                  _ _ _ _ _ E1) as F.
    assert (T : fst (fst acc) = EmptyString).
    { rewrite F. simpl. clear. induction (all_pages pdf); simpl; auto. }
    destruct acc as [[t i] v]. simpl in T. subst t.
    unfold pdf_destroy, bind, emit, ret in E. simpl in E.
    inversion E; reflexivity.
Qed.

End WithoutText.

(** X12: with [extractText: false], [extractPdfDataStreaming] and
    [extractPdfStats] never call [getTextContent], on any run, and a
    successful run returns the empty text. *)
Theorem no_text_requested_when_disabled (host : Host) :
  (forall src cb,
      mute text_request
        (extractPdfDataStreaming host src
           (StreamingOptions.mk cb (Some false))) /\
      forall s r s',
        extractPdfDataStreaming host src
          (StreamingOptions.mk cb (Some false)) s = (Ok r, s') ->
        DataResult.text r = EmptyString) /\
  (forall src cb,
      mute text_request
        (extractPdfStats host src (StatsOptions.mk (Some false) cb)) /\
      forall s r s',
        extractPdfStats host src (StatsOptions.mk (Some false) cb) s
        = (Ok r, s') ->
        StatsResult.text r = EmptyString).
Proof.
  split; intros src cb;
    [apply streaming_without_text | apply stats_without_text].
Qed.

Lemma no_text_requested_when_disabled_witness :
  DataResult.text
    (DataResult.mk EmptyString 2 2) = EmptyString /\
  seen text_request
       (snd (extractPdfDataStreaming sample_host (SrcBuffer [])
               (StreamingOptions.mk None (Some false)) state0))
  = seen text_request state0.
Proof.
  destruct (proj1 (no_text_requested_when_disabled sample_host)
              (SrcBuffer []) None) as [Hm Ht].
  split.
  - exact (Ht state0 (DataResult.mk EmptyString 2 2)
             (snd (extractPdfDataStreaming sample_host (SrcBuffer [])
                     (StreamingOptions.mk None (Some false)) state0))
             eq_refl).
  - exact (Hm state0).
Defined.

(* ================================================================== *)
(** * 26. What the page callback is told                               *)
(* ================================================================== *)

Section PageReports.

Variable host : Host.

Lemma page_report_blind : blind_to_opening page_report.
Proof. repeat split. Qed.

Ltac report_inversion pdf n :=
  unfold await_getPage, await_getTextContent, await_getOperatorList,
         page_cleanup, invoke, gc_hint, bind, emit, settle, ret, throw;
  unfold report_of, stream_counts;
  destruct (getPage pdf n) as [page|]; simpl; [|discriminate];
  repeat match goal with
    | |- context [match getTextContent page with _ => _ end] =>
        destruct (getTextContent page); simpl; [|discriminate]
    | |- context [match getOperatorList page ?i with _ => _ end] =>
        destruct (getOperatorList page i); simpl; [|discriminate]
    | |- context [if ?b then _ else _] => destruct b; simpl
    end;
  try discriminate;
  intro H; inversion H; subst; reflexivity.

Lemma yields_report_streaming_page pdf f tx n acc :
  yields page_report
    (extractPdfDataStreaming_page host pdf (Some f) tx n acc)
    [report_of (OPS host) pdf display n].
Proof.
  destruct acc as [[t i] v]. intros s a s'.
  unfold extractPdfDataStreaming_page.
  report_inversion pdf n.
Qed.

Lemma yields_report_stats_page pdf f tx n acc :
  yields page_report
    (extractPdfStats_page host pdf (Some f) tx n acc)
    [report_of (OPS host) pdf print n].
Proof.
  destruct acc as [[t i] v]. intros s a s'.
  unfold extractPdfStats_page.
  report_inversion pdf n.
Qed.

Lemma loop_reports {S B : Type} (pdf : PDFDocument) (intent : Intent)
    (body : nat -> S -> M S) (acc : S) (k : S -> M B)
    (s s' : State) (b : B) :
  (forall n a, yields page_report (body n a)
                      [report_of (OPS host) pdf intent n]) ->
  (forall a, mute page_report (k a)) ->
  (a <- for_each (all_pages pdf) body acc ;; k a) s = (Ok b, s') ->
  seen page_report s'
  = rev (map (report_of (OPS host) pdf intent) (all_pages pdf))
    ++ seen page_report s.
Proof.
  intros Hb Hk E.
  apply bind_Ok_inv in E. destruct E as (a & s1 & E1 & E2).
  pose proof (yields_for_each page_report
                (fun n => [report_of (OPS host) pdf intent n])
                (all_pages pdf) body acc Hb s a s1 E1) as HY.
  rewrite flat_map_singleton in HY.
  pose proof (Hk a s1) as Q. rewrite E2 in Q. simpl in Q.
  now rewrite Q.
Qed.

Lemma reports_add_up (pdf : PDFDocument) (intent : Intent) :
  (list_sum (map currentImages
               (map (report_of (OPS host) pdf intent) (all_pages pdf))),
   list_sum (map currentVectors
               (map (report_of (OPS host) pdf intent) (all_pages pdf))))
  = stream_totals (OPS host) pdf intent.
Proof. unfold stream_totals. now rewrite !map_map. Qed.

End PageReports.

(** X13: in a successful run of [extractPdfDataStreaming] or
    [extractPdfStats] with an [onPageProcessed] callback, the callback
    was called once per page, in page order, each time with that page's
    number, [totalPages = numPages] and that page's counts; the counts
    reported add up to the returned [imageCount] and [vectorCount]. *)
Theorem page_reports_cover_the_document (host : Host) :
  (forall src f tx s r s',
      extractPdfDataStreaming host src
        (StreamingOptions.mk (Some f) tx) s = (Ok r, s') ->
      exists pdf reports,
        document_of host src = Some pdf /\
        seen page_report s' = rev reports ++ seen page_report s /\
        reports = map (report_of (OPS host) pdf display) (all_pages pdf) /\
        map pageNum reports = all_pages pdf /\
        Forall (fun i => totalPages i = numPages pdf) reports /\
        list_sum (map currentImages reports) = DataResult.imageCount r /\
        list_sum (map currentVectors reports) = DataResult.vectorCount r) /\
  (forall src f tx s r s',
      extractPdfStats host src (StatsOptions.mk tx (Some f)) s = (Ok r, s') ->
      exists pdf reports,
        document_of host src = Some pdf /\
        seen page_report s' = rev reports ++ seen page_report s /\
        reports = map (report_of (OPS host) pdf print) (all_pages pdf) /\
        map pageNum reports = all_pages pdf /\
        Forall (fun i => totalPages i = numPages pdf) reports /\
        list_sum (map currentImages reports) = StatsResult.imageCount r /\
        list_sum (map currentVectors reports) = StatsResult.vectorCount r).
Proof.
  split.
  - intros src f tx s r s' E.
    destruct (proj1 (proj2 (extractors_return_stream_totals host))
                _ _ _ _ _ E) as (pdf0 & D0 & T).
    unfold extractPdfDataStreaming in E. cbv zeta in E.
    cbn [StreamingOptions.onPageProcessed StreamingOptions.extractText] in E.
    apply (opened_Ok_seen page_report host) in E;
      [|exact (page_report_blind)].
    destruct E as (pdf & s2 & D & Q & E).
    assert (pdf0 = pdf) by congruence. subst pdf0.
    exists pdf, (map (report_of (OPS host) pdf display) (all_pages pdf)).
    split; [exact D|]. split.
    { rewrite <- Q.
      refine (loop_reports host pdf display _ _ _ _ _ _
                (yields_report_streaming_page host pdf f _) _ E).
      intros [[t i] v]. mute_auto. }
    split; [reflexivity|]. split; [rewrite map_map; apply map_id|].
    split; [apply Forall_forall; intros i Hi; apply in_map_iff in Hi;
            destruct Hi as (n & <- & _); reflexivity|].
    pose proof (reports_add_up host pdf display) as A.
    rewrite <- T in A. inversion A. split; reflexivity.
  - intros src f tx s r s' E.
    destruct (proj2 (proj2 (extractors_return_stream_totals host))
                _ _ _ _ _ E) as (pdf0 & D0 & T & _).
    unfold extractPdfStats in E. cbv zeta in E.
    cbn [StatsOptions.onPageProcessed StatsOptions.extractText] in E.
    apply (opened_Ok_seen page_report host) in E;
      [|exact (page_report_blind)].
    destruct E as (pdf & s2 & D & Q & E).
    assert (pdf0 = pdf) by congruence. subst pdf0.
    exists pdf, (map (report_of (OPS host) pdf print) (all_pages pdf)).
    split; [exact D|]. split.
    { rewrite <- Q.
      refine (loop_reports host pdf print _ _ _ _ _ _
                (yields_report_stats_page host pdf f _) _ E).
      intros [[t i] v]. mute_auto. }
    split; [reflexivity|]. split; [rewrite map_map; apply map_id|].
    split; [apply Forall_forall; intros i Hi; apply in_map_iff in Hi;
            destruct Hi as (n & <- & _); reflexivity|].
    pose proof (reports_add_up host pdf print) as A.
    rewrite <- T in A. inversion A. split; reflexivity.
Qed.

Lemma page_reports_cover_the_document_witness :
  exists pdf reports,
    document_of sample_host (SrcBuffer []) = Some pdf /\
    reports = map (report_of (OPS sample_host) pdf display) (all_pages pdf) /\
    list_sum (map currentImages reports) = 2.
Proof.
  destruct (proj1 (page_reports_cover_the_document sample_host)
              (SrcBuffer []) (fun _ => true) None state0
              (DataResult.mk
                 (trim (join newline ["Hello world"%string;
                                      "Hello world"%string])) 2 2)
              (snd (extractPdfDataStreaming sample_host (SrcBuffer [])
                      (StreamingOptions.mk (Some (fun _ => true)) None)
                      state0))
              eq_refl)
    as (pdf & reports & D & _ & R & _ & _ & I & _).
  exists pdf, reports. exact (conj D (conj R I)).
Defined.

(* ================================================================== *)
(** * 27. Sources that yield no document                               *)
(* ================================================================== *)

Section NoDocument.

Variable host : Host.

Lemma opening_fails {B : Type} (src : PdfSource)
    (rest : PDFDocument -> M B) (s : State) :
  document_of host src = None ->
  exists e s',
    (setupCanvasPolyfill host ;;
     data <- loadPdfData host src ;;
     pdf <- loadDocument host data ;; rest pdf) s = (Err e, s') /\
    (e = InvalidSource \/ e = ReadFileError \/ e = DocumentError) /\
    seen page_request s' = seen page_request s /\
    lifecycle s' = lifecycle s.
Proof.
  unfold document_of, source_data. intro D.
  unfold bind, setupCanvasPolyfill, loadPdfData, loadDocument,
         bind, emit, settle, ret, throw.
  destruct (canvasPolyfillSetup s), src as [path | data | data]; simpl;
    try (destruct (readFileSync host path) as [data|]; simpl);
    try (destruct (getDocument host data); [discriminate|]; simpl);
    eexists; eexists; (split; [reflexivity|]); auto.
Qed.

End NoDocument.

(** X14: when the source yields no document (a Uint8Array that is no
    Buffer, a file that cannot be read, bytes that the parser rejects),
    [extractPdfData], [extractPdfDataStreaming], [extractPdfStats] and
    [analyzePdfType] fail with the invalid-source, read or document
    error, without requesting a page and without calling [destroy]. *)
Theorem unusable_source_fails_before_pages (host : Host) (src : PdfSource) :
  document_of host src = None ->
  (forall s, exists e s',
      extractPdfData host src s = (Err e, s') /\
      (e = InvalidSource \/ e = ReadFileError \/ e = DocumentError) /\
      seen page_request s' = seen page_request s /\
      lifecycle s' = lifecycle s) /\
  (forall o s, exists e s',
      extractPdfDataStreaming host src o s = (Err e, s') /\
      (e = InvalidSource \/ e = ReadFileError \/ e = DocumentError) /\
      seen page_request s' = seen page_request s /\
      lifecycle s' = lifecycle s) /\
  (forall o s, exists e s',
      extractPdfStats host src o s = (Err e, s') /\
      (e = InvalidSource \/ e = ReadFileError \/ e = DocumentError) /\
      seen page_request s' = seen page_request s /\
      lifecycle s' = lifecycle s) /\
  (forall o s, exists e s',
      analyzePdfType host src o s = (Err e, s') /\
      (e = InvalidSource \/ e = ReadFileError \/ e = DocumentError) /\
      seen page_request s' = seen page_request s /\
      lifecycle s' = lifecycle s).
Proof.
  intro D. repeat split; intros.
  - unfold extractPdfData. now apply opening_fails.
  - unfold extractPdfDataStreaming. cbv zeta. now apply opening_fails.
  - unfold extractPdfStats. cbv zeta. now apply opening_fails.
  - unfold analyzePdfType. cbv zeta. now apply opening_fails.
Qed.

Lemma unusable_source_fails_before_pages_witness :
  exists e s',
    extractPdfData
      {| readFileSync := fun _ => None; OPS := sample_OPS;
         getDocument := fun _ => Some sample_document;
         canvas_import := true; global_gc := false |}
      (SrcString "missing.pdf") state0 = (Err e, s') /\
    (e = InvalidSource \/ e = ReadFileError \/ e = DocumentError) /\
    seen page_request s' = seen page_request state0 /\
    lifecycle s' = lifecycle state0.
Proof.
  exact (proj1 (unusable_source_fails_before_pages
                  {| readFileSync := fun _ => None; OPS := sample_OPS;
                     getDocument := fun _ => Some sample_document;
                     canvas_import := true; global_gc := false |}
                  (SrcString "missing.pdf") eq_refl) state0).
Defined.

(* ================================================================== *)
(** * 28. Failures stop the run                                        *)
(* ================================================================== *)

Section StopsAtFailure.

Lemma stops_ret {A} (a : A) : stops_at_failure (ret a).
Proof. intros s e s' H. discriminate. Qed.

Lemma stops_emit (ev : Event) : stops_at_failure (emit ev).
Proof. intros s e s' H. discriminate. Qed.

Lemma stops_bind {A B} (m : M A) (f : A -> M B) :
  stops_at_failure m -> (forall a, stops_at_failure (f a)) ->
  stops_at_failure (bind m f).
Proof.
  intros Hm Hf s e s'. unfold bind.
  destruct (m s) as [[a | e0] s1] eqn:E; intro H.
  - exact (Hf a s1 e s' H).
  - inversion H; subst. exact (Hm s e s' E).
Qed.

Lemma stops_try_catch {A} (m h : M A) :
  stops_at_failure h -> stops_at_failure (try_catch m h).
Proof.
  intros Hh s e s'. unfold try_catch.
  destruct (m s) as [[a | e0] s1]; intro H.
  - discriminate.
  - exact (Hh s1 e s' H).
Qed.

Lemma stops_for_each {Y S} (l : list Y) (body : Y -> S -> M S) (acc : S) :
  (forall x a, stops_at_failure (body x a)) ->
  stops_at_failure (for_each l body acc).
Proof.
  intro H. revert acc. induction l as [|x l IH]; intro acc; simpl.
  - apply stops_ret.
  - apply stops_bind; [apply H | exact IH].
Qed.

(** A call that is logged and then settles: its failure is raised by
    the logged call. *)
Lemma stops_call {A} (ev : Event) (o : option A) (e : Error) :
  raised_by e ev -> stops_at_failure (emit ev ;; settle o e).
Proof.
  intros R s e' s'. unfold bind, emit, settle, ret, throw.
  destruct o; simpl; intro H; [discriminate|].
  inversion H; subst. right. now exists ev, (log s).
Qed.

Lemma stops_invoke {A} (cb : option (Callback A)) (info : A)
    (ev : A -> Event) :
  raised_by CallbackError (ev info) -> stops_at_failure (invoke cb info ev).
Proof.
  intros R s e s'. unfold invoke, bind, emit, ret, throw.
  destruct cb as [f|]; simpl; [|discriminate].
  destruct (f info); intro H; [discriminate|].
  inversion H; subst. right. now exists (ev info), (log s).
Qed.

Variable host : Host.

Lemma stops_setupCanvasPolyfill : stops_at_failure (setupCanvasPolyfill host).
Proof.
  intros s e s'. unfold setupCanvasPolyfill.
  destruct (canvasPolyfillSetup s); discriminate.
Qed.

Lemma stops_loadPdfData src : stops_at_failure (loadPdfData host src).
Proof.
  destruct src; simpl.
  - now apply stops_call.
  - apply stops_ret.
  - intros s e s' H. inversion H. now left.
Qed.

Lemma stops_loadDocument data : stops_at_failure (loadDocument host data).
Proof.
  intros s e s'. unfold loadDocument, bind, emit, ret, throw.
  destruct (getDocument host data); simpl; intro H; [discriminate|].
  inversion H; subst. right. now exists (EvGetDocument false), (log s).
Qed.

Lemma stops_gc_hint c : stops_at_failure (gc_hint host c).
Proof.
  unfold gc_hint. destruct (c && global_gc host);
    [apply stops_emit | apply stops_ret].
Qed.

End StopsAtFailure.

Ltac stops_step :=
  first
    [ apply stops_ret
    | apply stops_call; reflexivity
    | apply stops_invoke; exact I
    | apply stops_gc_hint
    | apply stops_emit
    | apply stops_try_catch | apply stops_bind ].

Ltac stops_auto :=
  repeat (intros; cbv beta; first [stops_step | open_locals]).

Section StopsAtFailureRuns.

Variable host : Host.

Lemma stops_extractPdfData src : stops_at_failure (extractPdfData host src).
Proof.
  unfold extractPdfData.
  apply stops_bind; [apply stops_setupCanvasPolyfill | intros _].
  apply stops_bind; [apply stops_loadPdfData | intro data].
  apply stops_bind; [apply stops_loadDocument | intro pdf].
  apply stops_bind.
  - apply stops_for_each. intros n [[t i] v].
    unfold extractPdfData_page, await_getPage, await_getTextContent,
           await_getOperatorList, page_cleanup. stops_auto.
  - intros [[t i] v]. unfold pdf_destroy. stops_auto.
Qed.

Lemma stops_extractPdfDataStreaming src o :
  stops_at_failure (extractPdfDataStreaming host src o).
Proof.
  unfold extractPdfDataStreaming. cbv zeta.
  apply stops_bind; [apply stops_setupCanvasPolyfill | intros _].
  apply stops_bind; [apply stops_loadPdfData | intro data].
  apply stops_bind; [apply stops_loadDocument | intro pdf].
  apply stops_bind.
  - apply stops_for_each. intros n [[t i] v].
    unfold extractPdfDataStreaming_page, await_getPage,
           await_getTextContent, await_getOperatorList, page_cleanup.
    stops_auto.
  - intros [[t i] v]. unfold pdf_destroy. stops_auto.
Qed.

Lemma stops_extractPdfStats src o :
  stops_at_failure (extractPdfStats host src o).
Proof.
  unfold extractPdfStats. cbv zeta.
  apply stops_bind; [apply stops_setupCanvasPolyfill | intros _].
  apply stops_bind; [apply stops_loadPdfData | intro data].
  apply stops_bind; [apply stops_loadDocument | intro pdf].
  apply stops_bind.
  - apply stops_for_each. intros n [[t i] v].
    unfold extractPdfStats_page, await_getPage,
           await_getTextContent, await_getOperatorList, page_cleanup.
    stops_auto.
  - intros [[t i] v]. unfold pdf_destroy. stops_auto.
Qed.

Lemma stops_analyzePdfType src o :
  stops_at_failure (analyzePdfType host src o).
Proof.
  unfold analyzePdfType. cbv zeta.
  apply stops_bind; [apply stops_setupCanvasPolyfill | intros _].
  apply stops_bind; [apply stops_loadPdfData | intro data].
  apply stops_bind; [apply stops_loadDocument | intro pdf].
  apply stops_bind.
  - apply stops_for_each. intros n t.
    unfold analyzePdfType_page, await_getPage,
           await_getTextContent, await_getOperatorList, page_cleanup.
    cbv zeta. stops_auto.
  - intros t. unfold pdf_destroy. stops_auto.
Qed.

Lemma stops_extractPdfSmart src o :
  stops_at_failure (extractPdfSmart host src o).
Proof.
  unfold extractPdfSmart. cbv zeta.
  apply stops_bind; [apply stops_setupCanvasPolyfill | intros _].
  apply stops_bind; [now apply stops_invoke | intros _].
  apply stops_bind; [apply stops_analyzePdfType | intro analysis].
  apply stops_bind; [now apply stops_invoke | intros _].
  apply stops_bind; [apply stops_loadPdfData | intro data].
  apply stops_bind; [apply stops_loadDocument | intro pdf].
  apply stops_bind.
  - apply stops_for_each. intros n [[t i] v].
    unfold extractPdfSmart_page, await_getPage,
           await_getTextContent, page_cleanup.
    stops_auto.
  - intros [[t i] v]. unfold pdf_destroy. stops_auto.
Qed.

End StopsAtFailureRuns.

(** X15: in all five functions a run that fails does nothing after the
    call that failed: unless the error is the invalid-source error, the
    most recent entry of the log is the file read, document load, page
    request, text or stream request, or callback call that raised it;
    so no clean-up, no further page and no [destroy] follow a failure. *)
Theorem every_failure_stops_the_run (host : Host) :
  (forall src, stops_at_failure (extractPdfData host src)) /\
  (forall src o, stops_at_failure (extractPdfDataStreaming host src o)) /\
  (forall src o, stops_at_failure (extractPdfStats host src o)) /\
  (forall src o, stops_at_failure (analyzePdfType host src o)) /\
  (forall src o, stops_at_failure (extractPdfSmart host src o)).
Proof.
  split; [|split; [|split; [|split]]].
  - apply stops_extractPdfData.
  - apply stops_extractPdfDataStreaming.
  - apply stops_extractPdfStats.
  - apply stops_analyzePdfType.
  - apply stops_extractPdfSmart.
Qed.

Lemma every_failure_stops_the_run_witness :
  OperatorListError 1 = InvalidSource \/
  exists ev rest,
    log (snd (extractPdfData (host_of document_stream_fails)
                (SrcBuffer []) state0)) = ev :: rest /\
    raised_by (OperatorListError 1) ev.
Proof.
  exact (proj1 (every_failure_stops_the_run (host_of document_stream_fails))
           (SrcBuffer []) state0 (OperatorListError 1)
           (snd (extractPdfData (host_of document_stream_fails)
                   (SrcBuffer []) state0))
           eq_refl).
Defined.

(* ================================================================== *)
(** * 29. The canvas set-up                                            *)
(* ================================================================== *)

(** X16: [setupCanvasPolyfill] never fails.  Once the import has
    succeeded, a later call does nothing; while the import fails, the
    flag stays unset and every call tries the import again. *)
Theorem canvas_setup_is_retried_until_it_succeeds (host : Host) (s : State) :
  let s1 := snd (setupCanvasPolyfill host s) in
  fst (setupCanvasPolyfill host s) = Ok tt /\
  (canvas_import host = true ->
   canvasPolyfillSetup s1 = true /\
   setupCanvasPolyfill host s1 = (Ok tt, s1)) /\
  (canvas_import host = false ->
   canvasPolyfillSetup s = false ->
   canvasPolyfillSetup s1 = false /\
   log (snd (setupCanvasPolyfill host s1))
   = EvImportCanvas false :: EvImportCanvas false :: log s).
Proof.
  cbv zeta. unfold setupCanvasPolyfill.
  destruct (canvasPolyfillSetup s) eqn:F; simpl.
  - rewrite F. repeat split; auto. discriminate.
  - split; [reflexivity|]. split.
    + intro H. rewrite H. simpl. split; reflexivity.
    + intros H _. rewrite H. simpl. split; reflexivity.
Qed.

Lemma canvas_setup_is_retried_until_it_succeeds_witness :
  setupCanvasPolyfill sample_host
    (snd (setupCanvasPolyfill sample_host state0))
  = (Ok tt, snd (setupCanvasPolyfill sample_host state0)).
Proof.
  exact (proj2 (proj1 (proj2
           (canvas_setup_is_retried_until_it_succeeds sample_host state0))
           eq_refl)).
Defined.
